(** * Lens patent search client: a shallow embedding of [src/app.py]

    The development follows the Python source function by function:
    - [build_query]             (app.py, lines 31-81)
    - [extract_rows]            (app.py, lines 84-125)
    - [_post_with_retry]        (app.py, lines 11-28)
    - [lens_search_with_scroll] (app.py, lines 128-208)
    - the Streamlit run handler (app.py, lines 233-247)

    Python values are an inductive type, Python [str] is a list of Unicode
    code points, [int] is [Z], [float] is the kernel's binary64 [float].
    Exceptions are an error type; the network and the clock are an explicit
    world that is threaded through the effectful functions. *)

From Stdlib Require Import ZArith List String Ascii Bool Lia Floats DecimalString.
Import ListNotations.

Set Implicit Arguments.
Set Warnings "-register-all".

(* ================================================================= *)
(** * Python strings *)

Module PyStr.

(** A Python [str]: its sequence of code points. *)
Definition pystr : Type := list N.

(** Decoding of a UTF-8 byte sequence.  It is only used to write the string
    literals of the source the way the source spells them. *)
Fixpoint utf8_decode (bs : list N) : pystr :=
  match bs with
  | [] => []
  | b :: rest =>
      if (b <? 128)%N then b :: utf8_decode rest
      else if (b <? 224)%N then
        match rest with
        | c1 :: rest' => ((b - 192) * 64 + (c1 - 128))%N :: utf8_decode rest'
        | _ => []
        end
      else if (b <? 240)%N then
        match rest with
        | c1 :: c2 :: rest' =>
            ((b - 224) * 4096 + (c1 - 128) * 64 + (c2 - 128))%N :: utf8_decode rest'
        | _ => []
        end
      else
        match rest with
        | c1 :: c2 :: c3 :: rest' =>
            ((b - 240) * 262144 + (c1 - 128) * 4096 + (c2 - 128) * 64 + (c3 - 128))%N
              :: utf8_decode rest'
        | _ => []
        end
  end.

(** [py "..."] is the Python string literal ["..."]. *)
Definition py (s : string) : pystr :=
  utf8_decode (map N_of_ascii (list_ascii_of_string s)).

Fixpoint pystr_eqb (s t : pystr) : bool :=
  match s, t with
  | [], [] => true
  | c :: s', d :: t' => (c =? d)%N && pystr_eqb s' t'
  | _, _ => false
  end.

(** [str.isspace] on one code point: the ASCII white space of CPython
    (TAB..CR, FS..US, SPACE) and the Unicode characters of category Zs or of
    bidirectional class WS, B or S. *)
Definition is_space (c : N) : bool :=
  ((9 <=? c) && (c <=? 13) || (28 <=? c) && (c <=? 32)
   || (c =? 133) || (c =? 160) || (c =? 5760)
   || (8192 <=? c) && (c <=? 8202)
   || (c =? 8232) || (c =? 8233) || (c =? 8239) || (c =? 8287) || (c =? 12288))%N.

Fixpoint lstrip (s : pystr) : pystr :=
  match s with
  | c :: s' => if is_space c then lstrip s' else s
  | [] => []
  end.

Definition rstrip (s : pystr) : pystr := rev (lstrip (rev s)).

(** [s.strip()] *)
Definition strip (s : pystr) : pystr := rstrip (lstrip s).

(** [str(z)] for an [int]: the decimal numeral, with a minus sign when negative. *)
Definition str_of_int (z : Z) : pystr :=
  py (NilZero.string_of_int (Z.to_int z)).

End PyStr.
Export PyStr.

(* ================================================================= *)
(** * Python values, exceptions *)

(** The values [Response.json()] can deliver, which are also the values the
    program builds: [None], [bool], [int], [float], [str], [list], and [dict]
    with string keys (an association list in insertion order; a lookup takes
    the first binding of a key). *)
Inductive pyval : Type :=
| PNone
| PBool (b : bool)
| PInt (z : Z)
| PFloat (f : float)
| PStr (s : pystr)
| PList (l : list pyval)
| PDict (d : list (pystr * pyval)).

Definition pydict : Type := list (pystr * pyval).

(** [bool(v)]: the truth value Python's [if], [not], [and], [or] test. *)
Definition truthy (v : pyval) : bool :=
  match v with
  | PNone => false
  | PBool b => b
  | PInt z => negb (z =? 0)%Z
  | PFloat f => negb (PrimFloat.eqb f 0%float)
  | PStr s => match s with [] => false | _ => true end
  | PList l => match l with [] => false | _ => true end
  | PDict d => match d with [] => false | _ => true end
  end.

(** [x or y] on two values already evaluated. *)
Definition py_or (x y : pyval) : pyval := if truthy x then x else y.

Definition is_dict (v : pyval) : bool :=
  match v with PDict _ => true | _ => false end.

Definition is_str (v : pyval) : bool :=
  match v with PStr _ => true | _ => false end.

(** [key in d] and [d[key]] for a key that is present. *)
Fixpoint dict_get (d : pydict) (key : pystr) : option pyval :=
  match d with
  | [] => None
  | (k, v) :: d' => if pystr_eqb k key then Some v else dict_get d' key
  end.

(** [d[key] = v]: replaces the binding of a present key, appends otherwise. *)
Fixpoint dict_set (d : pydict) (key : pystr) (v : pyval) : pydict :=
  match d with
  | [] => [(key, v)]
  | (k, x) :: d' =>
      if pystr_eqb k key then (k, v) :: d' else (k, x) :: dict_set d' key v
  end.

(** [d.get(key, default)] on a dict. *)
Definition dict_get_or (d : pydict) (key : pystr) (default : pyval) : pyval :=
  match dict_get d key with
  | Some v => v
  | None => default
  end.

(** The exceptions the program raises or lets through. *)
Inductive exn : Type :=
| RuntimeError (msg : pystr)   (* raised by [lens_search_with_scroll] *)
| AttributeError               (* [.get] on an object that has none *)
| TypeError                    (* iteration over a number, [None] or a bool *)
| ValueError                   (* [time.sleep] of a negative or NaN length *)
| OverflowError                (* a length [time.sleep] cannot represent;
                                  an [int] too large for [float] *)
| UnboundLocalError            (* a local read before assignment *)
| JSONDecodeError              (* [Response.json()] on a body that is not JSON *)
| RequestException             (* [requests.post] failing below HTTP *)
| StopException.               (* Streamlit's [st.stop()] *)

(** What running a piece of code gives: a value, an exception, or nothing
    because the fuel of a loop's model ran out. *)
Inductive outcome (A : Type) : Type :=
| Return (a : A)
| Raise (e : exn)
| OutOfFuel.

Arguments Raise {A} e.
Arguments OutOfFuel {A}.

Definition obind {A B : Type} (m : outcome A) (k : A -> outcome B) : outcome B :=
  match m with
  | Return a => k a
  | Raise e => Raise e
  | OutOfFuel => OutOfFuel
  end.

Declare Scope pure_scope.
Delimit Scope pure_scope with pure.
Notation "x <- m ;; k" := (obind m (fun x => k))
  (at level 61, m at next level, right associativity) : pure_scope.

(** [v.get(key, default)]: only a dict has the method. *)
Definition py_get (v : pyval) (key : pystr) (default : pyval) : outcome pyval :=
  match v with
  | PDict d => Return (dict_get_or d key default)
  | _ => Raise AttributeError
  end.

(** [for item in v]: the items Python iterates over. *)
Definition py_iter (v : pyval) : outcome (list pyval) :=
  match v with
  | PList l => Return l
  | PDict d => Return (map (fun kv => PStr (fst kv)) d)
  | PStr s => Return (map (fun c => PStr [c]) s)
  | _ => Raise TypeError
  end.

(** [l[:n]] on a list. *)
Definition py_slice_to {A : Type} (l : list A) (n : Z) : list A :=
  if (0 <=? n)%Z then firstn (Z.to_nat n) l
  else firstn (Z.to_nat (Z.of_nat (List.length l) + n)) l.

(** [range(n)] *)
Definition py_range (n : Z) : list Z :=
  map Z.of_nat (seq 0 (Z.to_nat n)).

(** [len(l)] *)
Definition len {A : Type} (l : list A) : Z := Z.of_nat (List.length l).

(* ================================================================= *)
(** * [build_query] *)

(** [date_from: Optional[str]] tested by [if date_from:]. *)
Definition opt_truthy (o : option pystr) : bool :=
  match o with
  | Some s => truthy (PStr s)
  | None => false
  end.

Definition opt_value (o : option pystr) : pyval :=
  match o with
  | Some s => PStr s
  | None => PNone
  end.

(** app.py, lines 31-81.  [q["bool"]["filter"] = filters] updates the dict
    that [q] holds under ["bool"]; here that inner dict is built first. *)
Definition build_query (keyword scope : pystr) (date_from : option pystr) : pyval :=
  let keyword := strip keyword in
  let must :=
    if pystr_eqb scope (py "title") then
      [PDict [(py "match", PDict [(py "title", PStr keyword)])]]
    else if pystr_eqb scope (py "abstract") then
      [PDict [(py "match", PDict [(py "abstract", PStr keyword)])]]
    else if pystr_eqb scope (py "title+abstract") then
      [PDict [(py "bool", PDict [
         (py "should", PList [
            PDict [(py "match", PDict [(py "title", PStr keyword)])];
            PDict [(py "match", PDict [(py "abstract", PStr keyword)])]]);
         (py "minimum_should_match", PInt 1)])]]
    else
      [PDict [(py "bool", PDict [
         (py "should", PList [
            PDict [(py "match", PDict [(py "title", PStr keyword)])];
            PDict [(py "match", PDict [(py "abstract", PStr keyword)])];
            PDict [(py "match", PDict [(py "claim", PStr keyword)])]]);
         (py "minimum_should_match", PInt 1)])]] in
  let filters :=
    if opt_truthy date_from then
      [] ++ [PDict [(py "range", PDict [
                (py "date_published", PDict [(py "gte", opt_value date_from)])])]]
    else [] in
  let bool_clause := [(py "must", PList must)] in
  let bool_clause :=
    if truthy (PList filters) then dict_set bool_clause (py "filter") (PList filters)
    else bool_clause in
  PDict [(py "bool", PDict bool_clause)].

(* ================================================================= *)
(** * The world: the upstream API, the clock, the page *)

Local Open Scope Z_scope.

(** app.py, line 8 *)
Definition LENS_ENDPOINT : pystr := py "https://api.lens.org/patent/search".

(** What the program reads of a [requests.Response]: [status_code], [text],
    and the result of [json()] ([None] when the body is not JSON and [json()]
    raises). *)
Record Response : Type := mkResponse {
  status_code : Z;
  text : pystr;
  json : option pyval
}.

(** What the program does to the outside, in the order it does it. *)
Inductive event : Type :=
| Post (url : pystr) (headers : pydict) (payload : pyval) (timeout : Z)
| Sleep (secs : float)
| StError (msg : pystr).

(** The upstream answers the [n]-th POST of a run with [upstream n] ([None]:
    no HTTP response at all, [requests.post] raises); the trace records what
    has happened so far. *)
Record World : Type := mkWorld {
  upstream : nat -> option Response;
  trace : list event
}.

Definition is_post (e : event) : bool :=
  match e with Post _ _ _ _ => true | _ => false end.

Definition posts_made (t : list event) : nat := List.length (filter is_post t).

Definition log (e : event) (w : World) : World :=
  {| upstream := upstream w; trace := trace w ++ [e] |}.

(** Effectful code: a function of the world that gives an outcome and the
    world after it. *)
Definition M (A : Type) : Type := World -> outcome A * World.

Definition ret {A : Type} (a : A) : M A := fun w => (Return a, w).

Definition raise {A : Type} (e : exn) : M A := fun w => (Raise e, w).

Definition lift {A : Type} (o : outcome A) : M A := fun w => (o, w).

Definition bind {A B : Type} (m : M A) (k : A -> M B) : M B :=
  fun w =>
    match m w with
    | (Return a, w') => k a w'
    | (Raise e, w') => (Raise e, w')
    | (OutOfFuel, w') => (OutOfFuel, w')
    end.

Declare Scope eff_scope.
Delimit Scope eff_scope with eff.
Notation "x <- m ;; k" := (bind m (fun x => k))
  (at level 61, m at next level, right associativity) : eff_scope.
Notation "m ;;; k" := (bind m (fun _ => k))
  (at level 61, right associativity) : eff_scope.

(** [requests.post(url, headers=..., json=..., timeout=...)] *)
Definition requests_post (url : pystr) (headers : pydict) (payload : pyval)
    (timeout : Z) : M Response :=
  fun w =>
    let w' := log (Post url headers payload timeout) w in
    match upstream w (posts_made (trace w)) with
    | Some r => (Return r, w')
    | None => (Raise RequestException, w')
    end.

(** The binary64 float nearest to the integer [z] (ties to even; infinite
    when [z] is beyond the largest finite float). *)
Definition to_float (z : Z) : float :=
  SF2Prim (binary_normalize prec emax z 0 false).

(** [float(z)] as Python converts the [int] operand of a [float] operation:
    the nearest float, [OverflowError] when there is no finite one. *)
Definition float_of_int (z : Z) : outcome float :=
  if is_infinity (to_float z) then Raise OverflowError else Return (to_float z).

(** [x * n] for a [float] [x] and an [int] [n]. *)
Definition float_mul_int (x : float) (n : Z) : outcome float :=
  (f <- float_of_int n ;; Return (x * f)%float)%pure.

(** What [time.sleep(secs)] raises instead of sleeping: CPython refuses NaN,
    converts the length to a signed 64-bit count of nanoseconds and refuses
    one beyond that range, then refuses a negative length. *)
Definition sleep_refusal (secs : float) : option exn :=
  let ns := (secs * 1000000000)%float in
  if is_nan secs then Some ValueError
  else if (ns <? -9223372036854775808)%float || (9223372036854775808 <=? ns)%float
       then Some OverflowError
  else if (secs <? 0)%float then Some ValueError
  else None.

(** [time.sleep(secs)] *)
Definition time_sleep (secs : float) : M unit :=
  fun w =>
    match sleep_refusal secs with
    | Some e => (Raise e, w)
    | None => (Return tt, log (Sleep secs) w)
    end.

(** [max(a, b)] on floats: the first argument unless the second is greater. *)
Definition py_max (a b : float) : float :=
  if (a <? b)%float then b else a.

(** [st.error(msg)] and [st.stop()] *)
Definition st_error (msg : pystr) : M unit :=
  fun w => (Return tt, log (StError msg) w).

Definition st_stop {A : Type} : M A := raise StopException.

(* ================================================================= *)
(** * [_post_with_retry] *)

(** app.py, lines 21-28: the [for] loop over [range(max_retries + 1)], with
    [last] the value of the local [r] (unbound before the first attempt). *)
Fixpoint retry_attempts (attempts : list Z) (last : option Response)
    (headers : pydict) (payload : pyval) (timeout : Z) (backoff_sec : float)
    : M Response :=
  match attempts with
  | [] =>
      match last with
      | Some r => ret r
      | None => raise UnboundLocalError
      end
  | attempt :: rest =>
      (r <- requests_post LENS_ENDPOINT headers payload timeout ;;
       if (status_code r =? 429)%Z then
         sleep_s <- lift (float_mul_int backoff_sec (attempt + 1)) ;;
         time_sleep sleep_s ;;;
         retry_attempts rest (Some r) headers payload timeout backoff_sec
       else ret r)%eff
  end.

(** app.py, lines 11-28 *)
Definition _post_with_retry (headers : pydict) (payload : pyval) (timeout : Z)
    (max_retries : Z) (backoff_sec : float) : M Response :=
  retry_attempts (py_range (max_retries + 1)) None headers payload timeout backoff_sec.

(** The defaults of [_post_with_retry]. *)
Definition default_max_retries : Z := 4.
Definition default_backoff_sec : float := 2%float.

(* ================================================================= *)
(** * [extract_rows] and [lens_search_with_scroll] *)

Section Interpreter.

(** [repr(v)] of a float, a list or a dict: what [str()] and an f-string's
    [{v}] give for them.  The program only passes it through. *)
Variable py_repr : pyval -> pystr.

(** [{v}] inside an f-string, that is [format(v, '')]. *)
Definition format_value (v : pyval) : pystr :=
  match v with
  | PStr s => s
  | PNone => py "None"
  | PBool true => py "True"
  | PBool false => py "False"
  | PInt z => str_of_int z
  | _ => py_repr v
  end.

(** [e1 or e2]: [e2] is evaluated only when [e1] is falsy. *)
Definition py_or_lazy (e1 e2 : outcome pyval) : outcome pyval :=
  (x <- e1 ;; if truthy x then Return x else e2)%pure.

(** app.py, lines 87-123: the body of the loop over the records. *)
Definition extract_row (item : pyval) : outcome pyval :=
  (lens_id <- py_get item (py "lens_id") (PStr []) ;;
   biblio <- py_or_lazy (py_get item (py "biblio") (PDict [])) (Return (PDict [])) ;;
   pub_ref <- py_or_lazy (py_get biblio (py "publication_reference") (PDict []))
                         (Return (PDict [])) ;;
   jurisdiction <- py_or_lazy (py_get pub_ref (py "jurisdiction") (PStr []))
                              (py_get pub_ref (py "country") (PStr [])) ;;
   doc_number <- py_or_lazy (py_get pub_ref (py "doc_number") (PStr []))
                            (py_get pub_ref (py "document_number") (PStr [])) ;;
   kind <- py_get pub_ref (py "kind") (PStr []) ;;
   inv_title <- py_get biblio (py "invention_title") PNone ;;
   title_text <-
     match inv_title with
     | PDict _ =>
         py_or_lazy (py_get inv_title (py "text") (PStr []))
                    (py_get inv_title (py "title") (PStr []))
     | PList (first :: _) =>
         t0 <- py_or_lazy (Return first) (Return (PDict [])) ;;
         if is_dict t0 then
           py_or_lazy (py_get t0 (py "text") (PStr []))
                      (py_get t0 (py "title") (PStr []))
         else Return (PStr [])
     | _ => Return (PStr [])
     end ;;
   date_published <- py_or_lazy (py_get item (py "date_published") (PStr []))
                                (py_get item (py "publication_date") (PStr [])) ;;
   let lens_link := PStr (py "https://www.lens.org/lens/patent/" ++ format_value lens_id) in
   let google_link :=
     if truthy jurisdiction && truthy doc_number && truthy kind then
       PStr (py "https://patents.google.com/patent/"
             ++ format_value jurisdiction ++ format_value doc_number ++ format_value kind)
     else if truthy jurisdiction && truthy doc_number then
       PStr (py "https://patents.google.com/patent/"
             ++ format_value jurisdiction ++ format_value doc_number)
     else PStr [] in
   Return (PDict [
     (py "lens_id", lens_id);
     (py "title", title_text);
     (py "jurisdiction", jurisdiction);
     (py "doc_number", doc_number);
     (py "kind", kind);
     (py "date_published", date_published);
     (py "lens_link", lens_link);
     (py "google_patents_link", google_link)]))%pure.

(** app.py, lines 84-125, on the items the [for] loop iterates over. *)
Fixpoint extract_rows (data_items : list pyval) : outcome (list pyval) :=
  match data_items with
  | [] => Return []
  | item :: rest =>
      (row <- extract_row item ;;
       rows <- extract_rows rest ;;
       Return (row :: rows))%pure
  end.

(** The [debug] dict of [lens_search_with_scroll], one field per key. *)
Record Debug : Type := mkDebug {
  pages : Z;
  scroll_id : pyval;
  last_status : option Z;
  returned : Z
}.

(** The locals the [while] loop of [lens_search_with_scroll] reads and
    assigns. *)
Record Locals : Type := mkLocals {
  all_rows : list pyval;
  loc_scroll_id : pyval;
  payload : pyval;
  debug : Debug
}.

(** How one run of the loop body ends. *)
Inductive flow : Type :=
| Break (st : Locals)
| Continue (st : Locals).

Definition include : pyval :=
  PList [PStr (py "lens_id");
         PStr (py "doc_key");
         PStr (py "biblio.publication_reference");
         PStr (py "biblio.invention_title");
         PStr (py "date_published")].

(** The messages of the three [RuntimeError]s, app.py lines 178, 180, 182. *)
Definition msg_401 : pystr :=
  py "401 Unauthorized: توکن اشتباه است یا دسترسی API فعال نیست.".

Definition msg_403 : pystr :=
  py "403 Forbidden: دسترسی API یا پلن اجازه نمی‌دهد.".

Definition msg_api_error (r : Response) : pystr :=
  py "API Error " ++ str_of_int (status_code r) ++ py ": " ++ text r.

(** [r.json()] *)
Definition response_json (r : Response) : M pyval :=
  match json r with
  | Some js => ret js
  | None => raise JSONDecodeError
  end.

Definition is_none (v : pyval) : bool :=
  match v with PNone => true | _ => false end.

Section Search.

Variables (headers : pydict) (max_results : Z) (delay_sec : float) (timeout : Z).

(** app.py, lines 171-206: what the body of the [while] loop does with the
    response [r] it received. *)
Definition handle_response (st : Locals) (r : Response) : M flow :=
  (let debug1 :=
     {| pages := pages (debug st) + 1;
        scroll_id := scroll_id (debug st);
        last_status := Some (status_code r);
        returned := returned (debug st) |} in
   if (status_code r =? 204)%Z then
     ret (Break (mkLocals (all_rows st) (loc_scroll_id st) (payload st) debug1))
   else if (status_code r =? 401)%Z then raise (RuntimeError msg_401)
   else if (status_code r =? 403)%Z then raise (RuntimeError msg_403)
   else if negb (status_code r =? 200)%Z then raise (RuntimeError (msg_api_error r))
   else
     js <- response_json r ;;
     data_items <- lift (py_or_lazy (py_get js (py "data") PNone) (Return (PList []))) ;;
     if negb (truthy data_items) then
       ret (Break (mkLocals (all_rows st) (loc_scroll_id st) (payload st) debug1))
     else
       new_id <- lift (if is_none (loc_scroll_id st)
                       then py_get js (py "scroll_id") PNone
                       else Return (loc_scroll_id st)) ;;
       let debug2 :=
         if is_none (loc_scroll_id st)
         then {| pages := pages debug1; scroll_id := new_id;
                 last_status := last_status debug1; returned := returned debug1 |}
         else debug1 in
       items <- lift (py_iter data_items) ;;
       rows <- lift (extract_rows items) ;;
       let remaining := max_results - len (all_rows st) in
       let all_rows' := all_rows st ++ py_slice_to rows remaining in
       let debug3 :=
         {| pages := pages debug2; scroll_id := scroll_id debug2;
            last_status := last_status debug2; returned := len all_rows' |} in
       if negb (truthy new_id) || (max_results <=? len all_rows')%Z then
         ret (Break (mkLocals all_rows' new_id (payload st) debug3))
       else
         let payload' := PDict [(py "scroll_id", new_id); (py "include", include)] in
         time_sleep (py_max 0 delay_sec) ;;;
         ret (Continue (mkLocals all_rows' new_id payload' debug3)))%eff.

(** app.py, lines 170-206: one run of the body of the [while] loop. *)
Definition loop_body (st : Locals) : M flow :=
  (r <- _post_with_retry headers (payload st) timeout
          default_max_retries default_backoff_sec ;;
   handle_response st r)%eff.

(** app.py, line 169: the [while] loop, given [fuel] runs of its body. *)
Fixpoint while_loop (fuel : nat) (st : Locals) : M Locals :=
  if (len (all_rows st) <? max_results)%Z then
    match fuel with
    | O => lift OutOfFuel
    | S fuel' =>
        (f <- loop_body st ;;
         match f with
         | Break st' => ret st'
         | Continue st' => while_loop fuel' st'
         end)%eff
    end
  else ret st.

End Search.

(** app.py, lines 139-142 *)
Definition request_headers (token : pystr) : pydict :=
  [(py "Authorization", PStr (py "Bearer " ++ strip token));
   (py "Content-Type", PStr (py "application/json"))].

(** app.py, lines 152-157 *)
Definition initial_debug : Debug :=
  {| pages := 0; scroll_id := PNone; last_status := None; returned := 0 |}.

(** app.py, lines 159-164 *)
Definition initial_payload (keyword scope : pystr) (date_from : option pystr)
    (max_results : Z) (scroll_ttl : pystr) : pyval :=
  PDict [(py "query", build_query keyword scope date_from);
         (py "include", include);
         (py "scroll", PStr scroll_ttl);
         (py "size", PInt (Z.min 100 max_results))].

(** The locals when the loop is entered, app.py lines 152-167. *)
Definition initial_locals (keyword scope : pystr) (date_from : option pystr)
    (max_results : Z) (scroll_ttl : pystr) : Locals :=
  {| all_rows := [];
     loc_scroll_id := PNone;
     payload := initial_payload keyword scope date_from max_results scroll_ttl;
     debug := initial_debug |}.

(** app.py, lines 128-208.  The returned [pd.DataFrame(all_rows)] is the list
    of its rows.  Every run of the loop body that does not leave the loop
    appends a row, so [max_results] runs are all the loop can make. *)
Definition lens_search_with_scroll (token keyword scope : pystr)
    (date_from : option pystr) (max_results : Z) (scroll_ttl : pystr)
    (delay_sec : float) (timeout : Z) : M (list pyval * Debug) :=
  (st <- while_loop (request_headers token) max_results delay_sec timeout
           (Z.to_nat max_results)
           (initial_locals keyword scope date_from max_results scroll_ttl) ;;
   ret (all_rows st, debug st))%eff.

(** The sidebar's widgets, app.py lines 217-229. *)
Record Sidebar : Type := mkSidebar {
  sb_token : pystr;
  sb_keyword : pystr;
  sb_scope : pystr;
  sb_year_from : Z;
  sb_max_results : Z;
  sb_scroll_ttl : pystr;
  sb_delay_sec : float;
  sb_debug_mode : bool;
  sb_run : bool
}.

Definition msg_enter_token : pystr := py "توکن Lens را وارد کن.".

(** app.py, lines 233-247: the handler of the search button, up to the call
    of the search.  It gives the search's result to the rendering code that
    follows ([None] when the button was not pressed). *)
Definition run_handler (sb : Sidebar) : M (option (list pyval * Debug)) :=
  let date_from := str_of_int (sb_year_from sb) ++ py "-01-01" in
  if sb_run sb then
    ((if negb (truthy (PStr (strip (sb_token sb)))) then
        st_error msg_enter_token ;;; st_stop
      else ret tt) ;;;
     res <- lens_search_with_scroll (sb_token sb) (sb_keyword sb) (sb_scope sb)
              (Some date_from) (sb_max_results sb) (sb_scroll_ttl sb)
              (sb_delay_sec sb) 30 ;;
     ret (Some res))%eff
  else ret None.

End Interpreter.

(* ================================================================= *)
(** * Vocabulary of the statements *)

Unset Implicit Arguments.

(** The clause [{"match": {field: keyword}}]. *)
Definition match_on (field keyword : pystr) : pyval :=
  PDict [(py "match", PDict [(field, PStr keyword)])].

(** The clause [{"bool": {"should": clauses, "minimum_should_match": 1}}]. *)
Definition at_least_one_of (clauses : list pyval) : pyval :=
  PDict [(py "bool", PDict [(py "should", PList clauses);
                            (py "minimum_should_match", PInt 1)])].

(** The filter [{"range": {"date_published": {"gte": d}}}]. *)
Definition published_from (d : pystr) : pyval :=
  PDict [(py "range", PDict [(py "date_published", PDict [(py "gte", PStr d)])])].

(** The length of the backoff after attempt number [attempt]:
    [backoff_sec * (attempt + 1)]. *)
Definition backoff_length (backoff_sec : float) (attempt : Z) : float :=
  (backoff_sec * to_float (attempt + 1))%float.

(** The backoff after attempt number [attempt] can be computed and slept:
    [attempt + 1] converts to a float and [time.sleep] takes the product. *)
Definition can_back_off (backoff_sec : float) (attempt : Z) : bool :=
  negb (is_infinity (to_float (attempt + 1)))
  && match sleep_refusal (backoff_length backoff_sec attempt) with
     | None => true
     | Some _ => false
     end.

(** What [k] rate-limited attempts in a row do, from attempt number [a] on:
    each posts the request and sleeps its backoff. *)
Definition rate_limited_attempts (headers : pydict) (payload : pyval) (timeout : Z)
    (backoff_sec : float) (a k : nat) : list event :=
  flat_map (fun i => [Post LENS_ENDPOINT headers payload timeout;
                      Sleep (backoff_length backoff_sec (Z.of_nat i))])
           (seq a k).

(** A field of a raw record as the normalizer accepts it where it expects a
    mapping: absent, falsy ([None], [{}], ...) or a dict. *)
Definition absent_falsy_or_dict (o : option pyval) : bool :=
  match o with
  | None => true
  | Some v => is_dict v || negb (truthy v)
  end.

(** The mapping the normalizer goes on with: the dict, or [{}]. *)
Definition nested_dict (o : option pyval) : pydict :=
  match o with
  | Some (PDict d) => d
  | _ => []
  end.

(** A raw record is a dict whose [biblio], and the [publication_reference]
    inside it, are each absent, falsy or a dict. *)
Definition well_nested (item : pyval) : bool :=
  match item with
  | PDict d =>
      absent_falsy_or_dict (dict_get d (py "biblio"))
      && absent_falsy_or_dict
           (dict_get (nested_dict (dict_get d (py "biblio"))) (py "publication_reference"))
  | _ => false
  end.

Definition str_or_absent (d : pydict) (key : pystr) : bool :=
  match dict_get d key with
  | None => true
  | Some v => is_str v
  end.

(** The [text] and [title] of the invention title the normalizer reads (a
    dict, or the first element of a list when that is a dict) are strings
    where present. *)
Definition title_strings (o : option pyval) : bool :=
  match o with
  | Some (PDict t) => str_or_absent t (py "text") && str_or_absent t (py "title")
  | Some (PList (PDict t :: _)) =>
      str_or_absent t (py "text") && str_or_absent t (py "title")
  | _ => true
  end.

(** Every value a raw record holds under a key the normalizer copies is a
    string. *)
Definition string_leaves (item : pyval) : bool :=
  match item with
  | PDict d =>
      let biblio := nested_dict (dict_get d (py "biblio")) in
      let pub_ref := nested_dict (dict_get biblio (py "publication_reference")) in
      str_or_absent d (py "lens_id")
      && str_or_absent d (py "date_published")
      && str_or_absent d (py "publication_date")
      && str_or_absent pub_ref (py "jurisdiction")
      && str_or_absent pub_ref (py "country")
      && str_or_absent pub_ref (py "doc_number")
      && str_or_absent pub_ref (py "document_number")
      && str_or_absent pub_ref (py "kind")
      && title_strings (dict_get biblio (py "invention_title"))
  | _ => false
  end.

(** The Google Patents link of a row whose fields are these, as lines
    108-112 of app.py compute it. *)
Definition google_link_of (py_repr : pyval -> pystr)
    (jurisdiction doc_number kind : pyval) : pyval :=
  if truthy jurisdiction && truthy doc_number && truthy kind then
    PStr (py "https://patents.google.com/patent/"
          ++ format_value py_repr jurisdiction ++ format_value py_repr doc_number
          ++ format_value py_repr kind)
  else if truthy jurisdiction && truthy doc_number then
    PStr (py "https://patents.google.com/patent/"
          ++ format_value py_repr jurisdiction ++ format_value py_repr doc_number)
  else PStr [].

(** The row dict with its eight keys in the order the source writes them. *)
Definition row_with (lens_id title jurisdiction doc_number kind date_published
                     lens_link google_link : pyval) : pyval :=
  PDict [(py "lens_id", lens_id);
         (py "title", title);
         (py "jurisdiction", jurisdiction);
         (py "doc_number", doc_number);
         (py "kind", kind);
         (py "date_published", date_published);
         (py "lens_link", lens_link);
         (py "google_patents_link", google_link)].

Definition row_keys : list pystr :=
  [py "lens_id"; py "title"; py "jurisdiction"; py "doc_number"; py "kind";
   py "date_published"; py "lens_link"; py "google_patents_link"].

(** The keys of a dict, in order; [row[key]]; all values are strings. *)
Definition keys_of (v : pyval) : option (list pystr) :=
  match v with
  | PDict d => Some (map fst d)
  | _ => None
  end.

Definition field (row : pyval) (key : pystr) : pyval :=
  match row with
  | PDict d => dict_get_or d key PNone
  | _ => PNone
  end.

Definition all_strings (row : pyval) : bool :=
  match row with
  | PDict d => forallb (fun kv => is_str (snd kv)) d
  | _ => false
  end.

(** The loop of a search that was entered with the locals [st0] in the world
    [w0] comes to test its condition with the locals [st] in the world [w]. *)
Inductive iteration (py_repr : pyval -> pystr) (headers : pydict) (max_results : Z)
    (delay_sec : float) (timeout : Z) (st0 : Locals) (w0 : World)
    : Locals -> World -> Prop :=
| iteration_first : iteration py_repr headers max_results delay_sec timeout st0 w0 st0 w0
| iteration_next (st : Locals) (w : World) (st' : Locals) (w' : World) :
    iteration py_repr headers max_results delay_sec timeout st0 w0 st w ->
    len (all_rows st) < max_results ->
    loop_body py_repr headers max_results delay_sec timeout st w
      = (Return (Continue st'), w') ->
    iteration py_repr headers max_results delay_sec timeout st0 w0 st' w'.

(** A 200 response whose body is a JSON object with the records [items]
    under ["data"] and [cursor] under ["scroll_id"] ([None] when the key is
    absent). *)
Definition is_page (r : Response) (items : list pyval) (cursor : pyval) : Prop :=
  status_code r = 200
  /\ exists js : pydict,
       json r = Some (PDict js)
       /\ dict_get js (py "data") = Some (PList items)
       /\ dict_get_or js (py "scroll_id") PNone = cursor.

(** The row of [sample_record]. *)
Definition sample_row : pyval :=
  row_with (PStr (py "031-156-664-516-153")) (PStr (py "Skin stapler"))
           (PStr (py "US")) (PStr (py "123456")) (PStr (py "A1"))
           (PStr (py "2019-05-02"))
           (PStr (py "https://www.lens.org/lens/patent/031-156-664-516-153"))
           (PStr (py "https://patents.google.com/patent/US123456A1")).

(** Sample raw records: a well-formed one; one whose publication reference
    is a list of mappings; one whose [kind] is null. *)
Definition sample_record : pyval :=
  PDict [(py "lens_id", PStr (py "031-156-664-516-153"));
         (py "biblio", PDict [
            (py "publication_reference", PDict [
               (py "jurisdiction", PStr (py "US"));
               (py "doc_number", PStr (py "123456"));
               (py "kind", PStr (py "A1"))]);
            (py "invention_title", PList [
               PDict [(py "text", PStr (py "Skin stapler")); (py "lang", PStr (py "en"))]])]);
         (py "date_published", PStr (py "2019-05-02"))].

Definition record_with_reference_list : pyval :=
  PDict [(py "lens_id", PStr (py "031-156-664-516-153"));
         (py "biblio", PDict [
            (py "publication_reference", PList [
               PDict [(py "jurisdiction", PStr (py "US"));
                      (py "doc_number", PStr (py "123456"));
                      (py "kind", PStr (py "A1"))]])])].

Definition record_with_null_kind : pyval :=
  PDict [(py "lens_id", PStr (py "031-156-664-516-153"));
         (py "biblio", PDict [
            (py "publication_reference", PDict [
               (py "jurisdiction", PStr (py "US"));
               (py "doc_number", PStr (py "123456"));
               (py "kind", PNone)])])].

(** A page of [n] sample records with the cursor [cursor]. *)
Definition sample_page (n : nat) (cursor : pystr) : Response :=
  mkResponse 200 []
    (Some (PDict [(py "data", PList (repeat sample_record n));
                  (py "scroll_id", PStr cursor)])).

(** An upstream that answers the POSTs of a run with the responses [rs] in
    turn and gives no answer once they are used up. *)
Definition scripted (rs : list Response) : nat -> option Response :=
  fun n => nth_error rs n.

(** Sample responses and a sample request. *)
Definition too_many_requests : Response :=
  mkResponse 429 (py "Too Many Requests") None.

Definition no_content : Response := mkResponse 204 [] None.

Definition unauthorized : Response :=
  mkResponse 401 (py "{'message': 'Unauthorized'}") None.

Definition sample_headers : pydict := request_headers (py "s3cr3t").

Definition sample_payload : pyval :=
  initial_payload (py "skin stapler") (py "title+abstract") (Some (py "2018-01-01"))
                  200 (py "1m").

(** What the transport may do to the outside for one request: post it to the
    Lens endpoint, or sleep a length [time.sleep] accepts. *)
Definition transport_event (headers : pydict) (payload : pyval) (timeout : Z)
    (e : event) : Prop :=
  e = Post LENS_ENDPOINT headers payload timeout
  \/ exists secs, e = Sleep secs /\ sleep_refusal secs = None.

(** The title the normalizer takes from a title mapping: [text], or [title]
    when [text] is absent or falsy. *)
Definition text_or_title_of (t : pydict) : pyval :=
  py_or (dict_get_or t (py "text") (PStr [])) (dict_get_or t (py "title") (PStr [])).

(** The payload of every request after the first page: the cursor. *)
Definition cursor_payload (cursor : pyval) : pyval :=
  PDict [(py "scroll_id", cursor); (py "include", include)].

(** The locals after a response that carries no data. *)
Definition after_no_data (st : Locals) (status : Z) : Locals :=
  mkLocals (all_rows st) (loc_scroll_id st) (payload st)
    (mkDebug (pages (debug st) + 1) (scroll_id (debug st)) (Some status)
             (returned (debug st))).

(** The locals after a page whose rows are [rows], with [new_id] the cursor
    held from then on and [next_payload] the payload of the next request. *)
Definition after_page (max_results : Z) (st : Locals) (new_id : pyval)
    (rows : list pyval) (next_payload : pyval) : Locals :=
  let all_rows' := all_rows st ++ py_slice_to rows (max_results - len (all_rows st)) in
  mkLocals all_rows' new_id next_payload
    (mkDebug (pages (debug st) + 1)
             (if is_none (loc_scroll_id st) then new_id else scroll_id (debug st))
             (Some 200) (len all_rows')).

(** What a search may do to the outside: post to the Lens endpoint with its
    headers and its timeout, or sleep a length [time.sleep] accepts. *)
Definition endpoint_event (headers : pydict) (timeout : Z) (e : event) : Prop :=
  (exists payload, e = Post LENS_ENDPOINT headers payload timeout)
  \/ exists secs, e = Sleep secs /\ sleep_refusal secs = None.

(** What holds of the locals each time the loop tests its condition. *)
Definition loop_invariant (max_results : Z) (st : Locals) : Prop :=
  returned (debug st) = len (all_rows st)
  /\ 0 <= pages (debug st) <= len (all_rows st)
  /\ (pages (debug st) = 0 ->
      last_status (debug st) = None /\ loc_scroll_id st = PNone
      /\ scroll_id (debug st) = PNone)
  /\ (0 < pages (debug st) ->
      len (all_rows st) < max_results
      /\ last_status (debug st) = Some 200
      /\ truthy (loc_scroll_id st) = true
      /\ scroll_id (debug st) = loc_scroll_id st
      /\ payload st = cursor_payload (loc_scroll_id st)).


(** Sample responses: a page with no records, a page of one record without a
    cursor, and 200 responses whose bodies are not what the loop expects. *)
Definition empty_page : Response :=
  mkResponse 200 [] (Some (PDict [(py "data", PList []); (py "total", PInt 0)])).

Definition page_without_cursor : Response :=
  mkResponse 200 [] (Some (PDict [(py "data", PList [sample_record])])).

Definition html_body : Response := mkResponse 200 (py "<html></html>") None.

Definition list_body : Response := mkResponse 200 [] (Some (PList [])).

Definition count_as_data : Response :=
  mkResponse 200 [] (Some (PDict [(py "data", PInt 3)])).

Definition text_as_data : Response :=
  mkResponse 200 [] (Some (PDict [(py "data", PStr (py "none"))])).

(** The locals and the first request of the sample search. *)
Definition sample_locals : Locals :=
  initial_locals (py "skin stapler") (py "title+abstract") (Some (py "2018-01-01"))
    200 (py "1m").

(** A record that only has the fallback keys, and its row. *)
Definition record_with_fallback_keys : pyval :=
  PDict [(py "lens_id", PStr (py "098-765-432-101-234"));
         (py "biblio", PDict [
            (py "publication_reference", PDict [
               (py "country", PStr (py "EP"));
               (py "document_number", PStr (py "0123456"));
               (py "kind", PStr (py "B1"))]);
            (py "invention_title", PDict [(py "title", PStr (py "Surgical stapler"))])]);
         (py "publication_date", PStr (py "2020-03-04"))].

Definition row_of_fallback_keys : pyval :=
  row_with (PStr (py "098-765-432-101-234")) (PStr (py "Surgical stapler"))
           (PStr (py "EP")) (PStr (py "0123456")) (PStr (py "B1"))
           (PStr (py "2020-03-04"))
           (PStr (py "https://www.lens.org/lens/patent/098-765-432-101-234"))
           (PStr (py "https://patents.google.com/patent/EP0123456B1")).

(* ================================================================= *)
(** * Strings: equality test and [strip] *)

Lemma pystr_eqb_refl (s : pystr) : pystr_eqb s s = true.
Proof.
  induction s as [|c s IH]; simpl; [reflexivity|].
  now rewrite N.eqb_refl.
Qed.

Lemma pystr_eqb_eq (s t : pystr) : pystr_eqb s t = true <-> s = t.
Proof.
  split; [|intros ->; apply pystr_eqb_refl].
  revert t; induction s as [|c s IH]; intros [|d t]; simpl; try discriminate; auto.
  intros H. apply andb_true_iff in H as [Hc Hs].
  apply N.eqb_eq in Hc. f_equal; auto.
Qed.

Lemma pystr_eqb_neq (s t : pystr) : s <> t -> pystr_eqb s t = false.
Proof.
  intros H. destruct (pystr_eqb s t) eqn:E; [|reflexivity].
  now apply pystr_eqb_eq in E.
Qed.

Lemma lstrip_idempotent (s : pystr) : lstrip (lstrip s) = lstrip s.
Proof.
  induction s as [|c s IH]; simpl; [reflexivity|].
  destruct (is_space c) eqn:E; [assumption|].
  simpl. now rewrite E.
Qed.

(** Stripping on the left keeps a last character that is not white space. *)
Lemma lstrip_keeps_last (s : pystr) (c : N) :
  is_space c = false -> exists s', lstrip (s ++ [c]) = s' ++ [c].
Proof.
  intros Hc. induction s as [|d s IH]; simpl.
  - rewrite Hc. now exists [].
  - destruct (is_space d); [assumption|]. now exists (d :: s).
Qed.

Lemma rstrip_keeps_head (c : N) (s : pystr) :
  is_space c = false -> exists s', rstrip (c :: s) = c :: s'.
Proof.
  intros Hc. unfold rstrip. simpl.
  destruct (lstrip_keeps_last (rev s) c Hc) as [s' ->].
  rewrite rev_app_distr. simpl. now exists (rev s').
Qed.

Lemma lstrip_head (s : pystr) :
  lstrip s = [] \/ exists c s', lstrip s = c :: s' /\ is_space c = false.
Proof.
  induction s as [|c s IH]; simpl; [now left|].
  destruct (is_space c) eqn:E; [assumption|].
  right. now exists c, s.
Qed.

Lemma rstrip_idempotent (s : pystr) : rstrip (rstrip s) = rstrip s.
Proof.
  unfold rstrip. now rewrite rev_involutive, lstrip_idempotent.
Qed.

Lemma lstrip_strip (s : pystr) : lstrip (strip s) = strip s.
Proof.
  unfold strip. destruct (lstrip_head s) as [E | (c & s' & E & Hc)]; rewrite E.
  - reflexivity.
  - destruct (rstrip_keeps_head c s' Hc) as [s'' ->]. simpl. now rewrite Hc.
Qed.

Lemma strip_idempotent (s : pystr) : strip (strip s) = strip s.
Proof.
  unfold strip at 1. rewrite lstrip_strip.
  unfold strip. apply rstrip_idempotent.
Qed.

(* ================================================================= *)
(** * [build_query] *)

(** C10. [build_query] strips the keyword itself: the query built from a
    keyword is the query built from the stripped keyword, for every keyword,
    scope and start date. *)
Theorem build_query_strips_keyword (keyword scope : pystr) (date_from : option pystr) :
  build_query keyword scope date_from = build_query (strip keyword) scope date_from.
Proof.
  unfold build_query. now rewrite strip_idempotent.
Qed.

(** C6, as the code has it.  The query is [{"bool": {"must": [clause]}}],
    with a ["filter"] key after ["must"] exactly when a start date is given
    and is not the empty string.  The clause is a match on title, a match on
    abstract, an at-least-one-of over title and abstract, or (every other
    scope) an at-least-one-of over title, abstract and claim; the filter list
    holds the one range filter [date_published >= date_from]. *)
Theorem build_query_clauses (keyword scope : pystr) (date_from : option pystr) :
  exists (clause : pyval) (filter_part : pydict),
    build_query keyword scope date_from
      = PDict [(py "bool", PDict ((py "must", PList [clause]) :: filter_part))]
    /\ (scope = py "title" -> clause = match_on (py "title") (strip keyword))
    /\ (scope = py "abstract" -> clause = match_on (py "abstract") (strip keyword))
    /\ (scope = py "title+abstract" ->
        clause = at_least_one_of [match_on (py "title") (strip keyword);
                                  match_on (py "abstract") (strip keyword)])
    /\ (scope <> py "title" -> scope <> py "abstract" -> scope <> py "title+abstract" ->
        clause = at_least_one_of [match_on (py "title") (strip keyword);
                                  match_on (py "abstract") (strip keyword);
                                  match_on (py "claim") (strip keyword)])
    /\ (forall d, date_from = Some d -> d <> [] ->
        filter_part = [(py "filter", PList [published_from d])])
    /\ (date_from = None \/ date_from = Some [] -> filter_part = []).
Proof.
  unfold build_query.
  set (must := if pystr_eqb scope (py "title") then _ else _).
  assert (Hmust : exists clause, must = [clause]
    /\ (scope = py "title" -> clause = match_on (py "title") (strip keyword))
    /\ (scope = py "abstract" -> clause = match_on (py "abstract") (strip keyword))
    /\ (scope = py "title+abstract" ->
        clause = at_least_one_of [match_on (py "title") (strip keyword);
                                  match_on (py "abstract") (strip keyword)])
    /\ (scope <> py "title" -> scope <> py "abstract" -> scope <> py "title+abstract" ->
        clause = at_least_one_of [match_on (py "title") (strip keyword);
                                  match_on (py "abstract") (strip keyword);
                                  match_on (py "claim") (strip keyword)])).
  { subst must.
    destruct (pystr_eqb scope (py "title")) eqn:E1.
    { apply pystr_eqb_eq in E1. subst scope. eexists; split; [reflexivity|].
      repeat split; intros; try reflexivity; try discriminate; congruence. }
    destruct (pystr_eqb scope (py "abstract")) eqn:E2.
    { apply pystr_eqb_eq in E2. subst scope. eexists; split; [reflexivity|].
      repeat split; intros; try reflexivity; try discriminate; congruence. }
    destruct (pystr_eqb scope (py "title+abstract")) eqn:E3.
    { apply pystr_eqb_eq in E3. subst scope. eexists; split; [reflexivity|].
      repeat split; intros; try reflexivity; try discriminate; congruence. }
    eexists; split; [reflexivity|].
    repeat split; intros; subst scope; try reflexivity;
      rewrite pystr_eqb_refl in *; discriminate. }
  destruct Hmust as (clause & -> & H1 & H2 & H3 & H4).
  exists clause.
  destruct date_from as [[|c d]|]; simpl.
  - exists []. repeat split; auto; intros; congruence.
  - exists [(py "filter", PList [published_from (c :: d)])].
    repeat split; auto.
    + intros d' [= <-] _. reflexivity.
    + intros [?|?]; discriminate.
  - exists []. repeat split; auto; intros; congruence.
Qed.

(** The fourth scope with a start date, and a padded keyword. *)
Lemma build_query_clauses_witness :
  build_query (py "  skin stapler ") (py "title+abstract+claims") (Some (py "2018-01-01"))
  = PDict [(py "bool", PDict [
      (py "must", PList [
         at_least_one_of [match_on (py "title") (py "skin stapler");
                          match_on (py "abstract") (py "skin stapler");
                          match_on (py "claim") (py "skin stapler")]]);
      (py "filter", PList [published_from (py "2018-01-01")])])].
Proof.
  destruct (build_query_clauses (py "  skin stapler ") (py "title+abstract+claims")
              (Some (py "2018-01-01")))
    as (clause & filter_part & E & _ & _ & _ & Hclause & Hfilter & _).
  rewrite E.
  rewrite (Hclause ltac:(discriminate) ltac:(discriminate) ltac:(discriminate)).
  rewrite (Hfilter (py "2018-01-01") eq_refl ltac:(discriminate)).
  reflexivity.
Defined.

(** C6, the claim as written fails: a start date that is given but empty
    yields no filter clause. *)
Lemma build_query_empty_date_has_no_filter :
  build_query (py "skin stapler") (py "title") (Some [])
    = PDict [(py "bool", PDict [(py "must", PList [match_on (py "title") (py "skin stapler")])])].
Proof. reflexivity. Qed.

(* ================================================================= *)
(** * The retrying transport *)

Lemma posts_made_app (t t' : list event) :
  posts_made (t ++ t') = (posts_made t + posts_made t')%nat.
Proof.
  unfold posts_made. now rewrite filter_app, length_app.
Qed.

Lemma float_mul_int_backoff (backoff_sec : float) (attempt : Z) :
  can_back_off backoff_sec attempt = true ->
  float_mul_int backoff_sec (attempt + 1) = Return (backoff_length backoff_sec attempt)
  /\ sleep_refusal (backoff_length backoff_sec attempt) = None.
Proof.
  unfold can_back_off, float_mul_int, float_of_int, backoff_length.
  intros H. apply andb_true_iff in H as [Hinf Hsleep].
  apply negb_true_iff in Hinf. rewrite Hinf. simpl. split; [reflexivity|].
  destruct (sleep_refusal _); [discriminate|reflexivity].
Qed.

(** [k] rate-limited attempts in a row: the loop posts and sleeps [k] times
    and goes on with the attempts that are left, [r] bound to the last
    response. *)
Lemma retry_attempts_rate_limited (headers : pydict) (payload : pyval) (timeout : Z)
    (backoff_sec : float) (u : nat -> option Response) :
  forall (k n a : nat) (last : option Response) (t : list event),
    (forall i, (i < k)%nat ->
       exists r, u (posts_made t + i)%nat = Some r /\ status_code r = 429) ->
    (forall i, (i < k)%nat -> can_back_off backoff_sec (Z.of_nat (a + i)) = true) ->
    exists last' : option Response,
      retry_attempts (map Z.of_nat (seq a (k + n))) last
        headers payload timeout backoff_sec (mkWorld u t)
      = retry_attempts (map Z.of_nat (seq (a + k) n)) last'
          headers payload timeout backoff_sec
          (mkWorld u (t ++ rate_limited_attempts headers payload timeout backoff_sec a k))
      /\ posts_made (t ++ rate_limited_attempts headers payload timeout backoff_sec a k)
         = (posts_made t + k)%nat
      /\ (k = 0%nat -> last' = last)
      /\ (forall k', k = S k' -> last' = u (posts_made t + k')%nat).
Proof.
  induction k as [|k IH]; intros n a last t Hup Hback.
  - exists last. unfold rate_limited_attempts. simpl.
    rewrite app_nil_r, !Nat.add_0_r. repeat split; auto. discriminate.
  - destruct (Hup 0%nat ltac:(lia)) as (r0 & Hr0 & Hs0).
    rewrite Nat.add_0_r in Hr0.
    pose proof (Hback 0%nat ltac:(lia)) as Hb0. rewrite Nat.add_0_r in Hb0.
    apply float_mul_int_backoff in Hb0 as [Hmul Hsleep].
    set (t1 := (t ++ [Post LENS_ENDPOINT headers payload timeout])
                 ++ [Sleep (backoff_length backoff_sec (Z.of_nat a))]).
    assert (Ht1 : posts_made t1 = S (posts_made t)).
    { unfold t1. rewrite !posts_made_app. unfold posts_made. simpl. lia. }
    destruct (IH n (S a) (Some r0) t1) as (last' & Heq & Hposts & Hzero & Hlast).
    { intros i Hi. rewrite Ht1. destruct (Hup (S i) ltac:(lia)) as (r & Hr & Hs).
      exists r. split; [|assumption]. rewrite <- Hr. f_equal. lia. }
    { intros i Hi. rewrite <- (Hback (S i) ltac:(lia)). do 2 f_equal. lia. }
    assert (Hev : t ++ rate_limited_attempts headers payload timeout backoff_sec a (S k)
                  = t1 ++ rate_limited_attempts headers payload timeout backoff_sec (S a) k).
    { unfold t1, rate_limited_attempts. simpl. now rewrite <- !app_assoc. }
    exists last'. rewrite Hev. repeat split.
    + replace (a + S k)%nat with (S a + k)%nat by lia. rewrite <- Heq.
      change (S k + n)%nat with (S (k + n)). simpl seq. simpl map.
      unfold retry_attempts at 1; fold retry_attempts.
      unfold bind, requests_post, lift, time_sleep, log. simpl.
      rewrite Hr0. rewrite Hs0. simpl.
      rewrite Hmul. rewrite Hsleep. reflexivity.
    + rewrite Hposts, Ht1. lia.
    + discriminate.
    + intros k' [= <-]. destruct k as [|k''].
      * rewrite Nat.add_0_r, Hr0. now apply Hzero.
      * rewrite (Hlast k'' eq_refl), Ht1. f_equal. lia.
Qed.

Lemma py_range_split (max_retries : Z) (k : nat) :
  Z.of_nat k <= max_retries ->
  py_range (max_retries + 1)
  = map Z.of_nat (seq 0 (k + S (Z.to_nat max_retries - k))).
Proof.
  intros H. unfold py_range. do 2 f_equal. lia.
Qed.

(** A run of the transport whose first [k] responses are rate-limited and
    whose next one is not. *)
Lemma post_with_retry_run (headers : pydict) (payload : pyval) (timeout max_retries : Z)
    (backoff_sec : float) (u : nat -> option Response) (t : list event)
    (k : nat) (r : Response) :
  Z.of_nat k <= max_retries ->
  (forall i, (i < k)%nat ->
     exists ri, u (posts_made t + i)%nat = Some ri /\ status_code ri = 429) ->
  u (posts_made t + k)%nat = Some r ->
  status_code r <> 429 ->
  (forall i, (i < k)%nat -> can_back_off backoff_sec (Z.of_nat i) = true) ->
  _post_with_retry headers payload timeout max_retries backoff_sec (mkWorld u t)
  = (Return r,
     mkWorld u (t ++ rate_limited_attempts headers payload timeout backoff_sec 0 k
                  ++ [Post LENS_ENDPOINT headers payload timeout])).
Proof.
  intros Hk Hup Hr Hs Hback.
  unfold _post_with_retry. rewrite (py_range_split max_retries k Hk).
  destruct (retry_attempts_rate_limited headers payload timeout backoff_sec u
              k (S (Z.to_nat max_retries - k)) 0 None t Hup Hback)
    as (last' & -> & Hposts & _).
  simpl seq. simpl map.
  unfold retry_attempts at 1; fold retry_attempts.
  unfold bind, requests_post, log, ret. simpl.
  rewrite Hposts, Hr.
  apply Z.eqb_neq in Hs. rewrite Hs.
  now rewrite <- app_assoc.
Qed.

(** C3. Every rate-limited attempt of a run posts the request and sleeps
    [backoff_sec * (attempt + 1)] before the next attempt: a run that meets
    [k] 429 responses and then another status returns that response after
    exactly the [k] sleeps of attempts [0..k-1].  With the default backoff of
    2.0 the sleeps of attempts 0..3 are 2, 4, 6 and 8 seconds.  For the
    responses 429, 429, 200 the run is: post, sleep [backoff_sec * 1], post,
    sleep [backoff_sec * 2], post, and the 200 response is returned. *)
Theorem backoff_schedule :
  (forall headers payload timeout max_retries backoff_sec u t (k : nat) r,
     Z.of_nat k <= max_retries ->
     (forall i, (i < k)%nat ->
        exists ri, u (posts_made t + i)%nat = Some ri /\ status_code ri = 429) ->
     u (posts_made t + k)%nat = Some r ->
     status_code r <> 429 ->
     (forall i, (i < k)%nat -> can_back_off backoff_sec (Z.of_nat i) = true) ->
     _post_with_retry headers payload timeout max_retries backoff_sec (mkWorld u t)
     = (Return r,
        mkWorld u (t ++ rate_limited_attempts headers payload timeout backoff_sec 0 k
                     ++ [Post LENS_ENDPOINT headers payload timeout])))
  /\ (default_max_retries = 4
      /\ map (backoff_length default_backoff_sec) [0; 1; 2; 3] = [2; 4; 6; 8]%float)
  /\ (forall headers payload timeout max_retries backoff_sec u t r1 r2 r3,
        2 <= max_retries ->
        u (posts_made t) = Some r1 -> status_code r1 = 429 ->
        u (posts_made t + 1)%nat = Some r2 -> status_code r2 = 429 ->
        u (posts_made t + 2)%nat = Some r3 -> status_code r3 = 200 ->
        can_back_off backoff_sec 0 = true ->
        can_back_off backoff_sec 1 = true ->
        _post_with_retry headers payload timeout max_retries backoff_sec (mkWorld u t)
        = (Return r3,
           mkWorld u (t ++ [Post LENS_ENDPOINT headers payload timeout;
                            Sleep (backoff_sec * 1);
                            Post LENS_ENDPOINT headers payload timeout;
                            Sleep (backoff_sec * 2);
                            Post LENS_ENDPOINT headers payload timeout]))).
Proof.
  split; [exact post_with_retry_run|].
  split; [split; reflexivity|].
  intros headers payload timeout max_retries backoff_sec u t r1 r2 r3
         Hmax H1 S1 H2 S2 H3 S3 B0 B1.
  rewrite (post_with_retry_run headers payload timeout max_retries backoff_sec u t 2 r3).
  - reflexivity.
  - exact Hmax.
  - intros [|[|i]] Hi; [exists r1|exists r2|lia].
    + now rewrite Nat.add_0_r.
    + now split.
  - exact H3.
  - rewrite S3. discriminate.
  - intros [|[|i]] Hi; [exact B0|exact B1|lia].
Qed.

(** The defaults on the simulated responses 429, 429, 200. *)
Lemma backoff_schedule_witness :
  _post_with_retry sample_headers sample_payload 30 default_max_retries
    default_backoff_sec
    (mkWorld (scripted [too_many_requests; too_many_requests; mkResponse 200 [] None]) [])
  = (Return (mkResponse 200 [] None),
     mkWorld (scripted [too_many_requests; too_many_requests; mkResponse 200 [] None])
             [Post LENS_ENDPOINT sample_headers sample_payload 30;
              Sleep 2;
              Post LENS_ENDPOINT sample_headers sample_payload 30;
              Sleep 4;
              Post LENS_ENDPOINT sample_headers sample_payload 30]).
Proof.
  apply (proj2 (proj2 backoff_schedule) sample_headers sample_payload 30
           default_max_retries default_backoff_sec
           (scripted [too_many_requests; too_many_requests; mkResponse 200 [] None]) []
           too_many_requests too_many_requests (mkResponse 200 [] None));
    first [reflexivity | vm_compute; discriminate].
Defined.

(** C4. When every attempt of a run, the first and the [max_retries] that
    follow, receives a 429 response, the transport returns the last of these
    responses and raises nothing; it has then slept after every attempt, the
    last one included. *)
Theorem retries_exhausted_returns_last_response
    (headers : pydict) (payload : pyval) (timeout max_retries : Z)
    (backoff_sec : float) (u : nat -> option Response) (t : list event) :
  0 <= max_retries ->
  (forall i, Z.of_nat i <= max_retries ->
     exists ri, u (posts_made t + i)%nat = Some ri /\ status_code ri = 429) ->
  (forall i, Z.of_nat i <= max_retries -> can_back_off backoff_sec (Z.of_nat i) = true) ->
  exists last : Response,
    u (posts_made t + Z.to_nat max_retries)%nat = Some last
    /\ status_code last = 429
    /\ _post_with_retry headers payload timeout max_retries backoff_sec (mkWorld u t)
       = (Return last,
          mkWorld u (t ++ rate_limited_attempts headers payload timeout backoff_sec
                            0 (S (Z.to_nat max_retries)))).
Proof.
  intros Hmax Hup Hback.
  destruct (Hup (Z.to_nat max_retries) ltac:(lia)) as (last & Hlast & Hs).
  exists last. repeat split; [assumption..|].
  unfold _post_with_retry, py_range.
  replace (Z.to_nat (max_retries + 1)) with (S (Z.to_nat max_retries) + 0)%nat by lia.
  destruct (retry_attempts_rate_limited headers payload timeout backoff_sec u
              (S (Z.to_nat max_retries)) 0 0 None t)
    as (last' & -> & _ & _ & Hl).
  - intros i Hi. apply Hup. lia.
  - intros i Hi. apply Hback. lia.
  - rewrite (Hl _ eq_refl), Hlast. reflexivity.
Qed.

(** The defaults against an upstream that is rate-limiting throughout: five
    attempts, five sleeps, and the fifth 429 response comes back. *)
Lemma retries_exhausted_witness :
  exists last : Response,
    scripted (repeat too_many_requests 5) 4%nat = Some last
    /\ status_code last = 429
    /\ _post_with_retry sample_headers sample_payload 30 default_max_retries
         default_backoff_sec (mkWorld (scripted (repeat too_many_requests 5)) [])
       = (Return last,
          mkWorld (scripted (repeat too_many_requests 5))
                  (rate_limited_attempts sample_headers sample_payload 30
                     default_backoff_sec 0 5)).
Proof.
  apply (retries_exhausted_returns_last_response sample_headers sample_payload 30
           default_max_retries default_backoff_sec
           (scripted (repeat too_many_requests 5)) []).
  - unfold default_max_retries. lia.
  - intros i Hi. exists too_many_requests. split; [|reflexivity].
    unfold default_max_retries in Hi.
    do 5 (destruct i as [|i]; [reflexivity|]). lia.
  - intros i Hi. unfold default_max_retries in Hi.
    do 5 (destruct i as [|i]; [vm_compute; reflexivity|]). lia.
Defined.

(* ================================================================= *)
(** * The record normalizer *)

Section Normalizer.

Variable py_repr : pyval -> pystr.

Lemma Return_inj {A : Type} (a b : A) : Return a = Return b -> a = b.
Proof. now intros [= ->]. Qed.

Lemma py_or_lazy_returns (x y : pyval) :
  py_or_lazy (Return x) (Return y) = Return (py_or x y).
Proof. unfold py_or_lazy, py_or. simpl. now destruct (truthy x). Qed.

Lemma or_empty_dict (d : pydict) (key : pystr) :
  absent_falsy_or_dict (dict_get d key) = true ->
  py_or (dict_get_or d key (PDict [])) (PDict [])
  = PDict (nested_dict (dict_get d key)).
Proof.
  unfold absent_falsy_or_dict, py_or, dict_get_or.
  destruct (dict_get d key) as [v|]; [|reflexivity].
  cbn [nested_dict]. intros H. destruct (truthy v) eqn:T.
  - destruct v; try discriminate H. reflexivity.
  - destruct v as [| | | | | |x]; try reflexivity.
    destruct x; [reflexivity|discriminate T].
Qed.

Lemma get_or_is_str (d : pydict) (key : pystr) :
  str_or_absent d key = true -> is_str (dict_get_or d key (PStr [])) = true.
Proof.
  unfold str_or_absent, dict_get_or. now destruct (dict_get d key).
Qed.

Lemma py_or_is_str (x y : pyval) :
  is_str x = true -> is_str y = true -> is_str (py_or x y) = true.
Proof.
  unfold py_or. now destruct (truthy x).
Qed.

Lemma text_or_title (t : pydict) :
  exists title,
    py_or_lazy (py_get (PDict t) (py "text") (PStr []))
               (py_get (PDict t) (py "title") (PStr [])) = Return title
    /\ (str_or_absent t (py "text") && str_or_absent t (py "title") = true ->
        is_str title = true).
Proof.
  cbn [py_get]. rewrite py_or_lazy_returns. eexists. split; [reflexivity|].
  intros H. apply andb_true_iff in H as [H1 H2].
  apply py_or_is_str; now apply get_or_is_str.
Qed.

Lemma title_text_value (b : pydict) :
  exists title,
    match dict_get_or b (py "invention_title") PNone with
    | PList (first :: _) =>
        (t0 <- py_or_lazy (Return first) (Return (PDict [])) ;;
         if is_dict t0 then
           py_or_lazy (py_get t0 (py "text") (PStr []))
                      (py_get t0 (py "title") (PStr []))
         else Return (PStr []))%pure
    | PDict _ =>
        py_or_lazy (py_get (dict_get_or b (py "invention_title") PNone)
                           (py "text") (PStr []))
                   (py_get (dict_get_or b (py "invention_title") PNone)
                           (py "title") (PStr []))
    | _ => Return (PStr [])
    end = Return title
    /\ (title_strings (dict_get b (py "invention_title")) = true -> is_str title = true).
Proof.
  unfold dict_get_or, title_strings.
  destruct (dict_get b (py "invention_title")) as [v|];
    [|exists (PStr []); now split].
  destruct v as [| | | | |l|t]; try (exists (PStr []); now split).
  - destruct l as [|first l]; [exists (PStr []); now split|].
    rewrite py_or_lazy_returns. cbn [obind]. unfold py_or.
    destruct (truthy first) eqn:T.
    + destruct first as [| | | | | |t]; try (exists (PStr []); now split).
      cbn [is_dict]. apply text_or_title.
    + cbn [is_dict]. destruct (text_or_title []) as (title & E & _).
      exists title. split; [exact E|]. intros _.
      cbn [py_get] in E. rewrite py_or_lazy_returns in E. now injection E as <-.
  - apply text_or_title.
Qed.

Lemma extract_row_shape (item : pyval) :
  well_nested item = true ->
  exists lens_id title jurisdiction doc_number kind date_published : pyval,
    extract_row py_repr item
    = Return (row_with lens_id title jurisdiction doc_number kind date_published
        (PStr (py "https://www.lens.org/lens/patent/" ++ format_value py_repr lens_id))
        (google_link_of py_repr jurisdiction doc_number kind))
    /\ (string_leaves item = true ->
        is_str lens_id = true /\ is_str title = true /\ is_str jurisdiction = true
        /\ is_str doc_number = true /\ is_str kind = true
        /\ is_str date_published = true).
Proof.
  destruct item as [| | | | | |d]; try discriminate.
  unfold well_nested. intros H. apply andb_true_iff in H as [Hb Hp].
  unfold extract_row.
  cbn [obind py_get]. rewrite py_or_lazy_returns, (or_empty_dict d _ Hb).
  set (b := nested_dict (dict_get d (py "biblio"))) in *.
  cbn [obind py_get]. rewrite py_or_lazy_returns, (or_empty_dict b _ Hp).
  set (p := nested_dict (dict_get b (py "publication_reference"))) in *.
  cbn [obind py_get].
  rewrite !py_or_lazy_returns.
  cbn [obind].
  destruct (title_text_value b) as (title & -> & Htitle).
  cbn [obind].
  do 6 eexists. split; [reflexivity|].
  unfold string_leaves. fold b. fold p. cbv zeta. intros H.
  repeat (apply andb_true_iff in H; destruct H as [H ?]).
  repeat split; auto using get_or_is_str, py_or_is_str.
Qed.

Lemma py_or_not_dict (d : pydict) (key : pystr) :
  absent_falsy_or_dict (dict_get d key) = false ->
  is_dict (py_or (dict_get_or d key (PDict [])) (PDict [])) = false.
Proof.
  unfold absent_falsy_or_dict, py_or, dict_get_or.
  destruct (dict_get d key) as [v|]; [|discriminate].
  intros H. apply orb_false_iff in H as [Hd Ht].
  apply negb_false_iff in Ht. now rewrite Ht.
Qed.

Lemma py_get_not_dict (v : pyval) (key : pystr) (default : pyval) :
  is_dict v = false -> py_get v key default = Raise AttributeError.
Proof.
  now destruct v.
Qed.

(** A record that is not well nested stops the normalizer: it calls [.get]
    on something that is not a dict. *)
Lemma extract_row_fails (item : pyval) :
  well_nested item = false -> extract_row py_repr item = Raise AttributeError.
Proof.
  destruct item as [| | | | | |d]; try reflexivity.
  unfold well_nested. intros H. unfold extract_row.
  cbn [obind py_get]. rewrite py_or_lazy_returns.
  destruct (absent_falsy_or_dict (dict_get d (py "biblio"))) eqn:Hb.
  - rewrite (or_empty_dict d _ Hb). cbn [obind py_get].
    rewrite py_or_lazy_returns.
    simpl in H. apply py_or_not_dict in H.
    cbn [obind]. now rewrite (py_get_not_dict _ _ _ H).
  - apply py_or_not_dict in Hb. cbn [obind].
    now rewrite (py_get_not_dict _ _ _ Hb).
Qed.

Lemma extract_row_returns (item row : pyval) :
  extract_row py_repr item = Return row -> well_nested item = true.
Proof.
  intros H. destruct (well_nested item) eqn:E; [reflexivity|].
  rewrite (extract_row_fails item E) in H. discriminate.
Qed.

(** [extract_rows] returns when, and only when, every record gives its row,
    and then the rows are these, in order. *)
Lemma extract_rows_returns (data_items rows : list pyval) :
  extract_rows py_repr data_items = Return rows
  <-> Forall2 (fun item row => extract_row py_repr item = Return row) data_items rows.
Proof.
  revert rows. induction data_items as [|item rest IH]; intros rows; simpl.
  - split.
    + intros [= <-]. constructor.
    + intros H. inversion H. reflexivity.
  - split.
    + destruct (extract_row py_repr item) as [row| |] eqn:E; try discriminate.
      simpl. destruct (extract_rows py_repr rest) as [rows'| |] eqn:E';
        try discriminate.
      simpl. intros [= <-]. constructor; [assumption|]. now apply IH.
    + intros H. inversion H as [|? row ? rows' Hrow Hrest]; subst.
      rewrite Hrow. simpl. apply IH in Hrest. now rewrite Hrest.
Qed.

Lemma extract_rows_length (data_items rows : list pyval) :
  extract_rows py_repr data_items = Return rows ->
  List.length rows = List.length data_items.
Proof.
  intros H. apply extract_rows_returns in H. symmetry.
  exact (Forall2_length H).
Qed.

Lemma extract_rows_well_nested (data_items : list pyval) :
  Forall (fun item => well_nested item = true) data_items ->
  exists rows, extract_rows py_repr data_items = Return rows.
Proof.
  induction 1 as [|item rest Hitem _ [rows IH]]; simpl.
  - now exists [].
  - destruct (extract_row_shape item Hitem) as (l & t & j & d & k & dp & -> & _).
    rewrite IH. simpl. eexists. reflexivity.
Qed.

Lemma field_row_with (a b c d e f g h : pyval) :
  field (row_with a b c d e f g h) (py "lens_id") = a
  /\ field (row_with a b c d e f g h) (py "title") = b
  /\ field (row_with a b c d e f g h) (py "jurisdiction") = c
  /\ field (row_with a b c d e f g h) (py "doc_number") = d
  /\ field (row_with a b c d e f g h) (py "kind") = e
  /\ field (row_with a b c d e f g h) (py "date_published") = f
  /\ field (row_with a b c d e f g h) (py "lens_link") = g
  /\ field (row_with a b c d e f g h) (py "google_patents_link") = h.
Proof.
  repeat split; reflexivity.
Qed.

(** C5, as the code has it.  On raw records that are dicts whose [biblio] and
    [biblio.publication_reference] are each absent, falsy or a dict,
    [extract_rows] raises nothing and returns one row per record, in order;
    every row has exactly the eight keys; its two links are strings; and all
    eight values are strings when the values the record holds under the keys
    the normalizer copies are strings. *)
Theorem extract_rows_on_well_nested_records (data_items : list pyval) :
  Forall (fun item => well_nested item = true) data_items ->
  exists rows : list pyval,
    extract_rows py_repr data_items = Return rows
    /\ List.length rows = List.length data_items
    /\ Forall2 (fun item row =>
                  keys_of row = Some row_keys
                  /\ is_str (field row (py "lens_link")) = true
                  /\ is_str (field row (py "google_patents_link")) = true
                  /\ (string_leaves item = true -> all_strings row = true))
               data_items rows.
Proof.
  intros Hall.
  destruct (extract_rows_well_nested data_items Hall) as [rows Hrows].
  exists rows. split; [assumption|]. split; [now apply extract_rows_length|].
  apply extract_rows_returns in Hrows.
  induction Hrows as [|item row rest rows' Hrow _ IH]; constructor.
  - inversion Hall as [|? ? Hitem _]; subst.
    destruct (extract_row_shape item Hitem) as (l & t & j & d & k & dp & E & Hstr).
    rewrite E in Hrow. apply Return_inj in Hrow. subst row.
    split; [reflexivity|].
    destruct (field_row_with l t j d k dp
      (PStr (py "https://www.lens.org/lens/patent/" ++ format_value py_repr l))
      (google_link_of py_repr j d k))
      as (_ & _ & _ & _ & _ & _ & -> & ->).
    split; [reflexivity|].
    split; [unfold google_link_of;
            now destruct (truthy j && truthy d && truthy k), (truthy j && truthy d)|].
    intros Hleaves. destruct (Hstr Hleaves) as (Hl & Ht & Hj & Hd & Hk & Hdp).
    unfold row_with, all_strings. cbn [forallb snd].
    rewrite Hl, Ht, Hj, Hd, Hk, Hdp. cbn [is_str andb]. unfold google_link_of.
    now destruct (truthy j && truthy d && truthy k), (truthy j && truthy d).
  - apply IH. now inversion Hall.
Qed.

Lemma format_value_str (s : pystr) : format_value py_repr (PStr s) = s.
Proof. reflexivity. Qed.

Lemma truthy_str (s : pystr) : truthy (PStr s) = true <-> s <> [].
Proof.
  destruct s; simpl; split; congruence.
Qed.

(** C7. In every row that [extract_rows] returns, [lens_link] is
    [https://www.lens.org/lens/patent/] followed by the row's [lens_id] (so
    the URL ends in the slash when [lens_id] is the empty string), and
    [google_patents_link] is [https://patents.google.com/patent/] followed by
    jurisdiction, doc_number and kind when the three are non-empty, the same
    without kind when only kind is empty, and the empty string when
    jurisdiction or doc_number is empty.  A field is formatted as an f-string
    formats it and is empty when Python takes it for false; for a string
    these are the string itself and the empty string. *)
Theorem row_links (data_items rows : list pyval) (row : pyval) :
  extract_rows py_repr data_items = Return rows ->
  In row rows ->
  let lens_id := field row (py "lens_id") in
  let jurisdiction := field row (py "jurisdiction") in
  let doc_number := field row (py "doc_number") in
  let kind := field row (py "kind") in
  field row (py "lens_link")
    = PStr (py "https://www.lens.org/lens/patent/" ++ format_value py_repr lens_id)
  /\ (lens_id = PStr [] ->
      field row (py "lens_link") = PStr (py "https://www.lens.org/lens/patent/"))
  /\ (truthy jurisdiction = true -> truthy doc_number = true -> truthy kind = true ->
      field row (py "google_patents_link")
        = PStr (py "https://patents.google.com/patent/"
                ++ format_value py_repr jurisdiction
                ++ format_value py_repr doc_number
                ++ format_value py_repr kind))
  /\ (truthy jurisdiction = true -> truthy doc_number = true -> truthy kind = false ->
      field row (py "google_patents_link")
        = PStr (py "https://patents.google.com/patent/"
                ++ format_value py_repr jurisdiction
                ++ format_value py_repr doc_number))
  /\ (truthy jurisdiction = false \/ truthy doc_number = false ->
      field row (py "google_patents_link") = PStr [])
  /\ (forall s, format_value py_repr (PStr s) = s)
  /\ (forall s, truthy (PStr s) = true <-> s <> []).
Proof.
  intros Hrows Hin.
  apply extract_rows_returns in Hrows.
  assert (Hitem : exists item, extract_row py_repr item = Return row).
  { clear - Hrows Hin. induction Hrows as [|item r rest rows' Hr _ IH].
    - destruct Hin.
    - destruct Hin as [<-|Hin]; [now exists item|now apply IH]. }
  destruct Hitem as [item Hitem].
  pose proof (extract_row_returns _ _ Hitem) as Hwn.
  destruct (extract_row_shape item Hwn) as (l & t & j & d & k & dp & E & _).
  rewrite E in Hitem. apply Return_inj in Hitem. subst row.
  destruct (field_row_with l t j d k dp
    (PStr (py "https://www.lens.org/lens/patent/" ++ format_value py_repr l))
    (google_link_of py_repr j d k))
    as (-> & _ & -> & -> & -> & _ & -> & ->).
  unfold google_link_of.
  cbv zeta. repeat split.
  - intros ->. cbn [format_value]. now rewrite app_nil_r.
  - intros -> -> ->. reflexivity.
  - intros -> -> ->. reflexivity.
  - intros [-> | ->]; [reflexivity|]. now rewrite !andb_false_r.
  - apply truthy_str.
  - apply truthy_str.
Qed.

End Normalizer.

(** C5, the claim as written fails on records it names: a publication
    reference that is a list of mappings makes [extract_rows] raise
    [AttributeError], and a null [kind] comes out as [None], not as a
    string. *)
Lemma extract_rows_fails_or_yields_none :
  (forall py_repr,
     extract_rows py_repr [sample_record; record_with_reference_list]
     = Raise AttributeError)
  /\ (forall py_repr,
        exists row,
          extract_rows py_repr [record_with_null_kind] = Return [row]
          /\ field row (py "kind") = PNone
          /\ all_strings row = false).
Proof.
  split; intros py_repr.
  - reflexivity.
  - eexists. split; [reflexivity|]. split; reflexivity.
Qed.

(** A well-formed record gives a row of eight strings. *)
Lemma extract_rows_on_well_nested_records_witness :
  (Forall (fun item => well_nested item = true) [sample_record; record_with_null_kind])
  /\ (forall py_repr,
        exists rows : list pyval,
          extract_rows py_repr [sample_record; record_with_null_kind] = Return rows
          /\ List.length rows = 2%nat
          /\ Forall2 (fun item row =>
                        keys_of row = Some row_keys
                        /\ is_str (field row (py "lens_link")) = true
                        /\ is_str (field row (py "google_patents_link")) = true
                        /\ (string_leaves item = true -> all_strings row = true))
                     [sample_record; record_with_null_kind] rows).
Proof.
  assert (H : Forall (fun item => well_nested item = true)
                     [sample_record; record_with_null_kind])
    by (repeat constructor).
  split; [exact H|].
  intros py_repr.
  exact (extract_rows_on_well_nested_records py_repr
           [sample_record; record_with_null_kind] H).
Defined.

(** The row of the sample record: US, 123456, A1. *)
Lemma row_links_witness :
  (forall py_repr, extract_rows py_repr [sample_record] = Return [sample_row])
  /\ (forall py_repr,
        field sample_row (py "google_patents_link")
        = PStr (py "https://patents.google.com/patent/"
                ++ format_value py_repr (field sample_row (py "jurisdiction"))
                ++ format_value py_repr (field sample_row (py "doc_number"))
                ++ format_value py_repr (field sample_row (py "kind"))))
  /\ field sample_row (py "google_patents_link")
     = PStr (py "https://patents.google.com/patent/US123456A1").
Proof.
  split; [reflexivity|]. split; [|reflexivity].
  intros py_repr.
  apply (row_links py_repr [sample_record] [sample_row] sample_row
           eq_refl (or_introl eq_refl));
    reflexivity.
Defined.

(* ================================================================= *)
(** * The pagination loop *)

Section SearchLoop.

Variable py_repr : pyval -> pystr.
Variables (headers : pydict) (max_results : Z) (delay_sec : float) (timeout : Z).

Lemma post_once (payload : pyval) (u : nat -> option Response) (t : list event)
    (r : Response) :
  u (posts_made t) = Some r ->
  status_code r <> 429 ->
  _post_with_retry headers payload timeout default_max_retries default_backoff_sec
    (mkWorld u t)
  = (Return r, mkWorld u (t ++ [Post LENS_ENDPOINT headers payload timeout])).
Proof.
  intros Hr Hs.
  apply (post_with_retry_run headers payload timeout default_max_retries
           default_backoff_sec u t 0 r).
  - unfold default_max_retries. lia.
  - intros i Hi. lia.
  - now rewrite Nat.add_0_r.
  - exact Hs.
  - intros i Hi. lia.
Qed.

Lemma retry_attempts_no_fuel (attempts : list Z) (payload : pyval) (backoff_sec : float) :
  forall (last : option Response) (w : World),
    fst (retry_attempts attempts last headers payload timeout backoff_sec w) <> OutOfFuel.
Proof.
  induction attempts as [|attempt rest IH]; intros last w.
  - destruct last; discriminate.
  - unfold retry_attempts; fold retry_attempts.
    unfold bind, requests_post, lift, time_sleep, ret.
    destruct (upstream w _) as [r|]; [|discriminate].
    destruct (status_code r =? 429); [|discriminate].
    unfold float_mul_int, float_of_int.
    destruct (is_infinity _); [discriminate|]. cbn [obind].
    destruct (sleep_refusal _); [discriminate|]. apply IH.
Qed.

Lemma extract_rows_no_fuel (data_items : list pyval) :
  extract_rows py_repr data_items <> OutOfFuel.
Proof.
  induction data_items as [|item rest IH]; simpl; [discriminate|].
  destruct (well_nested item) eqn:E.
  - destruct (extract_row_shape py_repr item E) as (l & t & j & d & k & dp & -> & _).
    cbn [obind]. destruct (extract_rows py_repr rest); [discriminate|discriminate|].
    now contradiction IH.
  - rewrite (extract_row_fails py_repr item E). discriminate.
Qed.

Lemma py_iter_truthy (v : pyval) (items : list pyval) :
  truthy v = true -> py_iter v = Return items -> items <> [].
Proof.
  destruct v as [| | | |s|l|d]; try discriminate; simpl.
  - destruct s; [discriminate|]. intros _ [= <-]. discriminate.
  - destruct l; [discriminate|]. intros _ [= <-]. discriminate.
  - destruct d; [discriminate|]. intros _ [= <-]. discriminate.
Qed.

Lemma length_py_slice_to {A : Type} (l : list A) (n : Z) :
  0 <= n -> len (py_slice_to l n) = Z.min n (len l).
Proof.
  intros Hn. unfold py_slice_to, len.
  destruct (0 <=? n) eqn:E; [|lia].
  rewrite length_firstn. lia.
Qed.

Lemma len_app {A : Type} (l l' : list A) : len (l ++ l') = len l + len l'.
Proof.
  unfold len. rewrite length_app. lia.
Qed.

(** What handling a response can come to: it never runs out of fuel, and when
    the loop is to go on, a row has been added. *)
Lemma handle_response_outcome (st : Locals) (r : Response) (w : World) :
  len (all_rows st) < max_results ->
  match handle_response py_repr max_results delay_sec st r w with
  | (Return (Continue st'), _) => len (all_rows st) < len (all_rows st')
  | (OutOfFuel, _) => False
  | _ => True
  end.
Proof.
  intros Hlt. unfold handle_response.
  destruct (status_code r =? 204); [exact I|].
  destruct (status_code r =? 401); [exact I|].
  destruct (status_code r =? 403); [exact I|].
  destruct (negb (status_code r =? 200)); [exact I|].
  unfold bind at 1. unfold response_json.
  destruct (json r) as [js|]; [|exact I].
  unfold ret at 1. unfold bind at 1, lift at 1.
  destruct js as [| | | | | |d]; try exact I.
  cbn [py_get]. rewrite py_or_lazy_returns.
  set (data_items := py_or _ _).
  destruct (truthy data_items) eqn:Ht; [|exact I].
  cbn [negb]. unfold bind at 1, lift at 1.
  set (new_id := if is_none (loc_scroll_id st) then _ else _).
  assert (Hid : exists v, new_id = Return v)
    by (subst new_id; destruct (is_none _); eexists; reflexivity).
  destruct Hid as [v ->].
  unfold bind at 1, lift at 1.
  destruct (py_iter data_items) as [items| |] eqn:Hit; try exact I.
  2:{ now destruct data_items. }
  unfold bind at 1, lift at 1.
  destruct (extract_rows py_repr items) as [rows| |] eqn:Hrows; try exact I.
  2:{ now apply extract_rows_no_fuel in Hrows. }
  match goal with |- context [if ?c then _ else _] => destruct c end; [exact I|].
  unfold bind, time_sleep, ret.
  destruct (sleep_refusal _); [exact I|].
  cbn [all_rows].
  rewrite len_app, length_py_slice_to by lia.
  pose proof (py_iter_truthy _ _ Ht Hit) as Hne.
  apply extract_rows_length in Hrows.
  assert (0 < len rows).
  { unfold len. rewrite Hrows. destruct items; [congruence|]. simpl. lia. }
  lia.
Qed.

Lemma loop_body_response (st : Locals) (u : nat -> option Response) (t : list event)
    (r : Response) :
  u (posts_made t) = Some r ->
  status_code r <> 429 ->
  loop_body py_repr headers max_results delay_sec timeout st (mkWorld u t)
  = handle_response py_repr max_results delay_sec st r
      (mkWorld u (t ++ [Post LENS_ENDPOINT headers (payload st) timeout])).
Proof.
  intros Hr Hs. unfold loop_body, bind.
  now rewrite (post_once (payload st) u t r Hr Hs).
Qed.

Lemma loop_body_outcome (st : Locals) (w : World) :
  len (all_rows st) < max_results ->
  match loop_body py_repr headers max_results delay_sec timeout st w with
  | (Return (Continue st'), _) => len (all_rows st) < len (all_rows st')
  | (OutOfFuel, _) => False
  | _ => True
  end.
Proof.
  intros Hlt. unfold loop_body, bind, _post_with_retry.
  pose proof (retry_attempts_no_fuel (py_range (default_max_retries + 1)) (payload st)
                default_backoff_sec None w) as Hfuel.
  destruct (retry_attempts _ _ _ _ _ _ w) as [[r| |] w1]; simpl in Hfuel.
  - now apply handle_response_outcome.
  - exact I.
  - now apply Hfuel.
Qed.

Lemma while_loop_continue (fuel : nat) (st st' : Locals) (w w' : World) :
  len (all_rows st) < max_results ->
  loop_body py_repr headers max_results delay_sec timeout st w
    = (Return (Continue st'), w') ->
  while_loop py_repr headers max_results delay_sec timeout (S fuel) st w
  = while_loop py_repr headers max_results delay_sec timeout fuel st' w'.
Proof.
  intros Hlt Hbody. apply Z.ltb_lt in Hlt. simpl. rewrite Hlt.
  unfold bind. now rewrite Hbody.
Qed.

Lemma while_loop_break (fuel : nat) (st st' : Locals) (w w' : World) :
  len (all_rows st) < max_results ->
  loop_body py_repr headers max_results delay_sec timeout st w
    = (Return (Break st'), w') ->
  while_loop py_repr headers max_results delay_sec timeout (S fuel) st w
  = (Return st', w').
Proof.
  intros Hlt Hbody. apply Z.ltb_lt in Hlt. simpl. rewrite Hlt.
  unfold bind. now rewrite Hbody.
Qed.

Lemma while_loop_raise (fuel : nat) (st : Locals) (w w' : World) (e : exn) :
  len (all_rows st) < max_results ->
  loop_body py_repr headers max_results delay_sec timeout st w = (Raise e, w') ->
  while_loop py_repr headers max_results delay_sec timeout (S fuel) st w
  = (Raise e, w').
Proof.
  intros Hlt Hbody. apply Z.ltb_lt in Hlt. simpl. rewrite Hlt.
  unfold bind. now rewrite Hbody.
Qed.

Lemma while_loop_done (fuel : nat) (st : Locals) (w : World) :
  max_results <= len (all_rows st) ->
  while_loop py_repr headers max_results delay_sec timeout fuel st w = (Return st, w).
Proof.
  intros Hge. apply Z.ltb_ge in Hge. destruct fuel; simpl; now rewrite Hge.
Qed.

(** The loop has fuel enough when its fuel covers the rows still missing:
    every run of the body that goes on adds a row. *)
Lemma while_loop_has_fuel (fuel : nat) :
  forall (st : Locals) (w : World),
    max_results <= Z.of_nat fuel + len (all_rows st) ->
    fst (while_loop py_repr headers max_results delay_sec timeout fuel st w) <> OutOfFuel.
Proof.
  induction fuel as [|fuel IH]; intros st w Hfuel.
  - rewrite while_loop_done by lia. discriminate.
  - destruct (Z.lt_ge_cases (len (all_rows st)) max_results) as [Hlt|Hge].
    + pose proof (loop_body_outcome st w Hlt) as Hbody.
      destruct (loop_body py_repr headers max_results delay_sec timeout st w)
        as [[[st'|st']|e|] w'] eqn:E.
      * rewrite (while_loop_break fuel st st' w w' Hlt E). discriminate.
      * rewrite (while_loop_continue fuel st st' w w' Hlt E). apply IH. lia.
      * rewrite (while_loop_raise fuel st w w' e Hlt E). discriminate.
      * destruct Hbody.
    + rewrite while_loop_done by lia. discriminate.
Qed.

(** The loop entered with fuel enough, once it has come to an iteration, is
    the loop run from that iteration, again with fuel enough. *)
Lemma while_loop_from_iteration (st0 st : Locals) (w0 w : World) :
  iteration py_repr headers max_results delay_sec timeout st0 w0 st w ->
  forall fuel0 : nat,
    max_results <= Z.of_nat fuel0 + len (all_rows st0) ->
    exists fuel : nat,
      max_results <= Z.of_nat fuel + len (all_rows st)
      /\ while_loop py_repr headers max_results delay_sec timeout fuel0 st0 w0
         = while_loop py_repr headers max_results delay_sec timeout fuel st w.
Proof.
  induction 1 as [|st w st' w' _ IH Hlt Hbody]; intros fuel0 Hfuel0.
  - now exists fuel0.
  - destruct (IH fuel0 Hfuel0) as (fuel & Hfuel & Heq).
    destruct fuel as [|fuel]; [lia|].
    pose proof (loop_body_outcome st w Hlt) as Hout. rewrite Hbody in Hout.
    exists fuel. split; [lia|].
    now rewrite Heq, (while_loop_continue fuel st st' w w' Hlt Hbody).
Qed.

Lemma handle_response_204 (st : Locals) (r : Response) (w : World) :
  status_code r = 204 ->
  handle_response py_repr max_results delay_sec st r w
  = (Return (Break (mkLocals (all_rows st) (loc_scroll_id st) (payload st)
                      (mkDebug (pages (debug st) + 1) (scroll_id (debug st))
                               (Some 204) (returned (debug st))))), w).
Proof.
  intros H. unfold handle_response. now rewrite H.
Qed.

Lemma handle_response_401 (st : Locals) (r : Response) (w : World) :
  status_code r = 401 ->
  handle_response py_repr max_results delay_sec st r w = (Raise (RuntimeError msg_401), w).
Proof.
  intros H. unfold handle_response. now rewrite H.
Qed.

Lemma handle_response_403 (st : Locals) (r : Response) (w : World) :
  status_code r = 403 ->
  handle_response py_repr max_results delay_sec st r w = (Raise (RuntimeError msg_403), w).
Proof.
  intros H. unfold handle_response. now rewrite H.
Qed.

Lemma handle_response_other (st : Locals) (r : Response) (w : World) :
  status_code r <> 200 -> status_code r <> 204 ->
  status_code r <> 401 -> status_code r <> 403 ->
  handle_response py_repr max_results delay_sec st r w
  = (Raise (RuntimeError (msg_api_error r)), w).
Proof.
  intros H200 H204 H401 H403. unfold handle_response.
  apply Z.eqb_neq in H200, H204, H401, H403.
  now rewrite H200, H204, H401, H403.
Qed.

(** A page of records: the rows are appended up to the cap; the loop is left
    when no cursor is held or the cap is reached, and otherwise sleeps and
    goes on with the cursor as its payload. *)
Lemma handle_response_page (st : Locals) (r : Response) (w : World)
    (items rows : list pyval) (cursor : pyval) :
  is_page r items cursor ->
  items <> [] ->
  extract_rows py_repr items = Return rows ->
  let new_id := if is_none (loc_scroll_id st) then cursor else loc_scroll_id st in
  let all_rows' := all_rows st ++ py_slice_to rows (max_results - len (all_rows st)) in
  let debug' :=
    mkDebug (pages (debug st) + 1)
            (if is_none (loc_scroll_id st) then new_id else scroll_id (debug st))
            (Some 200) (len all_rows') in
  handle_response py_repr max_results delay_sec st r w
  = if negb (truthy new_id) || (max_results <=? len all_rows') then
      (Return (Break (mkLocals all_rows' new_id (payload st) debug')), w)
    else
      match sleep_refusal (py_max 0 delay_sec) with
      | Some e => (Raise e, w)
      | None =>
          (Return (Continue (mkLocals all_rows' new_id
                     (PDict [(py "scroll_id", new_id); (py "include", include)])
                     debug')),
           log (Sleep (py_max 0 delay_sec)) w)
      end.
Proof.
  intros (Hs & js & Hjs & Hdata & Hcur) Hne Hrows. cbv zeta.
  unfold handle_response. rewrite Hs. cbn [Z.eqb Pos.eqb negb].
  unfold bind at 1. unfold response_json. rewrite Hjs.
  unfold ret at 1. unfold bind at 1, lift at 1.
  cbn [py_get]. rewrite py_or_lazy_returns.
  destruct items as [|item items']; [congruence|].
  assert (Hd : py_or (dict_get_or js (py "data") PNone) (PList [])
               = PList (item :: items'))
    by (unfold dict_get_or; now rewrite Hdata).
  rewrite Hd. cbn [obind truthy negb py_iter]. rewrite Hcur.
  unfold bind at 1, lift at 1.
  destruct (is_none (loc_scroll_id st)); cbn [pages scroll_id last_status returned].
  - unfold bind at 1, lift at 1. unfold bind at 1, lift at 1. rewrite Hrows.
    destruct (negb (truthy cursor) || _); [reflexivity|].
    unfold bind, time_sleep, ret. now destruct (sleep_refusal _).
  - unfold bind at 1, lift at 1. unfold bind at 1, lift at 1. rewrite Hrows.
    destruct (negb (truthy (loc_scroll_id st)) || _); [reflexivity|].
    unfold bind, time_sleep, ret. now destruct (sleep_refusal _).
Qed.

Lemma search_of_loop (token keyword scope : pystr) (date_from : option pystr)
    (scroll_ttl : pystr) (w : World) :
  lens_search_with_scroll py_repr token keyword scope date_from max_results scroll_ttl
    delay_sec timeout w
  = match while_loop py_repr (request_headers token) max_results delay_sec timeout
            (Z.to_nat max_results)
            (initial_locals keyword scope date_from max_results scroll_ttl) w with
    | (Return st, w') => (Return (all_rows st, debug st), w')
    | (Raise e, w') => (Raise e, w')
    | (OutOfFuel, w') => (OutOfFuel, w')
    end.
Proof.
  reflexivity.
Qed.

Lemma py_slice_to_all {A : Type} (l : list A) (n : Z) :
  len l <= n -> py_slice_to l n = l.
Proof.
  unfold len, py_slice_to. intros H.
  destruct (0 <=? n) eqn:E; [|lia].
  apply firstn_all2. lia.
Qed.

(** A page that leaves the result under the cap, with a cursor held: all its
    rows are appended, the loop sleeps and goes on. *)
Lemma loop_body_page_continue (st : Locals) (u : nat -> option Response)
    (t : list event) (r : Response) (items rows : list pyval) (cursor : pyval) :
  u (posts_made t) = Some r ->
  is_page r items cursor ->
  items <> [] ->
  extract_rows py_repr items = Return rows ->
  len (all_rows st) + len rows < max_results ->
  let new_id := if is_none (loc_scroll_id st) then cursor else loc_scroll_id st in
  truthy new_id = true ->
  sleep_refusal (py_max 0 delay_sec) = None ->
  loop_body py_repr headers max_results delay_sec timeout st (mkWorld u t)
  = (Return (Continue (mkLocals (all_rows st ++ rows) new_id
               (PDict [(py "scroll_id", new_id); (py "include", include)])
               (mkDebug (pages (debug st) + 1)
                        (if is_none (loc_scroll_id st) then new_id
                         else scroll_id (debug st))
                        (Some 200) (len (all_rows st ++ rows))))),
     mkWorld u (t ++ [Post LENS_ENDPOINT headers (payload st) timeout;
                      Sleep (py_max 0 delay_sec)])).
Proof.
  intros Hr Hpage Hne Hrows Hfit new_id Hid Hsleep.
  assert (Hs : status_code r <> 429) by (destruct Hpage as [-> _]; discriminate).
  rewrite (loop_body_response st u t r Hr Hs).
  rewrite (handle_response_page st r _ items rows cursor Hpage Hne Hrows).
  cbv zeta. fold new_id. rewrite Hid, Hsleep.
  rewrite py_slice_to_all by lia.
  replace (max_results <=? len (all_rows st ++ rows)) with false
    by (symmetry; apply Z.leb_gt; rewrite len_app; lia).
  unfold log. cbn [negb orb upstream trace]. now rewrite <- app_assoc.
Qed.

(** A page that brings the result to the cap: its rows are appended up to the
    cap and the loop is left, with no sleep and no further request. *)
Lemma loop_body_page_cap (st : Locals) (u : nat -> option Response)
    (t : list event) (r : Response) (items rows : list pyval) (cursor : pyval) :
  u (posts_made t) = Some r ->
  is_page r items cursor ->
  items <> [] ->
  extract_rows py_repr items = Return rows ->
  len (all_rows st) < max_results ->
  max_results <= len (all_rows st) + len rows ->
  let new_id := if is_none (loc_scroll_id st) then cursor else loc_scroll_id st in
  let all_rows' := all_rows st ++ py_slice_to rows (max_results - len (all_rows st)) in
  loop_body py_repr headers max_results delay_sec timeout st (mkWorld u t)
  = (Return (Break (mkLocals all_rows' new_id (payload st)
               (mkDebug (pages (debug st) + 1)
                        (if is_none (loc_scroll_id st) then new_id
                         else scroll_id (debug st))
                        (Some 200) max_results))),
     mkWorld u (t ++ [Post LENS_ENDPOINT headers (payload st) timeout]))
  /\ len all_rows' = max_results.
Proof.
  intros Hr Hpage Hne Hrows Hlt Hcap new_id all_rows'.
  assert (Hs : status_code r <> 429) by (destruct Hpage as [-> _]; discriminate).
  assert (Hlen : len all_rows' = max_results).
  { unfold all_rows'. rewrite len_app, length_py_slice_to by lia. lia. }
  split; [|exact Hlen].
  rewrite (loop_body_response st u t r Hr Hs).
  rewrite (handle_response_page st r _ items rows cursor Hpage Hne Hrows).
  cbv zeta. fold new_id. fold all_rows'. rewrite Hlen, Z.leb_refl, orb_true_r.
  reflexivity.
Qed.

End SearchLoop.

(* ================================================================= *)
(** * The search *)

Lemma nonempty_of_length {A : Type} (l : list A) (n : nat) :
  List.length l = S n -> l <> [].
Proof. destruct l; [discriminate|congruence]. Qed.

Ltac solve_len :=
  cbn [all_rows initial_locals]; rewrite ?len_app; unfold len in *; cbn [List.length] in *; lia.

(** C1. A search capped at 250 rows (page size [min(100, 250) = 100])
    against an upstream whose first three answers are pages of 100, 100 and
    50 well-nested records, the first carrying a cursor, returns the rows of
    the 250 records in order, with [pages == 3], after exactly three
    requests: the first with the query, the next two with the cursor.  A
    search capped at 10 rows whose first answer is a page of 100 records
    returns the rows of the first 10 of them and makes that one request
    only.  (The delay between pages is one [time.sleep] accepts.) *)
Theorem pagination_and_cap :
  (forall py_repr token keyword scope date_from scroll_ttl delay_sec timeout
          u t r1 r2 r3 items1 items2 items3 c1 c2 c3,
     u (posts_made t) = Some r1 ->
     u (posts_made t + 1)%nat = Some r2 ->
     u (posts_made t + 2)%nat = Some r3 ->
     is_page r1 items1 c1 -> is_page r2 items2 c2 -> is_page r3 items3 c3 ->
     truthy c1 = true ->
     List.length items1 = 100%nat ->
     List.length items2 = 100%nat ->
     List.length items3 = 50%nat ->
     Forall (fun item => well_nested item = true) (items1 ++ items2 ++ items3) ->
     sleep_refusal (py_max 0 delay_sec) = None ->
     exists (rows : list pyval) (dbg : Debug),
       lens_search_with_scroll py_repr token keyword scope date_from 250 scroll_ttl
         delay_sec timeout (mkWorld u t)
       = (Return (rows, dbg),
          mkWorld u
            (t ++ [Post LENS_ENDPOINT (request_headers token)
                     (initial_payload keyword scope date_from 250 scroll_ttl) timeout;
                   Sleep (py_max 0 delay_sec);
                   Post LENS_ENDPOINT (request_headers token)
                     (PDict [(py "scroll_id", c1); (py "include", include)]) timeout;
                   Sleep (py_max 0 delay_sec);
                   Post LENS_ENDPOINT (request_headers token)
                     (PDict [(py "scroll_id", c1); (py "include", include)]) timeout]))
       /\ extract_rows py_repr (items1 ++ items2 ++ items3) = Return rows
       /\ List.length rows = 250%nat
       /\ pages dbg = 3
       /\ returned dbg = 250)
  /\ (forall py_repr token keyword scope date_from scroll_ttl delay_sec timeout
             u t r1 items1 c1,
        u (posts_made t) = Some r1 ->
        is_page r1 items1 c1 ->
        List.length items1 = 100%nat ->
        Forall (fun item => well_nested item = true) items1 ->
        exists (rows1 : list pyval) (dbg : Debug),
          lens_search_with_scroll py_repr token keyword scope date_from 10 scroll_ttl
            delay_sec timeout (mkWorld u t)
          = (Return (firstn 10 rows1, dbg),
             mkWorld u
               (t ++ [Post LENS_ENDPOINT (request_headers token)
                        (initial_payload keyword scope date_from 10 scroll_ttl) timeout]))
          /\ extract_rows py_repr items1 = Return rows1
          /\ List.length (firstn 10 rows1) = 10%nat
          /\ pages dbg = 1
          /\ returned dbg = 10).
Proof.
  split.
  - intros py_repr token keyword scope date_from scroll_ttl delay_sec timeout
           u t r1 r2 r3 items1 items2 items3 c1 c2 c3
           U1 U2 U3 P1 P2 P3 Hc1 L1 L2 L3 Hwn Hsleep.
    apply Forall_app in Hwn as [W1 Hwn]. apply Forall_app in Hwn as [W2 W3].
    destruct (extract_rows_well_nested py_repr items1 W1) as [rows1 R1].
    destruct (extract_rows_well_nested py_repr items2 W2) as [rows2 R2].
    destruct (extract_rows_well_nested py_repr items3 W3) as [rows3 R3].
    pose proof (extract_rows_length py_repr _ _ R1) as N1.
    pose proof (extract_rows_length py_repr _ _ R2) as N2.
    pose proof (extract_rows_length py_repr _ _ R3) as N3.
    rewrite L1 in N1. rewrite L2 in N2. rewrite L3 in N3.
    assert (Hnone : is_none c1 = false) by (destruct c1; [discriminate|reflexivity..]).
    set (hs := request_headers token).
    set (p0 := initial_payload keyword scope date_from 250 scroll_ttl).
    set (p1 := PDict [(py "scroll_id", c1); (py "include", include)]).
    set (s := Sleep (py_max 0 delay_sec)).
    (* first page *)
    pose proof (loop_body_page_continue py_repr hs 250 delay_sec timeout
                  (initial_locals keyword scope date_from 250 scroll_ttl)
                  u t r1 items1 rows1 c1 U1 P1
                  (nonempty_of_length _ _ L1) R1) as B1.
    cbn [initial_locals all_rows loc_scroll_id payload debug is_none app
         initial_debug pages scroll_id] in B1.
    fold p0 in B1.
    assert (X1 : len (@nil pyval) + len rows1 < 250) by solve_len.
    specialize (B1 X1 Hc1 Hsleep).
    fold s in B1.
    (* second page *)
    set (t1 := t ++ [Post LENS_ENDPOINT hs p0 timeout; s]) in *.
    assert (T1 : posts_made t1 = (posts_made t + 1)%nat)
      by (unfold t1; rewrite posts_made_app; reflexivity).
    rewrite <- T1 in U2.
    match type of B1 with _ = (Return (Continue ?st), _) => set (st1 := st) in * end.
    pose proof (loop_body_page_continue py_repr hs 250 delay_sec timeout
                  st1 u t1 r2 items2 rows2 c2 U2 P2
                  (nonempty_of_length _ _ L2) R2) as B2.
    cbn [st1 all_rows loc_scroll_id payload debug pages scroll_id] in B2.
    rewrite Hnone in B2.
    assert (X2 : len rows1 + len rows2 < 250) by solve_len.
    specialize (B2 X2 Hc1 Hsleep).
    fold s in B2. fold p1 in B2.
    (* third page *)
    set (t2 := t1 ++ [Post LENS_ENDPOINT hs p1 timeout; s]) in *.
    assert (T2 : posts_made t2 = (posts_made t + 2)%nat)
      by (unfold t2; rewrite posts_made_app, T1;
          change (posts_made [Post LENS_ENDPOINT hs p1 timeout; s]) with 1%nat; lia).
    rewrite <- T2 in U3.
    match type of B2 with _ = (Return (Continue ?st), _) => set (st2 := st) in * end.
    destruct (loop_body_page_cap py_repr hs 250 delay_sec timeout
                st2 u t2 r3 items3 rows3 c3 U3 P3
                (nonempty_of_length _ _ L3) R3) as [B3 Hlen3].
    { unfold st2. solve_len. }
    { unfold st2. solve_len. }
    cbn [st2 all_rows loc_scroll_id payload debug pages scroll_id] in B3, Hlen3.
    rewrite Hnone in B3.
    rewrite py_slice_to_all in B3, Hlen3
      by solve_len.
    (* the loop *)
    assert (Y0 : len (all_rows (initial_locals keyword scope date_from 250 scroll_ttl)) < 250)
      by solve_len.
    assert (Y1 : len (all_rows st1) < 250) by (unfold st1; solve_len).
    assert (Y2 : len (all_rows st2) < 250) by (unfold st2; solve_len).
    rewrite search_of_loop. change (Z.to_nat 250) with (S (S (S 247))).
    fold hs.
    rewrite (while_loop_continue py_repr hs 250 delay_sec timeout _ _ _ _ _ Y0 B1).
    rewrite (while_loop_continue py_repr hs 250 delay_sec timeout _ _ _ _ _ Y1 B2).
    rewrite (while_loop_break py_repr hs 250 delay_sec timeout _ _ _ _ _ Y2 B3).
    eexists. eexists. split.
    { cbn [all_rows debug]. unfold t2, t1. rewrite <- !app_assoc. reflexivity. }
    split.
    { apply extract_rows_returns. apply extract_rows_returns in R1, R2, R3.
      repeat apply Forall2_app; assumption. }
    split.
    { rewrite !length_app, N1, N2, N3. reflexivity. }
    split; reflexivity.
  - intros py_repr token keyword scope date_from scroll_ttl delay_sec timeout
           u t r1 items1 c1 U1 P1 L1 W1.
    destruct (extract_rows_well_nested py_repr items1 W1) as [rows1 R1].
    pose proof (extract_rows_length py_repr _ _ R1) as N1. rewrite L1 in N1.
    set (hs := request_headers token).
    destruct (loop_body_page_cap py_repr hs 10 delay_sec timeout
                (initial_locals keyword scope date_from 10 scroll_ttl)
                u t r1 items1 rows1 c1 U1 P1
                (nonempty_of_length _ _ L1) R1) as [B1 Hlen1].
    { solve_len. }
    { solve_len. }
    cbn [initial_locals all_rows loc_scroll_id payload debug is_none app
         initial_debug pages scroll_id] in B1, Hlen1.
    change (len (@nil pyval)) with 0 in B1, Hlen1.
    change (py_slice_to rows1 (10 - 0)) with (firstn 10 rows1) in B1, Hlen1.
    assert (Y0 : len (all_rows (initial_locals keyword scope date_from 10 scroll_ttl)) < 10)
      by solve_len.
    rewrite search_of_loop. change (Z.to_nat 10) with (S 9). fold hs.
    rewrite (while_loop_break py_repr hs 10 delay_sec timeout _ _ _ _ _ Y0 B1).
    eexists. eexists. split; [reflexivity|]. split; [exact R1|].
    split; [|split; reflexivity].
    unfold len in Hlen1. lia.
Qed.

(** Three pages of 100, 100 and 50 sample records under the cap 250, and a
    page of 100 under the cap 10. *)
Lemma pagination_and_cap_witness :
  (forall py_repr,
     exists (rows : list pyval) (dbg : Debug),
       lens_search_with_scroll py_repr (py "s3cr3t") (py "skin stapler")
         (py "title+abstract") (Some (py "2018-01-01")) 250 (py "1m") 0.5 30
         (mkWorld (scripted [sample_page 100 (py "c1"); sample_page 100 (py "c1");
                             sample_page 50 (py "c1")]) [])
       = (Return (rows, dbg),
          mkWorld (scripted [sample_page 100 (py "c1"); sample_page 100 (py "c1");
                             sample_page 50 (py "c1")])
            [Post LENS_ENDPOINT (request_headers (py "s3cr3t"))
               (initial_payload (py "skin stapler") (py "title+abstract")
                  (Some (py "2018-01-01")) 250 (py "1m")) 30;
             Sleep 0.5;
             Post LENS_ENDPOINT (request_headers (py "s3cr3t"))
               (PDict [(py "scroll_id", PStr (py "c1")); (py "include", include)]) 30;
             Sleep 0.5;
             Post LENS_ENDPOINT (request_headers (py "s3cr3t"))
               (PDict [(py "scroll_id", PStr (py "c1")); (py "include", include)]) 30])
       /\ extract_rows py_repr
            (repeat sample_record 100 ++ repeat sample_record 100
             ++ repeat sample_record 50) = Return rows
       /\ List.length rows = 250%nat
       /\ pages dbg = 3
       /\ returned dbg = 250)
  /\ (forall py_repr,
        exists (rows1 : list pyval) (dbg : Debug),
          lens_search_with_scroll py_repr (py "s3cr3t") (py "skin stapler")
            (py "title+abstract") (Some (py "2018-01-01")) 10 (py "1m") 0.5 30
            (mkWorld (scripted [sample_page 100 (py "c1")]) [])
          = (Return (firstn 10 rows1, dbg),
             mkWorld (scripted [sample_page 100 (py "c1")])
               [Post LENS_ENDPOINT (request_headers (py "s3cr3t"))
                  (initial_payload (py "skin stapler") (py "title+abstract")
                     (Some (py "2018-01-01")) 10 (py "1m")) 30])
          /\ extract_rows py_repr (repeat sample_record 100) = Return rows1
          /\ List.length (firstn 10 rows1) = 10%nat
          /\ pages dbg = 1
          /\ returned dbg = 10).
Proof.
  split; intros py_repr.
  - apply (proj1 pagination_and_cap py_repr (py "s3cr3t") (py "skin stapler")
             (py "title+abstract") (Some (py "2018-01-01")) (py "1m") 0.5%float 30
             (scripted [sample_page 100 (py "c1"); sample_page 100 (py "c1");
                        sample_page 50 (py "c1")]) []
             (sample_page 100 (py "c1")) (sample_page 100 (py "c1"))
             (sample_page 50 (py "c1"))
             (repeat sample_record 100) (repeat sample_record 100)
             (repeat sample_record 50)
             (PStr (py "c1")) (PStr (py "c1")) (PStr (py "c1")));
      try reflexivity;
      try (split; [reflexivity | eexists; repeat split; reflexivity]).
    repeat constructor.
  - apply (proj2 pagination_and_cap py_repr (py "s3cr3t") (py "skin stapler")
             (py "title+abstract") (Some (py "2018-01-01")) (py "1m") 0.5%float 30
             (scripted [sample_page 100 (py "c1")]) []
             (sample_page 100 (py "c1")) (repeat sample_record 100) (PStr (py "c1")));
      try reflexivity;
      try (split; [reflexivity | eexists; repeat split; reflexivity]).
    repeat constructor.
Defined.

(** The model's loop never runs out of the fuel the search gives it: the
    search always returns or raises. *)
Lemma lens_search_has_fuel (py_repr : pyval -> pystr) (token keyword scope : pystr)
    (date_from : option pystr) (max_results : Z) (scroll_ttl : pystr)
    (delay_sec : float) (timeout : Z) (w : World) :
  fst (lens_search_with_scroll py_repr token keyword scope date_from max_results
         scroll_ttl delay_sec timeout w) <> OutOfFuel.
Proof.
  rewrite search_of_loop.
  pose proof (while_loop_has_fuel py_repr (request_headers token) max_results
                delay_sec timeout (Z.to_nat max_results)
                (initial_locals keyword scope date_from max_results scroll_ttl) w) as H.
  destruct (while_loop _ _ _ _ _ _ _ w) as [[st|e|] w'].
  - discriminate.
  - discriminate.
  - exfalso. apply H; [|reflexivity].
    cbn [initial_locals all_rows]. unfold len. cbn [List.length]. lia.
Qed.

(** C9. With [max_results <= 0] the search makes no request (the world is
    left as it was) and returns no rows, with the diagnostics it started
    from: [pages == 0], [returned == 0], [last_status] and [scroll_id]
    [None]. *)
Theorem no_request_when_nothing_is_asked (py_repr : pyval -> pystr)
    (token keyword scope : pystr) (date_from : option pystr) (max_results : Z)
    (scroll_ttl : pystr) (delay_sec : float) (timeout : Z) (w : World) :
  max_results <= 0 ->
  lens_search_with_scroll py_repr token keyword scope date_from max_results
    scroll_ttl delay_sec timeout w
  = (Return ([], {| pages := 0; scroll_id := PNone; last_status := None; returned := 0 |}),
     w).
Proof.
  intros H. rewrite search_of_loop, while_loop_done; [reflexivity|].
  cbn [initial_locals all_rows]. unfold len. cbn [List.length]. lia.
Qed.

(** Caps of 0 and of -5. *)
Lemma no_request_when_nothing_is_asked_witness :
  (forall py_repr,
     lens_search_with_scroll py_repr (py "s3cr3t") (py "skin stapler") (py "title")
       None 0 (py "1m") 0.5 30 (mkWorld (scripted [sample_page 100 (py "c1")]) [])
     = (Return ([], {| pages := 0; scroll_id := PNone; last_status := None;
                       returned := 0 |}),
        mkWorld (scripted [sample_page 100 (py "c1")]) []))
  /\ (forall py_repr,
        lens_search_with_scroll py_repr (py "s3cr3t") (py "skin stapler") (py "title")
          None (-5) (py "1m") 0.5 30 (mkWorld (scripted [sample_page 100 (py "c1")]) [])
        = (Return ([], {| pages := 0; scroll_id := PNone; last_status := None;
                          returned := 0 |}),
           mkWorld (scripted [sample_page 100 (py "c1")]) [])).
Proof.
  split; intros py_repr.
  - apply (no_request_when_nothing_is_asked py_repr (py "s3cr3t") (py "skin stapler")
             (py "title") None 0 (py "1m") 0.5%float 30
             (mkWorld (scripted [sample_page 100 (py "c1")]) [])).
    lia.
  - apply (no_request_when_nothing_is_asked py_repr (py "s3cr3t") (py "skin stapler")
             (py "title") None (-5) (py "1m") 0.5%float 30
             (mkWorld (scripted [sample_page 100 (py "c1")]) [])).
    lia.
Defined.

(** C2. Whatever iteration the loop of a search is in, when the transport
    hands it a response: status 204 ends the search with the rows gathered
    so far (none, with [pages == 1], on the first iteration); status 401
    makes the search raise the "401 Unauthorized" error, status 403 the
    "403 Forbidden" error, and every other status but 200 the "API Error"
    error whose message holds the status code and the response text.  The
    search ends there: its outcome is the exception alone, and the world is
    the one the response was received in, with no request or sleep after
    it. *)
Theorem status_code_handling (py_repr : pyval -> pystr) (token keyword scope : pystr)
    (date_from : option pystr) (max_results : Z) (scroll_ttl : pystr)
    (delay_sec : float) (timeout : Z) (w0 : World)
    (st : Locals) (w : World) (r : Response) (w' : World) :
  iteration py_repr (request_headers token) max_results delay_sec timeout
    (initial_locals keyword scope date_from max_results scroll_ttl) w0 st w ->
  len (all_rows st) < max_results ->
  _post_with_retry (request_headers token) (payload st) timeout
    default_max_retries default_backoff_sec w = (Return r, w') ->
  let search :=
    lens_search_with_scroll py_repr token keyword scope date_from max_results
      scroll_ttl delay_sec timeout w0 in
  (status_code r = 204 ->
   search = (Return (all_rows st,
                     {| pages := pages (debug st) + 1;
                        scroll_id := scroll_id (debug st);
                        last_status := Some 204;
                        returned := returned (debug st) |}), w')
   /\ (st = initial_locals keyword scope date_from max_results scroll_ttl ->
       search = (Return ([], {| pages := 1; scroll_id := PNone;
                                last_status := Some 204; returned := 0 |}), w')))
  /\ (status_code r = 401 -> search = (Raise (RuntimeError msg_401), w'))
  /\ (status_code r = 403 -> search = (Raise (RuntimeError msg_403), w'))
  /\ (status_code r <> 200 -> status_code r <> 204 ->
      status_code r <> 401 -> status_code r <> 403 ->
      search = (Raise (RuntimeError
                         (py "API Error " ++ str_of_int (status_code r)
                          ++ py ": " ++ text r)), w'))
  /\ msg_401 <> msg_403.
Proof.
  intros Hit Hlt Hpost search.
  destruct (while_loop_from_iteration py_repr (request_headers token) max_results
              delay_sec timeout _ _ _ _ Hit (Z.to_nat max_results))
    as (fuel & Hfuel & Heq).
  { cbn [initial_locals all_rows]. unfold len. cbn [List.length]. lia. }
  destruct fuel as [|fuel]; [lia|].
  assert (Hbody : loop_body py_repr (request_headers token) max_results delay_sec
                    timeout st w
                  = handle_response py_repr max_results delay_sec st r w')
    by (unfold loop_body, bind; now rewrite Hpost).
  assert (Hsearch : search
            = match while_loop py_repr (request_headers token) max_results delay_sec
                      timeout (S fuel) st w with
              | (Return st', w1) => (Return (all_rows st', debug st'), w1)
              | (Raise e, w1) => (Raise e, w1)
              | (OutOfFuel, w1) => (OutOfFuel, w1)
              end)
    by (unfold search; now rewrite search_of_loop, Heq).
  assert (H204 : status_code r = 204 ->
            search = (Return (all_rows st,
                              {| pages := pages (debug st) + 1;
                                 scroll_id := scroll_id (debug st);
                                 last_status := Some 204;
                                 returned := returned (debug st) |}), w')).
  { intros H. pose proof Hbody as Hbody'.
    rewrite (handle_response_204 _ _ _ st r w' H) in Hbody'.
    now rewrite Hsearch, (while_loop_break _ _ _ _ _ fuel _ _ _ _ Hlt Hbody'). }
  split; [|split; [|split; [|split]]].
  - intros H. split; [now apply H204|]. intros E. rewrite (H204 H), E. reflexivity.
  - intros H. pose proof Hbody as Hbody'.
    rewrite (handle_response_401 _ _ _ st r w' H) in Hbody'.
    now rewrite Hsearch, (while_loop_raise _ _ _ _ _ fuel _ _ _ _ Hlt Hbody').
  - intros H. pose proof Hbody as Hbody'.
    rewrite (handle_response_403 _ _ _ st r w' H) in Hbody'.
    now rewrite Hsearch, (while_loop_raise _ _ _ _ _ fuel _ _ _ _ Hlt Hbody').
  - intros H200 H204' H401 H403.
    pose proof Hbody as Hbody'.
    rewrite (handle_response_other _ _ _ st r w' H200 H204' H401 H403) in Hbody'.
    now rewrite Hsearch, (while_loop_raise _ _ _ _ _ fuel _ _ _ _ Hlt Hbody').
  - discriminate.
Qed.

(** A first response with status 401, and one with status 204. *)
Lemma status_code_handling_witness :
  (forall py_repr,
     lens_search_with_scroll py_repr (py "s3cr3t") (py "skin stapler")
       (py "title+abstract") (Some (py "2018-01-01")) 200 (py "1m") 0.5 30
       (mkWorld (scripted [unauthorized]) [])
     = (Raise (RuntimeError msg_401),
        mkWorld (scripted [unauthorized])
                [Post LENS_ENDPOINT sample_headers sample_payload 30]))
  /\ (forall py_repr,
        lens_search_with_scroll py_repr (py "s3cr3t") (py "skin stapler")
          (py "title+abstract") (Some (py "2018-01-01")) 200 (py "1m") 0.5 30
          (mkWorld (scripted [no_content]) [])
        = (Return ([], {| pages := 1; scroll_id := PNone; last_status := Some 204;
                          returned := 0 |}),
           mkWorld (scripted [no_content])
                   [Post LENS_ENDPOINT sample_headers sample_payload 30])).
Proof.
  assert (Hlt : len (all_rows (initial_locals (py "skin stapler") (py "title+abstract")
                                 (Some (py "2018-01-01")) 200 (py "1m"))) < 200)
    by reflexivity.
  assert (Hpost : forall r : Response,
            status_code r <> 429 ->
            _post_with_retry (request_headers (py "s3cr3t"))
              (payload (initial_locals (py "skin stapler") (py "title+abstract")
                          (Some (py "2018-01-01")) 200 (py "1m")))
              30 default_max_retries default_backoff_sec (mkWorld (scripted [r]) [])
            = (Return r,
               mkWorld (scripted [r])
                       [Post LENS_ENDPOINT sample_headers sample_payload 30])).
  { intros r Hr. apply (post_once (request_headers (py "s3cr3t")) 30); [reflexivity|exact Hr]. }
  split; intros py_repr.
  - exact (proj1 (proj2 (status_code_handling py_repr (py "s3cr3t") (py "skin stapler")
             (py "title+abstract") (Some (py "2018-01-01")) 200 (py "1m") 0.5%float 30
             (mkWorld (scripted [unauthorized]) []) _ _ unauthorized _
             (iteration_first _ _ _ _ _ _ _) Hlt
             (Hpost unauthorized ltac:(discriminate)))) eq_refl).
  - exact (proj2 (proj1 (status_code_handling py_repr (py "s3cr3t") (py "skin stapler")
             (py "title+abstract") (Some (py "2018-01-01")) 200 (py "1m") 0.5%float 30
             (mkWorld (scripted [no_content]) []) _ _ no_content _
             (iteration_first _ _ _ _ _ _ _) Hlt
             (Hpost no_content ltac:(discriminate))) eq_refl) eq_refl).
Defined.

(** C8, as the code has it.  The handler of the search button, given a token
    that is empty or white space only, shows an error and stops the script
    before it calls the search: nothing is posted. *)
Theorem run_handler_rejects_blank_token (py_repr : pyval -> pystr) (sb : Sidebar)
    (w : World) :
  sb_run sb = true ->
  strip (sb_token sb) = [] ->
  run_handler py_repr sb w
  = (Raise StopException,
     mkWorld (upstream w) (trace w ++ [StError msg_enter_token])).
Proof.
  intros Hrun Htoken. unfold run_handler. rewrite Hrun, Htoken. reflexivity.
Qed.

Lemma run_handler_rejects_blank_token_witness :
  (forall py_repr,
     run_handler py_repr
       (mkSidebar (py "   ") (py "skin stapler") (py "title+abstract") 2018 200
                  (py "1m") 0.5 false true)
       (mkWorld (scripted [sample_page 100 (py "c1")]) [])
     = (Raise StopException,
        mkWorld (scripted [sample_page 100 (py "c1")]) [StError msg_enter_token]))
  /\ strip (py "   ") = [].
Proof.
  split; [intros py_repr|reflexivity].
  apply (run_handler_rejects_blank_token py_repr
           (mkSidebar (py "   ") (py "skin stapler") (py "title+abstract") 2018 200
                      (py "1m") 0.5%float false true)
           (mkWorld (scripted [sample_page 100 (py "c1")]) []));
    reflexivity.
Defined.

(** C8, the claim as written fails: [lens_search_with_scroll] itself does not
    look at the token.  Called with an empty token, or one of white space, it
    posts its first request, with the header [Authorization: Bearer ] and
    nothing after it, and goes by the answer. *)
Lemma search_posts_with_blank_token :
  (forall py_repr,
     lens_search_with_scroll py_repr [] (py "skin stapler") (py "title") None 10
       (py "1m") 0.5 30 (mkWorld (scripted [no_content]) [])
     = (Return ([], {| pages := 1; scroll_id := PNone; last_status := Some 204;
                       returned := 0 |}),
        mkWorld (scripted [no_content])
          [Post LENS_ENDPOINT
             [(py "Authorization", PStr (py "Bearer "));
              (py "Content-Type", PStr (py "application/json"))]
             (initial_payload (py "skin stapler") (py "title") None 10 (py "1m")) 30]))
  /\ (forall py_repr,
        lens_search_with_scroll py_repr (py "   ") (py "skin stapler") (py "title")
          None 10 (py "1m") 0.5 30 (mkWorld (scripted [unauthorized]) [])
        = (Raise (RuntimeError msg_401),
           mkWorld (scripted [unauthorized])
             [Post LENS_ENDPOINT
                [(py "Authorization", PStr (py "Bearer "));
                 (py "Content-Type", PStr (py "application/json"))]
                (initial_payload (py "skin stapler") (py "title") None 10 (py "1m")) 30])).
Proof.
  split; intros py_repr; reflexivity.
Qed.

(* ================================================================= *)
(** * More on the retrying transport *)

Lemma py_range_nonpositive (n : Z) : n <= 0 -> py_range n = [].
Proof.
  intros H. unfold py_range. replace (Z.to_nat n) with 0%nat by lia. reflexivity.
Qed.

(** With a negative number of retries the [for] loop makes no attempt, and
    the [return r] after it reads a local that was never assigned. *)
Theorem no_attempt_raises_unbound_local (headers : pydict) (payload : pyval)
    (timeout max_retries : Z) (backoff_sec : float) (w : World) :
  max_retries < 0 ->
  _post_with_retry headers payload timeout max_retries backoff_sec w
  = (Raise UnboundLocalError, w).
Proof.
  intros H. unfold _post_with_retry. rewrite py_range_nonpositive by lia. reflexivity.
Qed.

(** One retry less than none. *)
Lemma no_attempt_raises_unbound_local_witness :
  _post_with_retry sample_headers sample_payload 30 (-1) default_backoff_sec
    (mkWorld (scripted [sample_page 100 (py "c1")]) [])
  = (Raise UnboundLocalError, mkWorld (scripted [sample_page 100 (py "c1")]) []).
Proof.
  apply (no_attempt_raises_unbound_local sample_headers sample_payload 30 (-1)
           default_backoff_sec (mkWorld (scripted [sample_page 100 (py "c1")]) [])).
  lia.
Defined.

(** Every run of the attempts, whatever its outcome, only adds posts of the
    request and accepted sleeps to the trace, at most one post per attempt,
    and leaves the upstream as it is. *)
Lemma retry_attempts_events (headers : pydict) (payload : pyval) (timeout : Z)
    (backoff_sec : float) (attempts : list Z) :
  forall (last : option Response) (w : World),
    exists evs : list event,
      snd (retry_attempts attempts last headers payload timeout backoff_sec w)
      = mkWorld (upstream w) (trace w ++ evs)
      /\ Forall (transport_event headers payload timeout) evs
      /\ (posts_made evs <= List.length attempts)%nat.
Proof.
  induction attempts as [|attempt rest IH]; intros last w.
  - exists []. rewrite app_nil_r. destruct w as [u t]. destruct last; simpl; auto.
  - destruct w as [u t]. unfold retry_attempts; fold retry_attempts.
    unfold bind, requests_post, lift, time_sleep, ret, log. cbn [upstream trace].
    set (e := Post LENS_ENDPOINT headers payload timeout).
    assert (He : transport_event headers payload timeout e) by now left.
    assert (Hone : exists evs : list event,
              mkWorld u (t ++ [e]) = mkWorld u (t ++ evs)
              /\ Forall (transport_event headers payload timeout) evs
              /\ (posts_made evs <= List.length (attempt :: rest))%nat).
    { exists [e]. repeat split; auto. unfold posts_made. simpl. lia. }
    destruct (u (posts_made t)) as [r|]; [|exact Hone].
    destruct (status_code r =? 429); [|exact Hone].
    destruct (float_mul_int backoff_sec (attempt + 1)) as [s| |];
      [|exact Hone|exact Hone].
    cbn [fst snd]. destruct (sleep_refusal s) eqn:Es; [exact Hone|].
    cbn [upstream trace].
    destruct (IH (Some r) (mkWorld u ((t ++ [e]) ++ [Sleep s])))
      as (evs & Hw & Hall & Hn).
    exists (e :: Sleep s :: evs). rewrite Hw. cbn [upstream trace].
    split; [now rewrite <- !app_assoc|]. split.
    + constructor; [assumption|]. constructor; [|assumption]. right. now exists s.
    + change (e :: Sleep s :: evs) with ([e; Sleep s] ++ evs).
      rewrite posts_made_app. unfold posts_made at 1. simpl. lia.
Qed.

(** What the transport returns, and when.  A returned response is the
    upstream's answer to the last request posted.  It is a 429 only when all
    [max_retries + 1] attempts were rate-limited; otherwise it is the first
    answer that is not a 429, after one sleep per rate-limited attempt. *)
Lemma retry_attempts_returns (headers : pydict) (payload : pyval) (timeout : Z)
    (backoff_sec : float) (u : nat -> option Response) (r : Response) (w' : World) :
  forall (n a : nat) (last : option Response) (t : list event),
    retry_attempts (map Z.of_nat (seq a n)) last headers payload timeout backoff_sec
      (mkWorld u t) = (Return r, w') ->
    exists k : nat,
      (forall i, (i < k)%nat ->
         exists ri, u (posts_made t + i)%nat = Some ri /\ status_code ri = 429)
      /\ ((k < n)%nat /\ u (posts_made t + k)%nat = Some r /\ status_code r <> 429
          /\ w' = mkWorld u (t ++ rate_limited_attempts headers payload timeout
                                    backoff_sec a k
                               ++ [Post LENS_ENDPOINT headers payload timeout])
          \/ k = n
             /\ w' = mkWorld u (t ++ rate_limited_attempts headers payload timeout
                                       backoff_sec a n)
             /\ (n = 0%nat /\ last = Some r
                 \/ (0 < n)%nat /\ u (posts_made t + n - 1)%nat = Some r
                    /\ status_code r = 429)).
Proof.
  induction n as [|n IH]; intros a last t H.
  - exists 0%nat. split; [intros i Hi; lia|]. right.
    simpl in H. destruct last as [r0|]; [|discriminate].
    injection H as <- <-. unfold rate_limited_attempts. simpl. rewrite app_nil_r.
    repeat split. now left.
  - simpl seq in H. simpl map in H.
    unfold retry_attempts in H; fold retry_attempts in H.
    unfold bind, requests_post, lift, time_sleep, ret, log in H. simpl in H.
    destruct (u (posts_made t)) as [r0|] eqn:U0; [|discriminate].
    destruct (status_code r0 =? 429) eqn:S0.
    + apply Z.eqb_eq in S0.
      unfold float_mul_int, float_of_int in H.
      destruct (is_infinity (to_float (Z.of_nat a + 1))); [discriminate|].
      cbn [obind] in H.
      destruct (sleep_refusal _) eqn:Es; [discriminate|].
      set (t1 := (t ++ [Post LENS_ENDPOINT headers payload timeout])
                   ++ [Sleep (backoff_sec * to_float (Z.of_nat a + 1))]) in *.
      assert (Ht1 : posts_made t1 = S (posts_made t))
        by (unfold t1; rewrite !posts_made_app; unfold posts_made; simpl; lia).
      destruct (IH (S a) (Some r0) t1 H) as (k & Hk & Hcase).
      assert (Hev : forall m, t ++ rate_limited_attempts headers payload timeout
                                     backoff_sec a (S m)
                    = t1 ++ rate_limited_attempts headers payload timeout
                              backoff_sec (S a) m).
      { intros m. unfold t1, rate_limited_attempts, backoff_length. simpl.
        now rewrite <- !app_assoc. }
      exists (S k). split.
      * intros [|i] Hi.
        -- exists r0. now rewrite Nat.add_0_r.
        -- destruct (Hk i ltac:(lia)) as (ri & Hri & Hsi). exists ri.
           split; [|assumption]. rewrite <- Hri, Ht1. f_equal. lia.
      * destruct Hcase as [(Hlt & Hu & Hs & Hw) | (-> & Hw & Hlast)].
        -- left. split; [lia|]. split; [|split; [assumption|]].
           ++ rewrite <- Hu, Ht1. f_equal. lia.
           ++ rewrite Hw. f_equal.
              rewrite (app_assoc t (rate_limited_attempts _ _ _ _ a (S k))), Hev.
              now rewrite <- app_assoc.
        -- right. repeat split; [now rewrite Hev|]. right.
           split; [lia|].
           destruct Hlast as [(-> & [= <-]) | (Hpos & Hu & Hs)].
           ++ split; [|assumption]. rewrite <- U0. f_equal. lia.
           ++ split; [|assumption]. rewrite <- Hu, Ht1. f_equal. lia.
    + injection H as <- <-. exists 0%nat. split; [intros i Hi; lia|]. left.
      apply Z.eqb_neq in S0. rewrite Nat.add_0_r.
      split; [lia|]. split; [assumption|]. split; [assumption|].
      unfold rate_limited_attempts. reflexivity.
Qed.

(** Every run of the transport that returns a response.  The first [k]
    answers had status 429 and each was followed by its backoff.  Then
    either an answer with another status came while attempts were left, and
    it is the response returned; or all [max_retries + 1] attempts were
    answered 429, and the response returned is the last of them.  The trace
    grew by these posts and sleeps and nothing else. *)
Theorem post_with_retry_returns (headers : pydict) (payload : pyval)
    (timeout max_retries : Z) (backoff_sec : float) (u : nat -> option Response)
    (t : list event) (r : Response) (w' : World) :
  _post_with_retry headers payload timeout max_retries backoff_sec (mkWorld u t)
    = (Return r, w') ->
  0 <= max_retries
  /\ exists k : nat,
       Z.of_nat k <= max_retries + 1
       /\ (forall i, (i < k)%nat ->
             exists ri, u (posts_made t + i)%nat = Some ri /\ status_code ri = 429)
       /\ (Z.of_nat k <= max_retries
           /\ status_code r <> 429
           /\ u (posts_made t + k)%nat = Some r
           /\ w' = mkWorld u (t ++ rate_limited_attempts headers payload timeout
                                     backoff_sec 0 k
                                ++ [Post LENS_ENDPOINT headers payload timeout])
           \/ Z.of_nat k = max_retries + 1
              /\ status_code r = 429
              /\ u (posts_made t + Z.to_nat max_retries)%nat = Some r
              /\ w' = mkWorld u (t ++ rate_limited_attempts headers payload timeout
                                        backoff_sec 0 k)).
Proof.
  intros H.
  destruct (Z.lt_ge_cases max_retries 0) as [Hneg|Hpos].
  { unfold _post_with_retry in H. rewrite py_range_nonpositive in H by lia.
    discriminate. }
  split; [assumption|].
  unfold _post_with_retry, py_range in H.
  destruct (retry_attempts_returns headers payload timeout backoff_sec u r w'
              _ _ _ _ H) as (k & Hk & Hcase).
  exists k. destruct Hcase as [(Hlt & Hu & Hs & Hw) | (-> & Hw & Hlast)].
  - split; [lia|]. split; [assumption|]. left.
    split; [lia|]. split; [assumption|]. split; assumption.
  - split; [lia|]. split; [assumption|]. right.
    destruct Hlast as [(E & _) | (_ & Hu & Hs)]; [lia|].
    split; [lia|]. split; [assumption|]. split; [|assumption].
    rewrite <- Hu. f_equal. lia.
Qed.

(** An answer 429 followed by an answer 204. *)
Lemma post_with_retry_returns_witness :
  0 <= default_max_retries
  /\ exists k : nat,
       Z.of_nat k <= default_max_retries + 1
       /\ (forall i, (i < k)%nat ->
             exists ri,
               scripted [too_many_requests; no_content] (posts_made [] + i)%nat = Some ri
               /\ status_code ri = 429)
       /\ (Z.of_nat k <= default_max_retries
           /\ status_code no_content <> 429
           /\ scripted [too_many_requests; no_content] (posts_made [] + k)%nat
              = Some no_content
           /\ mkWorld (scripted [too_many_requests; no_content])
                [Post LENS_ENDPOINT sample_headers sample_payload 30; Sleep 2;
                 Post LENS_ENDPOINT sample_headers sample_payload 30]
              = mkWorld (scripted [too_many_requests; no_content])
                  ([] ++ rate_limited_attempts sample_headers sample_payload 30
                           default_backoff_sec 0 k
                      ++ [Post LENS_ENDPOINT sample_headers sample_payload 30])
           \/ Z.of_nat k = default_max_retries + 1
              /\ status_code no_content = 429
              /\ scripted [too_many_requests; no_content]
                   (posts_made [] + Z.to_nat default_max_retries)%nat = Some no_content
              /\ mkWorld (scripted [too_many_requests; no_content])
                   [Post LENS_ENDPOINT sample_headers sample_payload 30; Sleep 2;
                    Post LENS_ENDPOINT sample_headers sample_payload 30]
                 = mkWorld (scripted [too_many_requests; no_content])
                     ([] ++ rate_limited_attempts sample_headers sample_payload 30
                              default_backoff_sec 0 k)).
Proof.
  refine (post_with_retry_returns sample_headers sample_payload 30 default_max_retries
            default_backoff_sec (scripted [too_many_requests; no_content]) []
            no_content _ _).
  vm_compute. reflexivity.
Defined.

(** A backoff that [time.sleep] refuses: the first rate-limited answer makes
    the transport raise what [time.sleep] raises, after that one request and
    with no retry.  A negative backoff is refused with [ValueError] or
    [OverflowError]. *)
Theorem refused_backoff_raises (headers : pydict) (payload : pyval)
    (timeout max_retries : Z) (backoff_sec : float) (u : nat -> option Response)
    (t : list event) (r : Response) :
  0 <= max_retries ->
  u (posts_made t) = Some r ->
  status_code r = 429 ->
  (backoff_length backoff_sec 0 <? 0)%float = true ->
  exists e : exn,
    (e = ValueError \/ e = OverflowError)
    /\ _post_with_retry headers payload timeout max_retries backoff_sec (mkWorld u t)
       = (Raise e, mkWorld u (t ++ [Post LENS_ENDPOINT headers payload timeout])).
Proof.
  intros Hmax Hu Hs Hneg.
  assert (Href : exists e, (e = ValueError \/ e = OverflowError)
                           /\ sleep_refusal (backoff_length backoff_sec 0) = Some e).
  { unfold sleep_refusal. cbv zeta. rewrite Hneg.
    destruct (is_nan _); [exists ValueError; auto|].
    destruct (_ || _); [exists OverflowError; auto|exists ValueError; auto]. }
  destruct Href as (e & He & Href). exists e. split; [assumption|].
  unfold _post_with_retry, py_range.
  replace (Z.to_nat (max_retries + 1)) with (S (Z.to_nat max_retries)) by lia.
  simpl seq. simpl map.
  unfold retry_attempts; fold retry_attempts.
  unfold bind, requests_post, lift, time_sleep, log. cbn [upstream trace].
  rewrite Hu, Hs. cbn [Z.eqb Pos.eqb].
  change (float_mul_int backoff_sec (0 + 1))
    with (Return (backoff_length backoff_sec 0)).
  cbv beta iota. now rewrite Href.
Qed.

(** A backoff of -2 seconds. *)
Lemma refused_backoff_raises_witness :
  exists e : exn,
    (e = ValueError \/ e = OverflowError)
    /\ _post_with_retry sample_headers sample_payload 30 default_max_retries (-2)
         (mkWorld (scripted [too_many_requests; no_content]) [])
       = (Raise e,
          mkWorld (scripted [too_many_requests; no_content])
                  [Post LENS_ENDPOINT sample_headers sample_payload 30]).
Proof.
  refine (refused_backoff_raises sample_headers sample_payload 30 default_max_retries
            (-2)%float (scripted [too_many_requests; no_content]) []
            too_many_requests _ _ _ _);
    first [reflexivity | vm_compute; discriminate].
Defined.

(* ================================================================= *)
(** * More on the record normalizer *)

Section NormalizerMore.

Variable py_repr : pyval -> pystr.

(** The row of a well-nested record, field by field. *)
Lemma extract_row_values (d : pydict) :
  well_nested (PDict d) = true ->
  let biblio := nested_dict (dict_get d (py "biblio")) in
  let pub_ref := nested_dict (dict_get biblio (py "publication_reference")) in
  exists title : pyval,
    extract_row py_repr (PDict d)
    = Return (row_with
        (dict_get_or d (py "lens_id") (PStr []))
        title
        (py_or (dict_get_or pub_ref (py "jurisdiction") (PStr []))
               (dict_get_or pub_ref (py "country") (PStr [])))
        (py_or (dict_get_or pub_ref (py "doc_number") (PStr []))
               (dict_get_or pub_ref (py "document_number") (PStr [])))
        (dict_get_or pub_ref (py "kind") (PStr []))
        (py_or (dict_get_or d (py "date_published") (PStr []))
               (dict_get_or d (py "publication_date") (PStr [])))
        (PStr (py "https://www.lens.org/lens/patent/"
               ++ format_value py_repr (dict_get_or d (py "lens_id") (PStr []))))
        (google_link_of py_repr
           (py_or (dict_get_or pub_ref (py "jurisdiction") (PStr []))
                  (dict_get_or pub_ref (py "country") (PStr [])))
           (py_or (dict_get_or pub_ref (py "doc_number") (PStr []))
                  (dict_get_or pub_ref (py "document_number") (PStr [])))
           (dict_get_or pub_ref (py "kind") (PStr []))))
    /\ match dict_get biblio (py "invention_title") with
       | Some (PDict t) => title = text_or_title_of t
       | Some (PList (first :: _)) =>
           match py_or first (PDict []) with
           | PDict t => title = text_or_title_of t
           | _ => title = PStr []
           end
       | _ => title = PStr []
       end.
Proof.
  unfold well_nested. intros H. apply andb_true_iff in H as [Hb Hp]. cbv zeta.
  unfold extract_row.
  cbn [obind py_get]. rewrite py_or_lazy_returns, (or_empty_dict d _ Hb).
  set (b := nested_dict (dict_get d (py "biblio"))) in *.
  cbn [obind py_get]. rewrite py_or_lazy_returns, (or_empty_dict b _ Hp).
  set (p := nested_dict (dict_get b (py "publication_reference"))) in *.
  cbn [obind py_get]. rewrite !py_or_lazy_returns. cbn [obind].
  change (dict_get_or b (py "invention_title") PNone)
    with (match dict_get b (py "invention_title") with Some v => v | None => PNone end).
  destruct (dict_get b (py "invention_title")) as [v|].
  2:{ cbn [obind]. eexists. split; reflexivity. }
  destruct v as [| | | | |l|t]; try (cbn [obind]; eexists; split; reflexivity).
  - destruct l as [|first l]; [cbn [obind]; eexists; split; reflexivity|].
    rewrite py_or_lazy_returns. cbn [obind].
    destruct (py_or first (PDict [])) as [| | | | | |t];
      try (cbn [is_dict obind]; eexists; split; reflexivity).
    cbn [is_dict py_get]. rewrite py_or_lazy_returns. cbn [obind].
    eexists. split; reflexivity.
  - cbn [py_get]. rewrite py_or_lazy_returns. cbn [obind].
    eexists. split; reflexivity.
Qed.

(** [extract_rows] is all or nothing, and [AttributeError] is the only
    exception it raises: it returns one row per record when every record is
    well nested, and raises [AttributeError], returning no row at all, as
    soon as one record is not. *)
Theorem extract_rows_all_or_nothing (data_items : list pyval) :
  (Forall (fun item => well_nested item = true) data_items
   /\ exists rows, extract_rows py_repr data_items = Return rows
                   /\ List.length rows = List.length data_items)
  \/ (Exists (fun item => well_nested item = false) data_items
      /\ extract_rows py_repr data_items = Raise AttributeError).
Proof.
  induction data_items as [|item rest IH].
  - left. split; [constructor|]. now exists [].
  - destruct (well_nested item) eqn:E.
    + destruct IH as [(Hall & rows & Hrows & Hlen) | (Hex & Hraise)].
      * left. split; [now constructor|].
        destruct (extract_row_shape py_repr item E) as (l & t & j & d & k & dp & Hrow & _).
        eexists. simpl. rewrite Hrow, Hrows. cbn [obind]. split; [reflexivity|].
        simpl. now rewrite Hlen.
      * right. split; [now apply Exists_cons_tl|].
        destruct (extract_row_shape py_repr item E) as (l & t & j & d & k & dp & Hrow & _).
        simpl. now rewrite Hrow, Hraise.
    + right. split; [now apply Exists_cons_hd|].
      simpl. now rewrite (extract_row_fails py_repr item E).
Qed.

(** Each row depends on its own record only: the rows of two batches put
    together are the rows of the first followed by the rows of the second,
    and the whole fails when either batch does. *)
Theorem extract_rows_app (xs ys : list pyval) :
  extract_rows py_repr (xs ++ ys)
  = (rows1 <- extract_rows py_repr xs ;;
     rows2 <- extract_rows py_repr ys ;;
     Return (rows1 ++ rows2))%pure.
Proof.
  induction xs as [|item rest IH]; simpl.
  - now destruct (extract_rows py_repr ys).
  - destruct (extract_row py_repr item) as [row| |]; [|reflexivity..].
    cbn [obind]. rewrite IH.
    destruct (extract_rows py_repr rest) as [rows1| |]; [|reflexivity..].
    cbn [obind]. now destruct (extract_rows py_repr ys).
Qed.

(** Where the fields of a row come from.  [lens_id] is the record's own, and
    [kind] the publication reference's, each with the empty string for an
    absent key.  [jurisdiction], [doc_number] and [date_published] are the
    value under their first key when Python takes it for true, and otherwise
    the value under the fallback key ([country], [document_number],
    [publication_date]) as it is, the empty string when that key is absent. *)
Theorem row_fields_fall_back (d : pydict) (row : pyval) :
  extract_row py_repr (PDict d) = Return row ->
  let biblio := nested_dict (dict_get d (py "biblio")) in
  let pub_ref := nested_dict (dict_get biblio (py "publication_reference")) in
  let pick (m : pydict) (first fallback : pystr) : pyval :=
    if truthy (dict_get_or m first (PStr []))
    then dict_get_or m first (PStr [])
    else dict_get_or m fallback (PStr []) in
  field row (py "lens_id") = dict_get_or d (py "lens_id") (PStr [])
  /\ field row (py "kind") = dict_get_or pub_ref (py "kind") (PStr [])
  /\ field row (py "jurisdiction") = pick pub_ref (py "jurisdiction") (py "country")
  /\ field row (py "doc_number") = pick pub_ref (py "doc_number") (py "document_number")
  /\ field row (py "date_published") = pick d (py "date_published") (py "publication_date").
Proof.
  intros Hrow. pose proof (extract_row_returns py_repr _ _ Hrow) as Hwn.
  destruct (extract_row_values d Hwn) as (title & E & _).
  rewrite E in Hrow. apply Return_inj in Hrow. subst row. cbv zeta.
  match goal with
  | |- context [field (row_with ?a ?b ?c ?d0 ?e ?f ?g ?h) _] =>
      destruct (field_row_with a b c d0 e f g h) as (-> & _ & -> & -> & -> & -> & _)
  end.
  repeat split.
Qed.

(** Where the title of a row comes from: from the invention title when it is
    a mapping, from the first element of the invention title when it is a
    list whose first element is a mapping (the other elements are not
    looked at), and in both cases as [text], or [title] when [text] is
    absent or falsy; the title is the empty string in every other case. *)
Theorem row_title (d : pydict) (row : pyval) :
  extract_row py_repr (PDict d) = Return row ->
  let biblio := nested_dict (dict_get d (py "biblio")) in
  (forall t, dict_get biblio (py "invention_title") = Some (PDict t) ->
     field row (py "title") = text_or_title_of t)
  /\ (forall t others,
        dict_get biblio (py "invention_title") = Some (PList (PDict t :: others)) ->
        field row (py "title") = text_or_title_of t)
  /\ (forall first others,
        dict_get biblio (py "invention_title") = Some (PList (first :: others)) ->
        is_dict first = false ->
        field row (py "title") = PStr [])
  /\ (forall v,
        dict_get biblio (py "invention_title") = Some v ->
        is_dict v = false -> (forall first others, v <> PList (first :: others)) ->
        field row (py "title") = PStr [])
  /\ (dict_get biblio (py "invention_title") = None -> field row (py "title") = PStr []).
Proof.
  intros Hrow. pose proof (extract_row_returns py_repr _ _ Hrow) as Hwn.
  destruct (extract_row_values d Hwn) as (title & E & Htitle).
  rewrite E in Hrow. apply Return_inj in Hrow. subst row. cbv zeta in *.
  match goal with
  | |- context [field (row_with ?a ?b ?c ?d0 ?e ?f ?g ?h) _] =>
      destruct (field_row_with a b c d0 e f g h) as (_ & -> & _)
  end.
  split; [|split; [|split; [|split]]].
  - intros t Ht. now rewrite Ht in Htitle.
  - intros t others Ht. rewrite Ht in Htitle. unfold py_or in Htitle.
    destruct t as [|kv t'].
    + cbn [truthy] in Htitle. exact Htitle.
    + cbn [truthy] in Htitle. exact Htitle.
  - intros first others Hf Hnd. rewrite Hf in Htitle. unfold py_or in Htitle.
    destruct (truthy first).
    + destruct first; try exact Htitle. discriminate.
    + exact Htitle.
  - intros v Hv Hnd Hnl. rewrite Hv in Htitle.
    destruct v as [| | | | |l|t]; try exact Htitle.
    + destruct l as [|first others]; [exact Htitle|]. now contradiction (Hnl first others).
    + discriminate.
  - intros Hnone. now rewrite Hnone in Htitle.
Qed.

End NormalizerMore.

(** The record that only has the fallback keys. *)
Lemma row_fields_fall_back_witness :
  (forall py_repr,
     extract_row py_repr record_with_fallback_keys = Return row_of_fallback_keys)
  /\ field row_of_fallback_keys (py "lens_id") = PStr (py "098-765-432-101-234")
  /\ field row_of_fallback_keys (py "kind") = PStr (py "B1")
  /\ field row_of_fallback_keys (py "jurisdiction") = PStr (py "EP")
  /\ field row_of_fallback_keys (py "doc_number") = PStr (py "0123456")
  /\ field row_of_fallback_keys (py "date_published") = PStr (py "2020-03-04").
Proof.
  split; [intros py_repr; reflexivity|].
  exact (row_fields_fall_back (fun _ => []) _ row_of_fallback_keys
           (eq_refl : extract_row (fun _ => []) record_with_fallback_keys
                      = Return row_of_fallback_keys)).
Defined.

(** A title given as a mapping with [title], and one given as a list. *)
Lemma row_title_witness :
  (forall py_repr,
     extract_row py_repr record_with_fallback_keys = Return row_of_fallback_keys)
  /\ field row_of_fallback_keys (py "title") = PStr (py "Surgical stapler")
  /\ (forall py_repr,
        extract_row py_repr sample_record = Return sample_row)
  /\ field sample_row (py "title") = PStr (py "Skin stapler").
Proof.
  split; [intros py_repr; reflexivity|]. split; [|split; [intros py_repr; reflexivity|]].
  - exact (proj1 (row_title (fun _ => []) _ row_of_fallback_keys
                    (eq_refl : extract_row (fun _ => []) record_with_fallback_keys
                               = Return row_of_fallback_keys))
             [(py "title", PStr (py "Surgical stapler"))] eq_refl).
  - exact (proj1 (proj2 (row_title (fun _ => []) _ sample_row
                    (eq_refl : extract_row (fun _ => []) sample_record
                               = Return sample_row)))
             [(py "text", PStr (py "Skin stapler")); (py "lang", PStr (py "en"))]
             [] eq_refl).
Defined.

(* ================================================================= *)
(** * The loop, run by run *)

Section SearchRuns.

Variable py_repr : pyval -> pystr.
Variables (headers : pydict) (max_results : Z) (delay_sec : float) (timeout : Z).

Local Abbreviation body := (loop_body py_repr headers max_results delay_sec timeout).
Local Abbreviation handle := (handle_response py_repr max_results delay_sec).
Local Abbreviation reaches := (iteration py_repr headers max_results delay_sec timeout).

(** Handling a response leaves the world as it is, or sleeps the delay
    between two pages. *)
Lemma handle_response_world (st : Locals) (r : Response) (w : World)
    (o : outcome flow) (w' : World) :
  handle st r w = (o, w') ->
  w' = w
  \/ w' = log (Sleep (py_max 0 delay_sec)) w
     /\ sleep_refusal (py_max 0 delay_sec) = None.
Proof.
  unfold handle_response.
  destruct (status_code r =? 204); [intros [= _ <-]; now left|].
  destruct (status_code r =? 401); [intros [= _ <-]; now left|].
  destruct (status_code r =? 403); [intros [= _ <-]; now left|].
  destruct (negb (status_code r =? 200)); [intros [= _ <-]; now left|].
  unfold bind at 1. unfold response_json.
  destruct (json r) as [js|]; [|intros [= _ <-]; now left].
  unfold ret at 1. unfold bind at 1, lift at 1.
  destruct js as [| | | | | |d]; try (intros [= _ <-]; now left).
  cbn [py_get]. rewrite py_or_lazy_returns.
  set (data := py_or _ _).
  destruct (truthy data); [|intros [= _ <-]; now left].
  cbn [negb]. unfold bind at 1, lift at 1.
  set (new_id := if is_none (loc_scroll_id st) then _ else _).
  assert (Hid : exists v, new_id = Return v)
    by (subst new_id; destruct (is_none _); eexists; reflexivity).
  destruct Hid as [v ->].
  unfold bind at 1, lift at 1.
  destruct (py_iter data) as [items| |]; [|intros [= _ <-]; now left..].
  unfold bind at 1, lift at 1.
  destruct (extract_rows py_repr items) as [rows| |]; [|intros [= _ <-]; now left..].
  match goal with |- context [if ?c then _ else _] => destruct c end;
    [intros [= _ <-]; now left|].
  unfold bind, time_sleep, ret.
  destruct (sleep_refusal (py_max 0 delay_sec)) eqn:E; [intros [= _ <-]; now left|].
  intros [= _ <-]. right. now split.
Qed.

(** The two ways handling a response leaves the loop, and the one way it
    goes on. *)
Lemma handle_response_returns (st : Locals) (r : Response) (w : World)
    (f : flow) (w' : World) :
  len (all_rows st) < max_results ->
  handle st r w = (Return f, w') ->
  f = Break (after_no_data st (status_code r)) /\ w' = w
  /\ (status_code r = 204 \/ status_code r = 200)
  \/ exists (new_id : pyval) (rows : list pyval),
       rows <> []
       /\ status_code r = 200
       /\ (is_none (loc_scroll_id st) = false -> new_id = loc_scroll_id st)
       /\ (f = Break (after_page max_results st new_id rows (payload st)) /\ w' = w
           \/ f = Continue (after_page max_results st new_id rows (cursor_payload new_id))
              /\ w' = log (Sleep (py_max 0 delay_sec)) w
              /\ truthy new_id = true
              /\ len (all_rows st ++ py_slice_to rows (max_results - len (all_rows st)))
                 < max_results).
Proof.
  intros Hlt. unfold handle_response.
  destruct (status_code r =? 204) eqn:S204.
  { apply Z.eqb_eq in S204. intros [= <- <-]. left. rewrite S204. auto. }
  destruct (status_code r =? 401); [discriminate|].
  destruct (status_code r =? 403); [discriminate|].
  destruct (status_code r =? 200) eqn:S200; [|discriminate].
  apply Z.eqb_eq in S200. cbn [negb]. rewrite S200.
  unfold bind at 1. unfold response_json.
  destruct (json r) as [js|]; [|discriminate].
  unfold ret at 1. unfold bind at 1, lift at 1.
  destruct js as [| | | | | |d]; try discriminate.
  cbn [py_get]. rewrite py_or_lazy_returns.
  set (data := py_or _ _).
  destruct (truthy data) eqn:Ht; cbn [negb].
  2:{ intros [= <- <-]. left. auto. }
  unfold bind at 1, lift at 1.
  set (fetched := if is_none (loc_scroll_id st) then _ else _).
  assert (Hid : exists new_id, fetched = Return new_id
            /\ (is_none (loc_scroll_id st) = false -> new_id = loc_scroll_id st)).
  { subst fetched. destruct (is_none _); eexists; split; try reflexivity; discriminate. }
  destruct Hid as (new_id & -> & Hkeep).
  unfold bind at 1, lift at 1.
  destruct (py_iter data) as [items| |] eqn:Hit; [|discriminate..].
  unfold bind at 1, lift at 1.
  destruct (extract_rows py_repr items) as [rows| |] eqn:Hrows; [|discriminate..].
  assert (Hne : rows <> []).
  { pose proof (py_iter_truthy _ _ Ht Hit) as Hi.
    apply extract_rows_length in Hrows.
    destruct rows; [|discriminate]. destruct items; [congruence|discriminate]. }
  destruct (negb (truthy new_id) || _) eqn:Hstop.
  - intros [= <- <-]. right. exists new_id, rows.
    repeat split; try assumption. left. split; [|reflexivity].
    unfold after_page. cbv zeta. destruct (is_none (loc_scroll_id st)); reflexivity.
  - unfold bind, time_sleep, ret.
    destruct (sleep_refusal _); [discriminate|].
    intros [= <- <-]. right. exists new_id, rows.
    apply orb_false_iff in Hstop as [Hcur Hcap].
    apply negb_false_iff in Hcur. apply Z.leb_gt in Hcap.
    repeat split; try assumption. right. repeat split; try assumption.
    unfold after_page, cursor_payload. cbv zeta.
    destruct (is_none (loc_scroll_id st)); reflexivity.
Qed.

Lemma transport_event_endpoint (payload : pyval) (e : event) :
  transport_event headers payload timeout e -> endpoint_event headers timeout e.
Proof.
  intros [-> | H]; [left; now exists payload|now right].
Qed.

(** One run of the loop body, whatever its outcome: the transport runs, then
    its response is handled unless the transport raised. *)
Lemma loop_body_cases (st : Locals) (w : World) (o : outcome flow) (w' : World) :
  body st w = (o, w') ->
  exists (w1 : World) (evs : list event),
    w1 = mkWorld (upstream w) (trace w ++ evs)
    /\ Forall (endpoint_event headers timeout) evs
    /\ (posts_made evs <= 5)%nat
    /\ ((exists e, o = Raise e /\ w' = w1)
        \/ exists r,
             _post_with_retry headers (payload st) timeout default_max_retries
               default_backoff_sec w = (Return r, w1)
             /\ handle st r w1 = (o, w')).
Proof.
  unfold loop_body, bind, _post_with_retry. intros H.
  destruct (retry_attempts_events headers (payload st) timeout default_backoff_sec
              (py_range (default_max_retries + 1)) None w) as (evs & Hw & Hall & Hn).
  pose proof (retry_attempts_no_fuel headers timeout
                (py_range (default_max_retries + 1)) (payload st)
                default_backoff_sec None w) as Hfuel.
  destruct (retry_attempts _ _ _ _ _ _ w) as [[r|e|] w1]; cbn [fst snd] in *.
  - exists w1, evs. split; [assumption|]. split.
    { eapply Forall_impl; [|exact Hall]. apply transport_event_endpoint. }
    split; [exact Hn|]. right. exists r. now split.
  - injection H as <- <-. exists w1, evs. split; [assumption|]. split.
    { eapply Forall_impl; [|exact Hall]. apply transport_event_endpoint. }
    split; [exact Hn|]. left. now exists e.
  - now contradiction Hfuel.
Qed.

(** One run of the loop body only adds posts to the endpoint and accepted
    sleeps to the trace, at most five posts, and leaves the upstream as it
    is. *)
Lemma loop_body_trace (st : Locals) (w : World) (o : outcome flow) (w' : World) :
  body st w = (o, w') ->
  exists evs : list event,
    w' = mkWorld (upstream w) (trace w ++ evs)
    /\ Forall (endpoint_event headers timeout) evs
    /\ (posts_made evs <= 5)%nat.
Proof.
  intros H. destruct (loop_body_cases st w o w' H) as (w1 & evs & Hw1 & Hall & Hn & Hcase).
  destruct Hcase as [(e & _ & ->) | (r & _ & Hh)].
  - now exists evs.
  - destruct (handle_response_world st r w1 o w' Hh) as [-> | (-> & Hs)].
    + now exists evs.
    + exists (evs ++ [Sleep (py_max 0 delay_sec)]). subst w1. unfold log.
      cbn [upstream trace]. split; [now rewrite app_assoc|]. split.
      * apply Forall_app. split; [assumption|]. constructor; [|constructor].
        right. now exists (py_max 0 delay_sec).
      * rewrite posts_made_app. unfold posts_made at 2. simpl. lia.
Qed.

Lemma len_slice_positive (rows : list pyval) (n : Z) :
  rows <> [] -> 0 < n -> 0 < len (py_slice_to rows n) <= n.
Proof.
  intros Hne Hn. rewrite length_py_slice_to by lia.
  assert (0 < len rows) by (destruct rows; [congruence|unfold len; simpl; lia]).
  lia.
Qed.

(** A run of the body that goes on keeps the invariant of the loop, counts
    one more page, and keeps the cursor once one is held. *)
Lemma loop_body_keeps_invariant (st st' : Locals) (w w' : World) :
  loop_invariant max_results st ->
  len (all_rows st) < max_results ->
  body st w = (Return (Continue st'), w') ->
  loop_invariant max_results st'
  /\ pages (debug st') = pages (debug st) + 1
  /\ (0 < pages (debug st) -> loc_scroll_id st' = loc_scroll_id st).
Proof.
  intros (Hret & Hpages & Hzero & Hpos) Hlt H.
  destruct (loop_body_cases st w _ w' H) as (w1 & evs & _ & _ & _ & Hcase).
  destruct Hcase as [(e & He & _) | (r & _ & Hh)]; [discriminate|].
  destruct (handle_response_returns st r w1 _ w' Hlt Hh)
    as [(Hf & _) | (new_id & rows & Hne & Hs & Hkeep & Hf)]; [discriminate|].
  destruct Hf as [(Hf & _) | (Hf & _ & Hcur & Hcap)]; [discriminate|].
  injection Hf as ->.
  pose proof (len_slice_positive rows (max_results - len (all_rows st)) Hne
                ltac:(lia)) as Hslice.
  rewrite len_app in Hcap.
  assert (Hnone : 0 < pages (debug st) -> is_none (loc_scroll_id st) = false).
  { intros Hp. destruct (Hpos Hp) as (_ & _ & Ht & _).
    destruct (loc_scroll_id st); [discriminate|reflexivity..]. }
  unfold loop_invariant, after_page. cbn [all_rows loc_scroll_id payload debug
    pages scroll_id last_status returned].
  rewrite len_app.
  split; [|split; [reflexivity|]].
  - split; [reflexivity|]. split; [lia|]. split; [intros; lia|]. intros _.
    split; [lia|]. split; [reflexivity|]. split; [assumption|].
    split; [|reflexivity].
    destruct (is_none (loc_scroll_id st)) eqn:En; [reflexivity|].
    rewrite (Hkeep eq_refl).
    assert (Hp : 0 < pages (debug st)).
    { destruct (Z.eq_dec (pages (debug st)) 0) as [E0|]; [|lia].
      destruct (Hzero E0) as (_ & Hl & _). rewrite Hl in En. discriminate. }
    now destruct (Hpos Hp) as (_ & _ & _ & Hsc & _).
  - intros Hp. apply Hkeep. now apply Hnone.
Qed.

(** A run of the body that leaves the loop: what the locals are then. *)
Lemma loop_body_break (st st' : Locals) (w w' : World) :
  loop_invariant max_results st ->
  len (all_rows st) < max_results ->
  body st w = (Return (Break st'), w') ->
  returned (debug st') = len (all_rows st')
  /\ len (all_rows st') <= max_results
  /\ pages (debug st') = pages (debug st) + 1
  /\ pages (debug st') <= len (all_rows st') + 1
  /\ (last_status (debug st') = Some 200 \/ last_status (debug st') = Some 204)
  /\ exists rows, all_rows st' = all_rows st ++ rows.
Proof.
  intros (Hret & Hpages & Hzero & Hpos) Hlt H.
  destruct (loop_body_cases st w _ w' H) as (w1 & evs & _ & _ & _ & Hcase).
  destruct Hcase as [(e & He & _) | (r & _ & Hh)]; [discriminate|].
  destruct (handle_response_returns st r w1 _ w' Hlt Hh)
    as [(Hf & _ & Hs) | (new_id & rows & Hne & Hs & Hkeep & Hf)].
  - injection Hf as ->. unfold after_no_data. cbn [all_rows debug pages returned
      last_status].
    split; [assumption|]. split; [lia|]. split; [reflexivity|]. split; [lia|].
    split; [destruct Hs as [-> | ->]; auto|]. exists []. now rewrite app_nil_r.
  - destruct Hf as [(Hf & _) | (Hf & _)]; [|discriminate].
    injection Hf as ->.
    pose proof (len_slice_positive rows (max_results - len (all_rows st)) Hne
                  ltac:(lia)) as Hslice.
    unfold after_page. cbn [all_rows debug pages returned last_status].
    rewrite len_app.
    split; [reflexivity|]. split; [lia|]. split; [reflexivity|]. split; [lia|].
    split; [now left|]. now eexists.
Qed.

Lemma iteration_prepend (st st1 stk : Locals) (w w1 wk : World) :
  len (all_rows st) < max_results ->
  body st w = (Return (Continue st1), w1) ->
  reaches st1 w1 stk wk ->
  reaches st w stk wk.
Proof.
  intros Hlt Hbody Hit. induction Hit as [|sta wa stb wb _ IH Hlta Hba].
  - eapply iteration_next; [apply iteration_first|assumption|assumption].
  - eapply iteration_next; [exact IH|assumption|assumption].
Qed.

(** A run of the loop is a sequence of iterations, ended by the condition
    being false, by a run of the body that leaves the loop, or by a run of
    the body that raises. *)
Lemma while_loop_run (fuel : nat) :
  forall (st : Locals) (w : World) (o : outcome Locals) (w' : World),
    max_results <= Z.of_nat fuel + len (all_rows st) ->
    while_loop py_repr headers max_results delay_sec timeout fuel st w = (o, w') ->
    exists (stk : Locals) (wk : World),
      reaches st w stk wk
      /\ (max_results <= len (all_rows stk) /\ o = Return stk /\ w' = wk
          \/ len (all_rows stk) < max_results
             /\ (exists st', body stk wk = (Return (Break st'), w') /\ o = Return st')
          \/ len (all_rows stk) < max_results
             /\ (exists e, body stk wk = (Raise e, w') /\ o = Raise e)).
Proof.
  induction fuel as [|fuel IH]; intros st w o w' Hfuel H.
  - rewrite while_loop_done in H by lia. injection H as <- <-.
    exists st, w. split; [apply iteration_first|]. left. repeat split. lia.
  - destruct (Z.lt_ge_cases (len (all_rows st)) max_results) as [Hlt|Hge].
    + pose proof (loop_body_outcome py_repr headers max_results delay_sec timeout
                    st w Hlt) as Hout.
      destruct (body st w) as [[[st1|st1]|e|] w1] eqn:E.
      * rewrite (while_loop_break _ _ _ _ _ fuel st st1 w w1 Hlt E) in H.
        injection H as <- <-. exists st, w. split; [apply iteration_first|].
        right. left. split; [assumption|]. now exists st1.
      * rewrite (while_loop_continue _ _ _ _ _ fuel st st1 w w1 Hlt E) in H.
        destruct (IH st1 w1 o w' ltac:(lia) H) as (stk & wk & Hit & Hend).
        exists stk, wk. split; [|assumption].
        now apply (iteration_prepend st st1 stk w w1 wk).
      * rewrite (while_loop_raise _ _ _ _ _ fuel st w w1 e Hlt E) in H.
        injection H as <- <-. exists st, w. split; [apply iteration_first|].
        right. right. split; [assumption|]. now exists e.
      * destruct Hout.
    + rewrite while_loop_done in H by lia. injection H as <- <-.
      exists st, w. split; [apply iteration_first|]. left. repeat split. lia.
Qed.

(** What holds at every iteration the loop reaches, of the locals and of the
    world. *)
Lemma iteration_invariant (st0 st : Locals) (w0 w : World) :
  reaches st0 w0 st w ->
  loop_invariant max_results st0 ->
  loop_invariant max_results st
  /\ pages (debug st0) <= pages (debug st)
  /\ (st = st0 /\ w = w0 \/ pages (debug st0) < pages (debug st))
  /\ (0 < pages (debug st0) -> loc_scroll_id st = loc_scroll_id st0)
  /\ (exists rows, all_rows st = all_rows st0 ++ rows)
  /\ exists evs : list event,
       w = mkWorld (upstream w0) (trace w0 ++ evs)
       /\ Forall (endpoint_event headers timeout) evs
       /\ Z.of_nat (posts_made evs) <= 5 * (pages (debug st) - pages (debug st0)).
Proof.
  intros Hit Hinv0. induction Hit as [|st w st' w' _ IH Hlt Hbody].
  - split; [assumption|]. split; [lia|]. split; [now left|]. split; [reflexivity|].
    split; [exists []; now rewrite app_nil_r|].
    exists []. rewrite app_nil_r. destruct w0. repeat split; [constructor|].
    change (posts_made []) with 0%nat. lia.
  - destruct IH as (Hinv & Hmono & _ & Hcur & (rows & Hrows) & evs & Hw & Hall & Hn).
    destruct (loop_body_keeps_invariant st st' w w' Hinv Hlt Hbody)
      as (Hinv' & Hp & Hkeep).
    destruct (loop_body_trace st w _ w' Hbody) as (evs' & Hw' & Hall' & Hn').
    split; [assumption|]. split; [lia|]. split; [right; lia|]. split.
    { intros Hp0. rewrite Hkeep by lia. now apply Hcur. }
    split.
    { destruct Hinv' as (_ & _ & _ & _).
      destruct (loop_body_cases st w _ w' Hbody) as (w1 & ev1 & _ & _ & _ & Hcase).
      destruct Hcase as [(e & He & _) | (r & _ & Hh)]; [discriminate|].
      destruct (handle_response_returns st r w1 _ w' Hlt Hh)
        as [(Hf & _) | (new_id & rows' & _ & _ & _ & Hf)]; [discriminate|].
      destruct Hf as [(Hf & _) | (Hf & _)]; [discriminate|].
      injection Hf as ->. unfold after_page. cbn [all_rows].
      rewrite Hrows. eexists. now rewrite <- app_assoc. }
    exists (evs ++ evs'). rewrite Hw', Hw. cbn [upstream trace].
    split; [now rewrite app_assoc|]. split; [now apply Forall_app|].
    rewrite posts_made_app. lia.
Qed.

End SearchRuns.

Lemma extract_rows_fails (py_repr : pyval -> pystr) (data_items : list pyval) :
  Exists (fun item => well_nested item = false) data_items ->
  extract_rows py_repr data_items = Raise AttributeError.
Proof.
  induction data_items as [|item rest IH]; intros H; [inversion H|].
  simpl. destruct (well_nested item) eqn:E.
  - destruct (extract_row_shape py_repr item E) as (l & t & j & d & k & dp & Hrow & _).
    rewrite Hrow. cbn [obind]. rewrite IH; [reflexivity|].
    inversion H; subst; [congruence|assumption].
  - now rewrite (extract_row_fails py_repr item E).
Qed.





Lemma default_backoffs_accepted (a : Z) :
  In a (py_range (default_max_retries + 1)) ->
  can_back_off default_backoff_sec a = true.
Proof.
  intros H. vm_compute in H.
  repeat (destruct H as [<-|H]; [vm_compute; reflexivity|]). contradiction.
Qed.


Section SearchEnds.

Variable py_repr : pyval -> pystr.
Variables (headers : pydict) (max_results : Z) (delay_sec : float) (timeout : Z).

Local Abbreviation body := (loop_body py_repr headers max_results delay_sec timeout).
Local Abbreviation handle := (handle_response py_repr max_results delay_sec).
Local Abbreviation reaches := (iteration py_repr headers max_results delay_sec timeout).



(** One run of the loop body only posts the payload the locals hold. *)
Lemma loop_body_payload (st : Locals) (w : World) (o : outcome flow) (w' : World) :
  body st w = (o, w') ->
  exists evs : list event,
    w' = mkWorld (upstream w) (trace w ++ evs)
    /\ Forall (transport_event headers (payload st) timeout) evs.
Proof.
  unfold loop_body, bind, _post_with_retry. intros H.
  destruct (retry_attempts_events headers (payload st) timeout default_backoff_sec
              (py_range (default_max_retries + 1)) None w) as (evs & Hw & Hall & _).
  destruct (retry_attempts _ _ _ _ _ _ w) as [[r|e|] w1]; cbn [fst snd] in *.
  - destruct (handle_response_world py_repr max_results delay_sec st r w1 o w' H)
      as [-> | (-> & Hs)].
    + now exists evs.
    + exists (evs ++ [Sleep (py_max 0 delay_sec)]). subst w1. unfold log.
      cbn [upstream trace]. split; [now rewrite app_assoc|].
      apply Forall_app. split; [assumption|]. constructor; [|constructor].
      right. now exists (py_max 0 delay_sec).
  - injection H as <- <-. now exists evs.
  - injection H as <- <-. now exists evs.
Qed.

(** Leaving the loop once a cursor is held leaves the cursor of the
    diagnostics as it is. *)
Lemma loop_body_break_cursor (st st' : Locals) (w w' : World) :
  loop_invariant max_results st ->
  len (all_rows st) < max_results ->
  0 < pages (debug st) ->
  body st w = (Return (Break st'), w') ->
  scroll_id (debug st') = loc_scroll_id st.
Proof.
  intros (_ & _ & _ & Hpos) Hlt Hp H.
  destruct (Hpos Hp) as (_ & _ & Ht & Hsc & _).
  assert (Hnone : is_none (loc_scroll_id st) = false)
    by (destruct (loc_scroll_id st); [discriminate|reflexivity..]).
  destruct (loop_body_cases py_repr headers max_results delay_sec timeout st w _ w' H)
    as (w1 & evs & _ & _ & _ & Hcase).
  destruct Hcase as [(e & He & _) | (r & _ & Hh)]; [discriminate|].
  destruct (handle_response_returns py_repr max_results delay_sec st r w1 _ w' Hlt Hh)
    as [(Hf & _) | (new_id & rows & _ & _ & _ & [(Hf & _) | (Hf & _)])];
    [| |discriminate]; injection Hf as ->.
  - exact Hsc.
  - unfold after_page. cbn [debug scroll_id]. now rewrite Hnone.
Qed.

(** The requests up to an iteration of a loop that was entered before any
    page: first the payload the loop was entered with, then, once a page was
    read, the cursor held. *)
Lemma iteration_payloads (st0 st : Locals) (w0 w : World) :
  reaches st0 w0 st w ->
  loop_invariant max_results st0 ->
  pages (debug st0) = 0 ->
  st = st0 /\ w = w0
  \/ 0 < pages (debug st)
     /\ exists evs0 evs1 : list event,
          w = mkWorld (upstream w0) (trace w0 ++ evs0 ++ evs1)
          /\ Forall (transport_event headers (payload st0) timeout) evs0
          /\ Forall (transport_event headers (cursor_payload (loc_scroll_id st)) timeout)
               evs1.
Proof.
  intros Hit Hinv0 Hp0. induction Hit as [|st w st' w' Hprev IH Hlt Hbody];
    [now left|].
  right.
  destruct (iteration_invariant py_repr headers max_results delay_sec timeout
              st0 st w0 w Hprev Hinv0) as (Hinv & Hmono & _).
  destruct (loop_body_keeps_invariant py_repr headers max_results delay_sec timeout
              st st' w w' Hinv Hlt Hbody) as (_ & Hp & Hkeep).
  destruct (loop_body_payload st w _ w' Hbody) as (evs' & Hw' & Hall').
  split; [lia|].
  destruct IH as [(-> & ->) | (Hpos & evs0 & evs1 & Hw & Hall0 & Hall1)].
  - exists evs', []. rewrite app_nil_r. split; [assumption|]. split; [assumption|].
    constructor.
  - exists evs0, (evs1 ++ evs'). rewrite Hw', Hw. cbn [upstream trace].
    split; [now rewrite <- !app_assoc|]. split; [assumption|].
    rewrite (Hkeep Hpos). apply Forall_app. split; [assumption|].
    destruct Hinv as (_ & _ & _ & Hpayload).
    destruct (Hpayload Hpos) as (_ & _ & _ & _ & <-). assumption.
Qed.

End SearchEnds.

(* ================================================================= *)
(** * Every run of the search *)

Section SearchRun.

Variable py_repr : pyval -> pystr.
Variables (token keyword scope : pystr) (date_from : option pystr)
  (max_results : Z) (scroll_ttl : pystr) (delay_sec : float) (timeout : Z).

Local Abbreviation hs := (request_headers token).
Local Abbreviation st0 := (initial_locals keyword scope date_from max_results scroll_ttl).
Local Abbreviation search :=
  (lens_search_with_scroll py_repr token keyword scope date_from max_results
     scroll_ttl delay_sec timeout).
Local Abbreviation body := (loop_body py_repr hs max_results delay_sec timeout).
Local Abbreviation reaches := (iteration py_repr hs max_results delay_sec timeout).

Lemma initial_invariant : loop_invariant max_results st0.
Proof.
  unfold loop_invariant. cbn [initial_locals initial_debug all_rows loc_scroll_id
    payload debug pages scroll_id last_status returned].
  change (len (@nil pyval)) with 0.
  split; [reflexivity|]. split; [lia|]. split; [auto|]. intros H. lia.
Qed.

(** A run of the search is a sequence of iterations of its loop, ended by
    the condition being false, by a run of the body that leaves the loop, or
    by a run of the body that raises. *)
Lemma search_run (w : World) (o : outcome (list pyval * Debug)) (w' : World) :
  search w = (o, w') ->
  exists (stk : Locals) (wk : World),
    reaches st0 w stk wk
    /\ (max_results <= len (all_rows stk)
        /\ o = Return (all_rows stk, debug stk) /\ w' = wk
        \/ len (all_rows stk) < max_results
           /\ (exists st', body stk wk = (Return (Break st'), w')
                           /\ o = Return (all_rows st', debug st'))
        \/ len (all_rows stk) < max_results
           /\ (exists e, body stk wk = (Raise e, w') /\ o = Raise e)).
Proof.
  rewrite search_of_loop.
  destruct (while_loop _ _ _ _ _ _ _ w) as [ol wl] eqn:E. intros H.
  destruct (while_loop_run py_repr hs max_results delay_sec timeout
              (Z.to_nat max_results) st0 w ol wl) as (stk & wk & Hit & Hend).
  { cbn [initial_locals all_rows]. change (len (@nil pyval)) with 0. lia. }
  { exact E. }
  exists stk, wk. split; [assumption|].
  destruct Hend as [(Hge & -> & ->) | [(Hlt & st' & Hb & ->) | (Hlt & e & Hb & ->)]];
    injection H as <- <-.
  - left. auto.
  - right. left. split; [assumption|]. now exists st'.
  - right. right. split; [assumption|]. now exists e.
Qed.

(** A run of the body that leaves the loop or raises, at an iteration the
    search reaches, ends the search. *)
Lemma search_from_iteration (w0 : World) (st : Locals) (w : World)
    (o : outcome flow) (w' : World) :
  reaches st0 w0 st w ->
  len (all_rows st) < max_results ->
  body st w = (o, w') ->
  match o with
  | Return (Break st') => search w0 = (Return (all_rows st', debug st'), w')
  | Raise e => search w0 = (Raise e, w')
  | _ => True
  end.
Proof.
  intros Hit Hlt Hbody.
  destruct (while_loop_from_iteration py_repr hs max_results
              delay_sec timeout _ _ _ _ Hit (Z.to_nat max_results))
    as (fuel & Hfuel & Heq).
  { cbn [initial_locals all_rows]. change (len (@nil pyval)) with 0. lia. }
  destruct fuel as [|fuel]; [lia|].
  destruct o as [[st'|st']|e|]; try exact I.
  - now rewrite search_of_loop, Heq,
      (while_loop_break _ _ _ _ _ fuel _ _ _ _ Hlt Hbody).
  - now rewrite search_of_loop, Heq,
      (while_loop_raise _ _ _ _ _ fuel _ _ _ _ Hlt Hbody).
Qed.

(** The response the transport hands to the loop, at an iteration the search
    reaches, ends the search when handling it leaves the loop or raises. *)
Lemma search_from_response (w0 : World) (st : Locals) (w : World) (r : Response)
    (w1 : World) (o : outcome flow) (w' : World) :
  reaches st0 w0 st w ->
  len (all_rows st) < max_results ->
  _post_with_retry hs (payload st) timeout default_max_retries default_backoff_sec w
  = (Return r, w1) ->
  handle_response py_repr max_results delay_sec st r w1 = (o, w') ->
  match o with
  | Return (Break st') => search w0 = (Return (all_rows st', debug st'), w')
  | Raise e => search w0 = (Raise e, w')
  | _ => True
  end.
Proof.
  intros Hit Hlt Hpost Hh.
  apply (search_from_iteration w0 st w o w' Hit Hlt).
  unfold loop_body, bind. now rewrite Hpost.
Qed.

(** What every run of the search does to the world, and how many pages it
    counts. *)
Lemma search_trace (w : World) (o : outcome (list pyval * Debug)) (w' : World) :
  search w = (o, w') ->
  exists (evs : list event) (n : Z),
    w' = mkWorld (upstream w) (trace w ++ evs)
    /\ Forall (endpoint_event hs timeout) evs
    /\ Z.of_nat (posts_made evs) <= 5 * n
    /\ 0 <= n <= Z.max 0 max_results
    /\ forall rows dbg, o = Return (rows, dbg) -> pages dbg = n.
Proof.
  intros H. destruct (search_run w o w' H) as (stk & wk & Hit & Hend).
  destruct (iteration_invariant py_repr hs max_results delay_sec timeout
              st0 stk w wk Hit initial_invariant)
    as (Hinv & Hmono & Hfirst & _ & _ & evs & Hwk & Hall & Hn).
  cbn [initial_locals initial_debug debug pages] in Hmono, Hn, Hfirst.
  destruct Hinv as (Hret & Hpages & Hzero & Hpos).
  destruct Hend as [(Hge & -> & ->) | [(Hlt & st' & Hb & ->) | (Hlt & e & Hb & ->)]].
  - exists evs, (pages (debug stk)). split; [assumption|]. split; [assumption|].
    split; [lia|]. split.
    + destruct Hfirst as [(-> & _)|Hp]; [cbn; lia|].
      destruct (Hpos Hp) as (Hlt & _). lia.
    + now intros rows dbg [= _ <-].
  - destruct (loop_body_trace py_repr hs max_results delay_sec timeout stk wk _ w' Hb)
      as (evs' & Hw' & Hall' & Hn').
    destruct (loop_body_break py_repr hs max_results delay_sec timeout stk st' wk w'
                (conj Hret (conj Hpages (conj Hzero Hpos))) Hlt Hb)
      as (_ & _ & Hp' & _).
    exists (evs ++ evs'), (pages (debug stk) + 1). rewrite Hw', Hwk.
    cbn [upstream trace]. split; [now rewrite app_assoc|].
    split; [now apply Forall_app|]. rewrite posts_made_app.
    split; [lia|]. split; [lia|]. intros rows dbg [= _ <-]. exact Hp'.
  - destruct (loop_body_trace py_repr hs max_results delay_sec timeout stk wk _ w' Hb)
      as (evs' & Hw' & Hall' & Hn').
    exists (evs ++ evs'), (pages (debug stk) + 1). rewrite Hw', Hwk.
    cbn [upstream trace]. split; [now rewrite app_assoc|].
    split; [now apply Forall_app|]. rewrite posts_made_app.
    split; [lia|]. split; [lia|]. discriminate.
Qed.

(** What a search returns: [returned] is the number of rows, which is at
    most the cap; [pages] is at least 0 and at most the number of rows plus
    one, and is 0 only for a cap that asks for nothing; the last status is
    200 or 204, or [None] when no request was made. *)
Theorem search_result_counts (w : World) (rows : list pyval) (dbg : Debug)
    (w' : World) :
  search w = (Return (rows, dbg), w') ->
  returned dbg = len rows
  /\ len rows <= Z.max 0 max_results
  /\ 0 <= pages dbg <= len rows + 1
  /\ (pages dbg = 0 <-> max_results <= 0)
  /\ (max_results <= 0 -> last_status dbg = None)
  /\ (0 < max_results -> last_status dbg = Some 200 \/ last_status dbg = Some 204).
Proof.
  intros H. destruct (search_run w _ w' H) as (stk & wk & Hit & Hend).
  destruct (iteration_invariant py_repr hs max_results delay_sec timeout
              st0 stk w wk Hit initial_invariant)
    as (Hinv & Hmono & Hfirst & _).
  cbn [initial_locals initial_debug debug pages] in Hmono, Hfirst.
  destruct Hend as [(Hge & Ho & _) | [(Hlt & st' & Hb & Ho) | (_ & e & _ & Ho)]];
    [| |discriminate]; injection Ho as -> ->.
  - destruct Hinv as (Hret & Hpages & Hzero & Hpos).
    destruct Hfirst as [(-> & _)|Hp]; [|destruct (Hpos Hp) as (Hlt & _); lia].
    cbn [initial_locals initial_debug all_rows debug pages returned last_status] in *.
    change (len (@nil pyval)) with 0 in *.
    split; [reflexivity|]. split; [lia|]. split; [lia|]. split; [split; intros; lia|].
    split; [reflexivity|]. intros; lia.
  - destruct (loop_body_break py_repr hs max_results delay_sec timeout stk st' wk w'
                Hinv Hlt Hb) as (Hret' & Hcap & Hp' & Hle & Hstatus & _).
    destruct Hinv as (_ & Hpages & _).
    split; [assumption|]. split; [lia|]. split; [lia|]. split; [split; intros; lia|].
    split; [intros; lia|]. intros _. exact Hstatus.
Qed.

(** A search never makes more than five requests for each page it reads, and
    so never more than five times the cap; it leaves the upstream as it is
    and only appends to the trace. *)
Theorem search_request_budget (w : World) :
  exists evs : list event,
    snd (search w) = mkWorld (upstream w) (trace w ++ evs)
    /\ Z.of_nat (posts_made evs) <= 5 * Z.max 0 max_results
    /\ forall rows dbg, fst (search w) = Return (rows, dbg) ->
         Z.of_nat (posts_made evs) <= 5 * pages dbg.
Proof.
  destruct (search w) as [o w'] eqn:E.
  destruct (search_trace w o w' E) as (evs & n & Hw & _ & Hn & Hcap & Hp).
  exists evs. cbn [fst snd]. split; [assumption|]. split; [lia|].
  intros rows dbg Ho. rewrite (Hp rows dbg Ho). exact Hn.
Qed.

(** All a search does to the outside, whatever its outcome: it posts its
    query to the Lens endpoint, with its headers and its timeout, and once a
    page was read it posts the cursor of that page and nothing else; between
    the posts it sleeps lengths [time.sleep] accepts.  The cursor is the one
    the returned diagnostics show. *)
Theorem search_sends_query_then_cursor (w : World) :
  exists (cursor : pyval) (evs0 evs1 : list event),
    snd (search w) = mkWorld (upstream w) (trace w ++ evs0 ++ evs1)
    /\ Forall (transport_event hs
                 (initial_payload keyword scope date_from max_results scroll_ttl)
                 timeout) evs0
    /\ Forall (transport_event hs (cursor_payload cursor) timeout) evs1
    /\ (evs1 <> [] ->
        truthy cursor = true
        /\ forall rows dbg, fst (search w) = Return (rows, dbg) ->
             scroll_id dbg = cursor).
Proof.
  destruct (search w) as [o w'] eqn:E. cbn [fst snd].
  destruct (search_run w o w' E) as (stk & wk & Hit & Hend).
  destruct (iteration_invariant py_repr hs max_results delay_sec timeout
              st0 stk w wk Hit initial_invariant) as (Hinv & _).
  destruct (iteration_payloads py_repr hs max_results delay_sec timeout
              st0 stk w wk Hit initial_invariant eq_refl)
    as [(-> & ->) | (Hp & evs0 & evs1 & Hwk & Hall0 & Hall1)].
  - (* no page was read before the last run of the body *)
    assert (Hlast : forall o' : outcome flow,
              body st0 w = (o', w') ->
              exists evs0 : list event,
                w' = mkWorld (upstream w) (trace w ++ evs0 ++ [])
                /\ Forall (transport_event hs
                             (initial_payload keyword scope date_from max_results
                                scroll_ttl) timeout) evs0).
    { intros o' Hb.
      destruct (loop_body_payload py_repr hs max_results delay_sec timeout
                  st0 w o' w' Hb) as (evs & Hw & Hall).
      exists evs. rewrite app_nil_r. now split. }
    destruct Hend as [(_ & _ & ->) | [(_ & st' & Hb & _) | (_ & e & Hb & _)]].
    + exists PNone, [], []. rewrite app_nil_r. destruct w.
      repeat split; try constructor; congruence.
    + destruct (Hlast _ Hb) as (evs0 & Hw & Hall).
      exists PNone, evs0, []. repeat split; try assumption; try constructor;
        congruence.
    + destruct (Hlast _ Hb) as (evs0 & Hw & Hall).
      exists PNone, evs0, []. repeat split; try assumption; try constructor;
        congruence.
  - pose proof Hinv as (_ & _ & _ & Hpos).
    destruct (Hpos Hp) as (Hlt' & _ & Ht & Hsc & Hpl).
    assert (Hlast : forall o' : outcome flow,
              body stk wk = (o', w') ->
              exists evs : list event,
                w' = mkWorld (upstream w) (trace w ++ evs0 ++ evs1 ++ evs)
                /\ Forall (transport_event hs (cursor_payload (loc_scroll_id stk))
                             timeout) (evs1 ++ evs)).
    { intros o' Hb.
      destruct (loop_body_payload py_repr hs max_results delay_sec timeout
                  stk wk o' w' Hb) as (evs & Hw & Hall).
      exists evs. rewrite Hw, Hwk. cbn [upstream trace].
      split; [now rewrite <- !app_assoc|].
      apply Forall_app. split; [assumption|]. now rewrite <- Hpl. }
    destruct Hend as [(Hge & _) | [(Hlt & st' & Hb & ->) | (Hlt & e & Hb & ->)]];
      [lia| |].
    + destruct (Hlast _ Hb) as (evs & Hw & Hall).
      exists (loc_scroll_id stk), evs0, (evs1 ++ evs).
      split; [assumption|]. split; [assumption|]. split; [assumption|].
      intros _. split; [assumption|]. intros rows dbg [= _ <-].
      exact (loop_body_break_cursor py_repr hs max_results delay_sec timeout
               stk st' wk w' Hinv Hlt Hp Hb).
    + destruct (Hlast _ Hb) as (evs & Hw & Hall).
      exists (loc_scroll_id stk), evs0, (evs1 ++ evs).
      split; [assumption|]. split; [assumption|]. split; [assumption|].
      intros _. split; [assumption|]. discriminate.
Qed.


End SearchRun.

(** A page of three records under a cap of two. *)
Lemma search_result_counts_witness :
  (forall py_repr,
     lens_search_with_scroll py_repr (py "s3cr3t") (py "skin stapler")
       (py "title+abstract") (Some (py "2018-01-01")) 2 (py "1m") 0.5 30
       (mkWorld (scripted [sample_page 3 (py "c1")]) [])
     = (Return ([sample_row; sample_row],
                {| pages := 1; scroll_id := PStr (py "c1"); last_status := Some 200;
                   returned := 2 |}),
        mkWorld (scripted [sample_page 3 (py "c1")])
          [Post LENS_ENDPOINT sample_headers
             (initial_payload (py "skin stapler") (py "title+abstract")
                (Some (py "2018-01-01")) 2 (py "1m")) 30]))
  /\ (2 = len [sample_row; sample_row]
      /\ len [sample_row; sample_row] <= Z.max 0 2
      /\ 0 <= 1 <= len [sample_row; sample_row] + 1
      /\ (1 = 0 <-> 2 <= 0)
      /\ (2 <= 0 -> Some 200 = None)
      /\ (0 < 2 -> Some 200 = Some 200 \/ Some 200 = Some 204)).
Proof.
  split; [intros py_repr; vm_compute; reflexivity|].
  exact (search_result_counts (fun _ => []) (py "s3cr3t") (py "skin stapler")
           (py "title+abstract") (Some (py "2018-01-01")) 2 (py "1m") 0.5%float 30
           (mkWorld (scripted [sample_page 3 (py "c1")]) [])
           [sample_row; sample_row]
           {| pages := 1; scroll_id := PStr (py "c1"); last_status := Some 200;
              returned := 2 |}
           (mkWorld (scripted [sample_page 3 (py "c1")])
              [Post LENS_ENDPOINT sample_headers
                 (initial_payload (py "skin stapler") (py "title+abstract")
                    (Some (py "2018-01-01")) 2 (py "1m")) 30])
           ltac:(vm_compute; reflexivity)).
Defined.


(* ================================================================= *)
(** * How a search ends *)

Section SearchSteps.

Variable py_repr : pyval -> pystr.
Variables (token keyword scope : pystr) (date_from : option pystr)
  (max_results : Z) (scroll_ttl : pystr) (delay_sec : float) (timeout : Z).

Local Abbreviation hs := (request_headers token).
Local Abbreviation st0 := (initial_locals keyword scope date_from max_results scroll_ttl).
Local Abbreviation search :=
  (lens_search_with_scroll py_repr token keyword scope date_from max_results
     scroll_ttl delay_sec timeout).
Local Abbreviation handle := (handle_response py_repr max_results delay_sec).
Local Abbreviation reaches := (iteration py_repr hs max_results delay_sec timeout).
Local Abbreviation transport :=
  (fun p : pyval => _post_with_retry hs p timeout default_max_retries default_backoff_sec).

Lemma py_or_lazy_or (v : pyval) :
  py_or_lazy (Return v) (Return (PList [])) = Return (py_or v (PList [])).
Proof.
  unfold py_or_lazy, obind, py_or. now destruct (truthy v).
Qed.

Lemma handle_response_not_json (st : Locals) (r : Response) (w : World) :
  status_code r = 200 ->
  json r = None ->
  handle st r w = (Raise JSONDecodeError, w).
Proof.
  intros Hs Hj. unfold handle_response. rewrite Hs. cbn [Z.eqb Pos.eqb negb].
  unfold bind at 1. unfold response_json. now rewrite Hj.
Qed.

Lemma handle_response_not_object (st : Locals) (r : Response) (w : World)
    (js : pyval) :
  status_code r = 200 ->
  json r = Some js ->
  is_dict js = false ->
  handle st r w = (Raise AttributeError, w).
Proof.
  intros Hs Hj Hd. unfold handle_response. rewrite Hs. cbn [Z.eqb Pos.eqb negb].
  unfold bind at 1. unfold response_json. rewrite Hj.
  unfold ret at 1. unfold bind at 1, lift at 1.
  now rewrite (py_get_not_dict js _ _ Hd).
Qed.

Lemma handle_response_no_data (st : Locals) (r : Response) (w : World)
    (js : pydict) :
  status_code r = 200 ->
  json r = Some (PDict js) ->
  truthy (dict_get_or js (py "data") PNone) = false ->
  handle st r w = (Return (Break (after_no_data st 200)), w).
Proof.
  intros Hs Hj Ht. unfold handle_response. rewrite Hs. cbn [Z.eqb Pos.eqb negb].
  unfold bind at 1. unfold response_json. rewrite Hj.
  unfold ret at 1. unfold bind at 1, lift at 1.
  cbn [py_get]. rewrite py_or_lazy_or. unfold py_or. rewrite Ht. reflexivity.
Qed.

Lemma handle_response_data (st : Locals) (r : Response) (w : World)
    (js : pydict) (data : pyval) (e : exn) :
  status_code r = 200 ->
  json r = Some (PDict js) ->
  dict_get js (py "data") = Some data ->
  truthy data = true ->
  (items <- py_iter data ;; extract_rows py_repr items)%pure = Raise e ->
  handle st r w = (Raise e, w).
Proof.
  intros Hs Hj Hd Ht He. unfold handle_response. rewrite Hs.
  cbn [Z.eqb Pos.eqb negb].
  unfold bind at 1. unfold response_json. rewrite Hj.
  unfold ret at 1. unfold bind at 1, lift at 1.
  cbn [py_get]. rewrite py_or_lazy_or.
  assert (E : py_or (dict_get_or js (py "data") PNone) (PList []) = data)
    by (unfold py_or, dict_get_or; now rewrite Hd, Ht).
  rewrite E, Ht. cbn [negb]. unfold bind at 1, lift at 1.
  assert (Hid : exists v,
            (if is_none (loc_scroll_id st)
             then Return (dict_get_or js (py "scroll_id") PNone)
             else Return (loc_scroll_id st)) = Return v)
    by (destruct (is_none _); eexists; reflexivity).
  destruct Hid as [v ->].
  unfold bind at 1, lift at 1.
  destruct (py_iter data) as [items|e'|]; cbn [obind] in He; [|congruence..].
  unfold bind at 1, lift at 1. now rewrite He.
Qed.

(** A 200 response that carries no records ends the search like a 204 does:
    with the rows gathered so far, without a sleep or another request.  No
    records means that the body's ["data"] is absent, null, an empty list or
    anything else Python takes for false. *)
Theorem empty_page_ends_search (w0 : World) (st : Locals) (w : World)
    (r : Response) (w' : World) (js : pydict) :
  reaches st0 w0 st w ->
  len (all_rows st) < max_results ->
  transport (payload st) w = (Return r, w') ->
  status_code r = 200 ->
  json r = Some (PDict js) ->
  truthy (dict_get_or js (py "data") PNone) = false ->
  search w0
  = (Return (all_rows st,
             {| pages := pages (debug st) + 1;
                scroll_id := scroll_id (debug st);
                last_status := Some 200;
                returned := returned (debug st) |}), w').
Proof.
  intros Hit Hlt Hpost Hs Hj Ht.
  exact (search_from_response py_repr token keyword scope date_from max_results
           scroll_ttl delay_sec timeout w0 st w r w' _ w' Hit Hlt Hpost
           (handle_response_no_data st r w' js Hs Hj Ht)).
Qed.

(** A first page that comes without a cursor (no ["scroll_id"], or a null
    or empty one) is the only page: the search returns its rows, up to the
    cap, with [pages == 1], and makes no second request even when fewer rows
    than the cap were read. *)
Theorem first_page_without_cursor_is_the_last (w : World) (r : Response)
    (w' : World) (items rows : list pyval) (cursor : pyval) :
  0 < max_results ->
  transport (initial_payload keyword scope date_from max_results scroll_ttl) w
  = (Return r, w') ->
  is_page r items cursor ->
  items <> [] ->
  truthy cursor = false ->
  extract_rows py_repr items = Return rows ->
  search w
  = (Return (py_slice_to rows max_results,
             {| pages := 1;
                scroll_id := cursor;
                last_status := Some 200;
                returned := len (py_slice_to rows max_results) |}), w').
Proof.
  intros Hmax Hpost Hpage Hne Hcur Hrows.
  assert (Hlt : len (all_rows st0) < max_results) by exact Hmax.
  pose proof (handle_response_page py_repr max_results delay_sec st0 r w' items rows
                cursor Hpage Hne Hrows) as Hh.
  cbv zeta in Hh.
  cbn [initial_locals initial_debug all_rows loc_scroll_id payload debug pages
       scroll_id is_none app] in Hh.
  change (len (@nil pyval)) with 0 in Hh. rewrite Z.sub_0_r in Hh.
  rewrite Hcur in Hh. cbn [negb orb] in Hh.
  exact (search_from_response py_repr token keyword scope date_from max_results
           scroll_ttl delay_sec timeout w st0 w r w' _ w'
           (iteration_first _ _ _ _ _ _ _) Hlt Hpost Hh).
Qed.

(** A 200 response whose body is not what the loop expects makes the search
    raise, in the world the response was received in: [JSONDecodeError] for a
    body that is not JSON; [AttributeError] for JSON that is not an object;
    for an object whose ["data"] Python takes for true, [TypeError] when it
    cannot be iterated (a number, [True]) and [AttributeError] when one of
    its items is not a record the normalizer accepts (so for every non-empty
    string or object, whose items are strings). *)
Theorem malformed_body_raises (w0 : World) (st : Locals) (w : World)
    (r : Response) (w' : World) :
  reaches st0 w0 st w ->
  len (all_rows st) < max_results ->
  transport (payload st) w = (Return r, w') ->
  status_code r = 200 ->
  (json r = None -> search w0 = (Raise JSONDecodeError, w'))
  /\ (forall js : pyval,
        json r = Some js -> is_dict js = false ->
        search w0 = (Raise AttributeError, w'))
  /\ (forall (js : pydict) (data : pyval),
        json r = Some (PDict js) ->
        dict_get js (py "data") = Some data ->
        truthy data = true ->
        (py_iter data = Raise TypeError -> search w0 = (Raise TypeError, w'))
        /\ (forall items : list pyval,
              py_iter data = Return items ->
              Exists (fun item => well_nested item = false) items ->
              search w0 = (Raise AttributeError, w'))
        /\ ((is_str data = true \/ is_dict data = true) ->
            search w0 = (Raise AttributeError, w'))).
Proof.
  intros Hit Hlt Hpost Hs.
  assert (Hend : forall e : exn,
            handle st r w' = (Raise e, w') -> search w0 = (Raise e, w')).
  { intros e Hh.
    exact (search_from_response py_repr token keyword scope date_from max_results
             scroll_ttl delay_sec timeout w0 st w r w' _ w' Hit Hlt Hpost Hh). }
  split; [|split].
  - intros Hj. apply Hend. now apply handle_response_not_json.
  - intros js Hj Hd. apply Hend. now apply (handle_response_not_object st r w' js).
  - intros js data Hj Hd Ht.
    assert (Hitems : forall items : list pyval,
              py_iter data = Return items ->
              Exists (fun item => well_nested item = false) items ->
              search w0 = (Raise AttributeError, w')).
    { intros items Hi Hex. apply Hend.
      apply (handle_response_data st r w' js data AttributeError Hs Hj Hd Ht).
      rewrite Hi. cbn [obind]. now apply extract_rows_fails. }
    split; [|split; [exact Hitems|]].
    + intros Hi. apply Hend.
      apply (handle_response_data st r w' js data TypeError Hs Hj Hd Ht).
      now rewrite Hi.
    + intros Hkind.
      destruct data as [| | | |s| |d]; cbn [is_str is_dict] in Hkind;
        try (destruct Hkind; discriminate).
      * destruct s as [|c s]; [discriminate|].
        apply (Hitems _ eq_refl). now apply Exists_cons_hd.
      * destruct d as [|kv d]; [discriminate|].
        apply (Hitems _ eq_refl). now apply Exists_cons_hd.
Qed.


(** Five answers 429 in a row, at any iteration, use up the attempts of the
    transport: the search has then posted the same request five times, slept
    2, 4, 6, 8 and 10 seconds, the last sleep for nothing, and raises the
    "API Error" for the status 429 with the text of the fifth answer. *)
Theorem rate_limit_exhaustion_raises (w0 : World) (st : Locals)
    (u : nat -> option Response) (t : list event) (last : Response) :
  reaches st0 w0 st (mkWorld u t) ->
  len (all_rows st) < max_results ->
  (forall i, (i < 5)%nat ->
     exists r, u (posts_made t + i)%nat = Some r /\ status_code r = 429) ->
  u (posts_made t + 4)%nat = Some last ->
  search w0
  = (Raise (RuntimeError (py "API Error 429: " ++ text last)),
     mkWorld u (t ++ rate_limited_attempts hs (payload st) timeout 2 0 5))
  /\ map (fun i => backoff_length 2 (Z.of_nat i)) (seq 0 5)
     = [2; 4; 6; 8; 10]%float.
Proof.
  intros Hit Hlt Hup Hlast. split; [|reflexivity].
  destruct (retry_attempts_rate_limited hs (payload st) timeout default_backoff_sec u
              5 0 0 None t Hup) as (last' & Hrun & _ & _ & Hl).
  { intros i Hi. apply default_backoffs_accepted.
    vm_compute. do 5 (destruct i as [|i]; [auto 10|]). lia. }
  specialize (Hl 4%nat eq_refl). rewrite Hlast in Hl. subst last'.
  assert (Hs : status_code last = 429).
  { destruct (Hup 4%nat ltac:(lia)) as (r & Hr & Hs). congruence. }
  apply (search_from_iteration py_repr token keyword scope date_from max_results
           scroll_ttl delay_sec timeout w0 st (mkWorld u t)
           (Raise (RuntimeError (py "API Error 429: " ++ text last))) _ Hit Hlt).
  unfold loop_body, bind, _post_with_retry.
  change (py_range (default_max_retries + 1)) with (map Z.of_nat (seq 0 (5 + 0))).
  rewrite Hrun. cbn [seq map retry_attempts]. unfold ret.
  rewrite handle_response_other by (rewrite Hs; discriminate).
  unfold msg_api_error. rewrite Hs. reflexivity.
Qed.

End SearchSteps.

(** The sample search: the first request and what it makes of one answer. *)
Lemma sample_search_posts (r : Response) :
  status_code r <> 429 ->
  _post_with_retry sample_headers (payload sample_locals) 30
    default_max_retries default_backoff_sec (mkWorld (scripted [r]) [])
  = (Return r,
     mkWorld (scripted [r]) [Post LENS_ENDPOINT sample_headers sample_payload 30]).
Proof.
  intros Hr. apply (post_once sample_headers 30); [reflexivity|exact Hr].
Qed.

(** A first page with no records. *)
Lemma empty_page_ends_search_witness :
  (forall py_repr,
     lens_search_with_scroll py_repr (py "s3cr3t") (py "skin stapler")
       (py "title+abstract") (Some (py "2018-01-01")) 200 (py "1m") 0.5 30
       (mkWorld (scripted [empty_page]) [])
     = (Return ([], {| pages := 1; scroll_id := PNone; last_status := Some 200;
                       returned := 0 |}),
        mkWorld (scripted [empty_page])
                [Post LENS_ENDPOINT sample_headers sample_payload 30]))
  /\ status_code empty_page = 200.
Proof.
  split; [intros py_repr|reflexivity].
  exact (empty_page_ends_search py_repr (py "s3cr3t") (py "skin stapler")
           (py "title+abstract") (Some (py "2018-01-01")) 200 (py "1m") 0.5%float 30
           (mkWorld (scripted [empty_page]) []) sample_locals _ empty_page _
           [(py "data", PList []); (py "total", PInt 0)]
           (iteration_first _ _ _ _ _ _ _) eq_refl
           (sample_search_posts empty_page ltac:(discriminate))
           eq_refl eq_refl eq_refl).
Defined.

(** A first page of one record that comes without a cursor. *)
Lemma first_page_without_cursor_is_the_last_witness :
  (forall py_repr,
     lens_search_with_scroll py_repr (py "s3cr3t") (py "skin stapler")
       (py "title+abstract") (Some (py "2018-01-01")) 200 (py "1m") 0.5 30
       (mkWorld (scripted [page_without_cursor]) [])
     = (Return ([sample_row],
                {| pages := 1; scroll_id := PNone; last_status := Some 200;
                   returned := 1 |}),
        mkWorld (scripted [page_without_cursor])
                [Post LENS_ENDPOINT sample_headers sample_payload 30]))
  /\ is_page page_without_cursor [sample_record] PNone.
Proof.
  assert (Hpage : is_page page_without_cursor [sample_record] PNone).
  { split; [reflexivity|]. eexists. repeat split; reflexivity. }
  split; [intros py_repr|exact Hpage].
  exact (first_page_without_cursor_is_the_last py_repr (py "s3cr3t")
           (py "skin stapler") (py "title+abstract") (Some (py "2018-01-01")) 200
           (py "1m") 0.5%float 30
           (mkWorld (scripted [page_without_cursor]) []) page_without_cursor _
           [sample_record] [sample_row] PNone ltac:(lia)
           (sample_search_posts page_without_cursor ltac:(discriminate))
           Hpage ltac:(discriminate) eq_refl eq_refl).
Defined.

(** First answers that are an HTML page, a JSON list, and objects whose
    ["data"] is a number and a string. *)
Lemma malformed_body_raises_witness :
  (forall py_repr,
     lens_search_with_scroll py_repr (py "s3cr3t") (py "skin stapler")
       (py "title+abstract") (Some (py "2018-01-01")) 200 (py "1m") 0.5 30
       (mkWorld (scripted [html_body]) [])
     = (Raise JSONDecodeError,
        mkWorld (scripted [html_body])
                [Post LENS_ENDPOINT sample_headers sample_payload 30]))
  /\ (forall py_repr,
        lens_search_with_scroll py_repr (py "s3cr3t") (py "skin stapler")
          (py "title+abstract") (Some (py "2018-01-01")) 200 (py "1m") 0.5 30
          (mkWorld (scripted [list_body]) [])
        = (Raise AttributeError,
           mkWorld (scripted [list_body])
                   [Post LENS_ENDPOINT sample_headers sample_payload 30]))
  /\ (forall py_repr,
        lens_search_with_scroll py_repr (py "s3cr3t") (py "skin stapler")
          (py "title+abstract") (Some (py "2018-01-01")) 200 (py "1m") 0.5 30
          (mkWorld (scripted [count_as_data]) [])
        = (Raise TypeError,
           mkWorld (scripted [count_as_data])
                   [Post LENS_ENDPOINT sample_headers sample_payload 30]))
  /\ (forall py_repr,
        lens_search_with_scroll py_repr (py "s3cr3t") (py "skin stapler")
          (py "title+abstract") (Some (py "2018-01-01")) 200 (py "1m") 0.5 30
          (mkWorld (scripted [text_as_data]) [])
        = (Raise AttributeError,
           mkWorld (scripted [text_as_data])
                   [Post LENS_ENDPOINT sample_headers sample_payload 30])).
Proof.
  pose proof (fun (py_repr : pyval -> pystr) (r : Response)
                  (Hr : status_code r <> 429) (Hs : status_code r = 200) =>
                malformed_body_raises py_repr (py "s3cr3t") (py "skin stapler")
                  (py "title+abstract") (Some (py "2018-01-01")) 200 (py "1m")
                  0.5%float 30 (mkWorld (scripted [r]) []) sample_locals _ r _
                  (iteration_first _ _ _ _ _ _ _) eq_refl
                  (sample_search_posts r Hr) Hs) as H.
  split; [|split; [|split]]; intros py_repr.
  - exact (proj1 (H py_repr html_body ltac:(discriminate) eq_refl) eq_refl).
  - exact (proj1 (proj2 (H py_repr list_body ltac:(discriminate) eq_refl))
             (PList []) eq_refl eq_refl).
  - exact (proj1 (proj2 (proj2 (H py_repr count_as_data ltac:(discriminate) eq_refl))
                    [(py "data", PInt 3)] (PInt 3) eq_refl eq_refl eq_refl)
             eq_refl).
  - exact (proj2 (proj2 (proj2 (proj2 (H py_repr text_as_data ltac:(discriminate)
                                          eq_refl))
                           [(py "data", PStr (py "none"))] (PStr (py "none"))
                           eq_refl eq_refl eq_refl))
             (or_introl eq_refl)).
Defined.


(** Five answers 429 to the first request. *)
Lemma rate_limit_exhaustion_raises_witness :
  (forall py_repr,
     lens_search_with_scroll py_repr (py "s3cr3t") (py "skin stapler")
       (py "title+abstract") (Some (py "2018-01-01")) 200 (py "1m") 0.5 30
       (mkWorld (scripted (repeat too_many_requests 5)) [])
     = (Raise (RuntimeError (py "API Error 429: Too Many Requests")),
        mkWorld (scripted (repeat too_many_requests 5))
          (rate_limited_attempts sample_headers sample_payload 30 2 0 5)))
  /\ posts_made (rate_limited_attempts sample_headers sample_payload 30 2 0 5) = 5%nat.
Proof.
  split; [intros py_repr|reflexivity].
  assert (Hup : forall i, (i < 5)%nat ->
            exists r, scripted (repeat too_many_requests 5) (posts_made [] + i)%nat
                      = Some r /\ status_code r = 429).
  { intros i Hi. exists too_many_requests.
    do 5 (destruct i as [|i]; [split; reflexivity|]). lia. }
  exact (proj1 (rate_limit_exhaustion_raises py_repr (py "s3cr3t") (py "skin stapler")
           (py "title+abstract") (Some (py "2018-01-01")) 200 (py "1m") 0.5%float 30
           (mkWorld (scripted (repeat too_many_requests 5)) []) sample_locals
           (scripted (repeat too_many_requests 5)) [] too_many_requests
           (iteration_first _ _ _ _ _ _ _) eq_refl Hup eq_refl)).
Defined.

(* ================================================================= *)
(** * A search started from the page *)

(** The query for a date that is not the empty string: the clause of the
    scope and the date filter. *)
Lemma build_query_with_date (keyword scope d : pystr) :
  d <> [] ->
  exists clause : pyval,
    build_query keyword scope (Some d)
    = PDict [(py "bool", PDict [(py "must", PList [clause]);
                                (py "filter", PList [published_from d])])].
Proof.
  intros Hd. unfold build_query.
  assert (Ht : opt_truthy (Some d) = true) by (destruct d; [congruence|reflexivity]).
  rewrite Ht. cbn [app truthy opt_value].
  destruct (pystr_eqb scope (py "title")); [eexists; reflexivity|].
  destruct (pystr_eqb scope (py "abstract")); [eexists; reflexivity|].
  destruct (pystr_eqb scope (py "title+abstract")); eexists; reflexivity.
Qed.

(** Attempts, when there is one to make, begin by posting the request. *)
Lemma retry_attempts_first_event (headers : pydict) (payload : pyval) (timeout : Z)
    (backoff_sec : float) (attempt : Z) (rest : list Z) (last : option Response)
    (w : World) :
  exists evs : list event,
    snd (retry_attempts (attempt :: rest) last headers payload timeout backoff_sec w)
    = mkWorld (upstream w)
        (trace w ++ Post LENS_ENDPOINT headers payload timeout :: evs)
    /\ Forall (transport_event headers payload timeout) evs.
Proof.
  destruct w as [u t]. unfold retry_attempts; fold retry_attempts.
  unfold bind at 1, requests_post, log. cbn [upstream trace].
  destruct (u (posts_made t)) as [r|]; [|exists []; split; [reflexivity|constructor]].
  destruct (status_code r =? 429); [|exists []; split; [reflexivity|constructor]].
  unfold bind at 1, lift.
  destruct (float_mul_int backoff_sec (attempt + 1)) as [s|e|];
    [|exists []; split; [reflexivity|constructor]..].
  unfold bind at 1, time_sleep.
  destruct (sleep_refusal s) eqn:Hs; [exists []; split; [reflexivity|constructor]|].
  destruct (retry_attempts_events headers payload timeout backoff_sec rest (Some r)
              (log (Sleep s) (mkWorld u (t ++ [Post LENS_ENDPOINT headers payload timeout]))))
    as (evs & Hw & Hall & _).
  exists (Sleep s :: evs). rewrite Hw. unfold log. cbn [upstream trace].
  split; [now rewrite <- !app_assoc|].
  constructor; [right; now exists s|assumption].
Qed.

Section FirstRequest.

Variable py_repr : pyval -> pystr.
Variables (headers : pydict) (max_results : Z) (delay_sec : float) (timeout : Z).

Local Abbreviation body := (loop_body py_repr headers max_results delay_sec timeout).
Local Abbreviation reaches := (iteration py_repr headers max_results delay_sec timeout).

(** A run of the loop body begins by posting the payload the locals hold. *)
Lemma loop_body_first_event (st : Locals) (w : World) (o : outcome flow) (w' : World) :
  body st w = (o, w') ->
  exists evs : list event,
    w' = mkWorld (upstream w)
           (trace w ++ Post LENS_ENDPOINT headers (payload st) timeout :: evs)
    /\ Forall (endpoint_event headers timeout) evs.
Proof.
  unfold loop_body, bind, _post_with_retry. intros H.
  change (py_range (default_max_retries + 1))
    with (0 :: map Z.of_nat (seq 1 4)) in H.
  destruct (retry_attempts_first_event headers (payload st) timeout default_backoff_sec
              0 (map Z.of_nat (seq 1 4)) None w) as (evs & Hw & Hall).
  assert (Hall' : Forall (endpoint_event headers timeout) evs).
  { eapply Forall_impl; [|exact Hall]. apply transport_event_endpoint. }
  destruct (retry_attempts _ _ _ _ _ _ w) as [[r|e|] w1]; cbn [fst snd] in *.
  - destruct (handle_response_world py_repr max_results delay_sec st r w1 o w' H)
      as [-> | (-> & Hs)].
    + now exists evs.
    + exists (evs ++ [Sleep (py_max 0 delay_sec)]). subst w1. unfold log.
      cbn [upstream trace]. split; [now rewrite <- app_assoc|].
      apply Forall_app. split; [assumption|]. constructor; [|constructor].
      right. now exists (py_max 0 delay_sec).
  - injection H as <- <-. now exists evs.
  - injection H as <- <-. now exists evs.
Qed.

(** Past the first iteration, the trace begins with the post of the payload
    the loop was entered with. *)
Lemma iteration_first_event (st0 st : Locals) (w0 w : World) :
  reaches st0 w0 st w ->
  st = st0 /\ w = w0
  \/ exists evs : list event,
       w = mkWorld (upstream w0)
             (trace w0 ++ Post LENS_ENDPOINT headers (payload st0) timeout :: evs)
       /\ Forall (endpoint_event headers timeout) evs.
Proof.
  induction 1 as [|st w st' w' _ IH Hlt Hbody]; [now left|]. right.
  destruct IH as [(-> & ->) | (evs & -> & Hall)].
  - exact (loop_body_first_event st0 w0 _ w' Hbody).
  - destruct (loop_body_trace py_repr headers max_results delay_sec timeout
                st _ _ w' Hbody) as (evs' & -> & Hall' & _).
    exists (evs ++ evs'). cbn [upstream trace].
    split; [now rewrite <- app_assoc|]. now apply Forall_app.
Qed.

End FirstRequest.

(** A search that is asked for at least one row begins by posting its query:
    the headers with the stripped token, the payload with the query, the
    fields to include, the scroll TTL and the page size. *)
Lemma search_first_event (py_repr : pyval -> pystr) (token keyword scope : pystr)
    (date_from : option pystr) (max_results : Z) (scroll_ttl : pystr)
    (delay_sec : float) (timeout : Z) (w : World) :
  0 < max_results ->
  exists evs : list event,
    snd (lens_search_with_scroll py_repr token keyword scope date_from max_results
           scroll_ttl delay_sec timeout w)
    = mkWorld (upstream w)
        (trace w ++ Post LENS_ENDPOINT (request_headers token)
                      (initial_payload keyword scope date_from max_results scroll_ttl)
                      timeout :: evs)
    /\ Forall (endpoint_event (request_headers token) timeout) evs.
Proof.
  intros Hmax.
  destruct (lens_search_with_scroll _ _ _ _ _ _ _ _ _ w) as [o w'] eqn:E.
  cbn [snd].
  destruct (search_run py_repr token keyword scope date_from max_results scroll_ttl
              delay_sec timeout w o w' E) as (stk & wk & Hit & Hend).
  pose proof (iteration_first_event py_repr (request_headers token) max_results
                delay_sec timeout _ _ _ _ Hit) as Hfirst.
  assert (Hlast : forall o' : outcome flow,
            loop_body py_repr (request_headers token) max_results delay_sec timeout
              stk wk = (o', w') ->
            exists evs : list event,
              w' = mkWorld (upstream w)
                     (trace w ++ Post LENS_ENDPOINT (request_headers token)
                        (initial_payload keyword scope date_from max_results scroll_ttl)
                        timeout :: evs)
              /\ Forall (endpoint_event (request_headers token) timeout) evs).
  { intros o' Hb. destruct Hfirst as [(-> & ->) | (evs & -> & Hall)].
    - exact (loop_body_first_event py_repr _ _ _ _ _ _ _ _ Hb).
    - destruct (loop_body_trace py_repr _ _ _ _ _ _ _ _ Hb) as (evs' & -> & Hall' & _).
      exists (evs ++ evs'). cbn [upstream trace].
      split; [now rewrite <- app_assoc|]. now apply Forall_app. }
  destruct Hend as [(Hge & _ & ->) | [(_ & st' & Hb & _) | (_ & e & Hb & _)]].
  - destruct Hfirst as [(-> & _) | Hevs]; [|exact Hevs].
    cbn [initial_locals all_rows] in Hge. change (len (@nil pyval)) with 0 in Hge. lia.
  - exact (Hlast _ Hb).
  - exact (Hlast _ Hb).
Qed.

(** A search started from the page, with a token that is not blank and a cap
    of at least one row, begins by posting to the Lens endpoint, with the
    stripped token as bearer and a timeout of 30 seconds, a query that
    always has the date filter: from the first of January of the year of the
    sidebar.  After that it only talks to the endpoint and sleeps; it shows
    no error. *)
Theorem page_search_posts_dated_query (py_repr : pyval -> pystr) (sb : Sidebar)
    (w : World) :
  sb_run sb = true ->
  strip (sb_token sb) <> [] ->
  0 < sb_max_results sb ->
  exists (clause : pyval) (evs : list event),
    snd (run_handler py_repr sb w)
    = mkWorld (upstream w)
        (trace w
         ++ Post LENS_ENDPOINT
              [(py "Authorization", PStr (py "Bearer " ++ strip (sb_token sb)));
               (py "Content-Type", PStr (py "application/json"))]
              (PDict [(py "query",
                       PDict [(py "bool",
                               PDict [(py "must", PList [clause]);
                                      (py "filter",
                                       PList [published_from
                                                (str_of_int (sb_year_from sb)
                                                 ++ py "-01-01")])])]);
                      (py "include", include);
                      (py "scroll", PStr (sb_scroll_ttl sb));
                      (py "size", PInt (Z.min 100 (sb_max_results sb)))])
              30
         :: evs)
    /\ Forall (endpoint_event (request_headers (sb_token sb)) 30) evs
    /\ build_query (sb_keyword sb) (sb_scope sb)
         (Some (str_of_int (sb_year_from sb) ++ py "-01-01"))
       = PDict [(py "bool",
                 PDict [(py "must", PList [clause]);
                        (py "filter",
                         PList [published_from
                                  (str_of_int (sb_year_from sb) ++ py "-01-01")])])].
Proof.
  intros Hrun Htoken Hmax.
  destruct (build_query_with_date (sb_keyword sb) (sb_scope sb)
              (str_of_int (sb_year_from sb) ++ py "-01-01")) as (clause & Hq).
  { intros E. apply app_eq_nil in E as [_ E]. discriminate. }
  destruct (search_first_event py_repr (sb_token sb) (sb_keyword sb) (sb_scope sb)
              (Some (str_of_int (sb_year_from sb) ++ py "-01-01"))
              (sb_max_results sb) (sb_scroll_ttl sb) (sb_delay_sec sb) 30 w Hmax)
    as (evs & Hw & Hall).
  exists clause, evs. split; [|split; [exact Hall|exact Hq]].
  match type of Hw with
  | context [initial_payload ?k ?s ?d ?m ?t] =>
      assert (Hp : initial_payload k s d m t
                   = PDict [(py "query",
                             PDict [(py "bool",
                                     PDict [(py "must", PList [clause]);
                                            (py "filter",
                                             PList [published_from
                                                      (str_of_int (sb_year_from sb)
                                                       ++ py "-01-01")])])]);
                            (py "include", include);
                            (py "scroll", PStr (sb_scroll_ttl sb));
                            (py "size", PInt (Z.min 100 (sb_max_results sb)))])
        by (unfold initial_payload; do 3 f_equal; exact Hq);
      rewrite Hp in Hw
  end.
  unfold run_handler. rewrite Hrun.
  assert (Ht : truthy (PStr (strip (sb_token sb))) = true)
    by (destruct (strip (sb_token sb)); [congruence|reflexivity]).
  rewrite Ht. cbn [negb]. unfold bind at 1, ret at 1. unfold bind at 1.
  destruct (lens_search_with_scroll _ _ _ _ _ _ _ _ _ w) as [[res|e|] w'];
    cbn [snd] in *; exact Hw.
Qed.

(** A search from the page for the year 2018, answered 204. *)
Lemma page_search_posts_dated_query_witness :
  (forall py_repr,
     run_handler py_repr
       (mkSidebar (py " s3cr3t ") (py "skin stapler") (py "title") 2018 200
                  (py "1m") 0.5 false true)
       (mkWorld (scripted [no_content]) [])
     = (Return (Some ([], {| pages := 1; scroll_id := PNone;
                             last_status := Some 204; returned := 0 |})),
        mkWorld (scripted [no_content])
          [Post LENS_ENDPOINT
             [(py "Authorization", PStr (py "Bearer s3cr3t"));
              (py "Content-Type", PStr (py "application/json"))]
             (PDict [(py "query",
                      PDict [(py "bool",
                              PDict [(py "must",
                                      PList [match_on (py "title") (py "skin stapler")]);
                                     (py "filter",
                                      PList [published_from (py "2018-01-01")])])]);
                     (py "include", include);
                     (py "scroll", PStr (py "1m"));
                     (py "size", PInt 100)])
             30]))
  /\ (exists (clause : pyval) (evs : list event),
        clause = match_on (py "title") (py "skin stapler") /\ evs = []).
Proof.
  split; [intros py_repr; vm_compute; reflexivity|].
  destruct (page_search_posts_dated_query (fun _ => [])
              (mkSidebar (py " s3cr3t ") (py "skin stapler") (py "title") 2018 200
                         (py "1m") 0.5%float false true)
              (mkWorld (scripted [no_content]) [])
              eq_refl ltac:(vm_compute; discriminate) ltac:(vm_compute; reflexivity))
    as (clause & evs & Hw & _ & _).
  vm_compute in Hw. injection Hw as Hc He.
  exists clause, evs. split; [now symmetry|now symmetry].
Defined.
